(** * ZAP: the environment registry, its resolver and its commands

    A shallow embedding of [zap.py].  The registry is the directory tree
    below [ENV_ROOT]; every query of the program is a walk of that tree
    ([Path.exists], [Path.is_dir], [Path.iterdir]) and every mutation is
    [Path.mkdir], [shutil.rmtree] or the delegated [python -m venv].

    Conventions of the model.
    - A [Path] is the list of components below [ENV_ROOT]; [p / n] appends
      one component.  The [name] and [version] arguments of the commands are
      used as names of directory entries ([FS.entry_name]): not empty, not
      [.] or [..], without separator, drive colon or NUL.  What pathlib
      makes of other strings (the empty name is the directory itself, a
      separator makes several components, an absolute path leaves
      [ENV_ROOT]) is outside the model: the lookups and the commands are
      modelled for entry names, and a statement that would not hold for
      other strings says so in a hypothesis.  Entry names are compared
      exactly, as a case-sensitive file system does.
    - The per-user file is the list of the lines a reader gets from it;
      writing stores the lines of the text written ([Py.file_lines]).
    - A directory is the list of its entries in the order [iterdir] yields
      them.  Symbolic links, permissions and races are not modelled: a
      removal or creation whose precondition holds succeeds.
    - A [string] is the byte string of the Python [str].  The built-ins
      [int] and [str.strip], whose answers on text outside ASCII follow
      Unicode tables, are parameters of the commands; [Py.decimal_int]
      and [Py.strip_ascii] are the instances the examples run with.
    - Whatever lies outside the program is a field of [Env] or [World]:
      [installed_pythons()] (the py launcher, or PATH) is the snapshot
      [installed]; an external process is the function [subprocess_run]
      from its arguments and the file system to its result and the file
      system it leaves; standard input is the list of what the [input()]
      calls to come will get; what is printed, read and started is
      appended to the trace. *)

From Stdlib Require Import List String Ascii ZArith Lia Bool Arith.
From Stdlib Require Import Permutation Sorted DecimalString.
From Stdlib Require OrderedTypeEx.
Import ListNotations.
Open Scope list_scope.
Open Scope string_scope.

(** ** The file system below ENV_ROOT *)

Module FS.

#[warnings="-register-all"]
Inductive node : Type :=
| File (content : string)
| Dir (entries : list (string * node)).

Definition dir : Type := list (string * node).

Definition Path : Type := list string.

(** [p / n] *)
Definition join (p : Path) (n : string) : Path := (p ++ [n])%list.

(** [p.name]: the last component. *)
Definition name (p : Path) : string := last p EmptyString.

(** [p.parent] *)
Definition parent (p : Path) : Path := removelast p.

Fixpoint child (n : string) (d : dir) : option node :=
  match d with
  | [] => None
  | (k, c) :: d' => if String.eqb n k then Some c else child n d'
  end.

(** The node a path leads to, from a node. *)
Fixpoint stat (nd : node) (p : Path) : option node :=
  match p with
  | [] => Some nd
  | n :: p' =>
      match nd with
      | File _ => None
      | Dir d => match child n d with
                 | Some c => stat c p'
                 | None => None
                 end
      end
  end.

(** [p.exists()] *)
Definition exists_ (fs : dir) (p : Path) : bool :=
  match stat (Dir fs) p with Some _ => true | None => false end.

(** [p.is_dir()] *)
Definition is_dir (fs : dir) (p : Path) : bool :=
  match stat (Dir fs) p with Some (Dir _) => true | _ => false end.

(** [p.is_file()] *)
Definition is_file (fs : dir) (p : Path) : bool :=
  match stat (Dir fs) p with Some (File _) => true | _ => false end.

(** [p.iterdir()] on a directory: the paths of its entries, in order. *)
Definition iterdir (fs : dir) (p : Path) : list Path :=
  match stat (Dir fs) p with
  | Some (Dir d) => map (fun e => join p (fst e)) d
  | _ => []
  end.

Definition remove (n : string) (d : dir) : dir :=
  filter (fun e => negb (String.eqb n (fst e))) d.

(** Replace the entry [n] where it stands; append it when it is new. *)
Fixpoint put (n : string) (c : node) (d : dir) : dir :=
  match d with
  | [] => [(n, c)]
  | (k, c') :: d' => if String.eqb n k then (k, c) :: d' else (k, c') :: put n c d'
  end.

(** Removal of the entry a path leads to, with everything below it;
    [None] when the path leads nowhere. *)
Fixpoint unlink (p : Path) (d : dir) : option dir :=
  match p with
  | [] => None
  | [n] => match child n d with
           | Some _ => Some (remove n d)
           | None => None
           end
  | n :: p' =>
      match child n d with
      | Some (Dir d') =>
          match unlink p' d' with
          | Some d'' => Some (put n (Dir d'') d)
          | None => None
          end
      | _ => None
      end
  end.

(** [p.mkdir(parents=True, exist_ok=True)]: every missing directory on the
    way is created; [None] (FileExistsError / NotADirectoryError) when a
    component on the way is a file. *)
Fixpoint mkdir_p (p : Path) (d : dir) : option dir :=
  match p with
  | [] => Some d
  | n :: p' =>
      match child n d with
      | Some (File _) => None
      | Some (Dir d') =>
          match mkdir_p p' d' with
          | Some d'' => Some (put n (Dir d'') d)
          | None => None
          end
      | None =>
          match mkdir_p p' [] with
          | Some d'' => Some (put n (Dir d'') d)
          | None => None
          end
      end
  end.

(** Entry names of a real directory are non-empty and pairwise distinct. *)
Fixpoint distinct (l : list string) : bool :=
  match l with
  | [] => true
  | x :: l' => negb (existsb (String.eqb x) l') && distinct l'
  end.

Definition nonempty (s : string) : bool :=
  match s with EmptyString => false | _ => true end.

Definition wf_dir (d : dir) : bool :=
  distinct (map fst d) && forallb nonempty (map fst d).

(** A string that pathlib takes, on every platform, as the name of one
    directory entry: joining it to a path adds exactly that component. *)
Definition plain_char (c : ascii) : bool :=
  negb (Ascii.eqb c "/"%char || Ascii.eqb c "\"%char || Ascii.eqb c ":"%char
        || Ascii.eqb c zero).

Fixpoint plain (s : string) : bool :=
  match s with
  | EmptyString => true
  | String c s' => plain_char c && plain s'
  end.

Definition entry_name (s : string) : bool :=
  nonempty s && negb (String.eqb s ".") && negb (String.eqb s "..") && plain s.

(** A version tag as the commands take it: none, the empty tag (which the
    commands treat as none), or an entry name. *)
Definition entry_tag (version : option string) : bool :=
  match version with
  | None => true
  | Some EmptyString => true
  | Some t => entry_name t
  end.

End FS.

Import FS.

(** ** Helper functions of zap.py *)

Definition marker : string := "pyvenv.cfg".

(** [envs_by_version]: the dict is kept as the list of its items in
    insertion order; assigning to a key that is present keeps its place. *)
Definition dict_set {V : Type} (k : string) (v : V) (d : list (string * V))
  : list (string * V) :=
  (fix go (d : list (string * V)) : list (string * V) :=
     match d with
     | [] => [(k, v)]
     | (k', v') :: d' => if String.eqb k k' then (k', v) :: d' else (k', v') :: go d'
     end) d.

Definition dict_get {V : Type} (k : string) (d : list (string * V)) : option V :=
  (fix go (d : list (string * V)) : option V :=
     match d with
     | [] => None
     | (k', v') :: d' => if String.eqb k k' then Some v' else go d'
     end) d.

Definition envs_by_version (fs : dir) : list (string * list Path) :=
  fold_left
    (fun envs ver_dir =>
       if is_dir fs ver_dir then
         dict_set (name ver_dir)
           (filter (fun p => exists_ fs (join p marker)) (iterdir fs ver_dir))
           envs
       else envs)
    (iterdir fs []) [].

(** The loop of [find_envs_by_name], with [matching_envs] as accumulator;
    returning the accumulator early is the [break].  [nm] is the name of a
    directory entry ([entry_name]): [ver_dir / name] is then the entry
    [name] of [ver_dir], which is what [join] makes. *)
Fixpoint find_envs_loop (fs : dir) (nm : string) (find_all : bool)
  (ver_dirs : list Path) (matching_envs : list (string * Path))
  : list (string * Path) :=
  match ver_dirs with
  | [] => matching_envs
  | ver_dir :: rest =>
      if negb (is_dir fs ver_dir) then
        find_envs_loop fs nm find_all rest matching_envs
      else
        let potential_env := join ver_dir nm in
        if exists_ fs potential_env && exists_ fs (join potential_env marker) then
          let matching_envs' := (matching_envs ++ [(name ver_dir, potential_env)])%list in
          if negb find_all && (2 <=? List.length matching_envs')%nat then
            matching_envs'
          else find_envs_loop fs nm find_all rest matching_envs'
        else find_envs_loop fs nm find_all rest matching_envs
  end.

Definition find_envs_by_name (fs : dir) (nm : string) (find_all : bool)
  : list (string * Path) :=
  find_envs_loop fs nm find_all (iterdir fs []) [].

(** Truth value of an [Optional[str]]: [None] and the empty string are
    false. *)
Definition truthy (o : option string) : bool :=
  match o with
  | Some s => nonempty s
  | None => false
  end.

(** [ENV_ROOT.glob("*/*")]: the entries of the directories among the
    entries of the root. *)
Definition glob2 (fs : dir) : list Path :=
  flat_map (fun d => if is_dir fs d then iterdir fs d else []) (iterdir fs []).

(** [env_path], for a name and a tag that are names of directory entries
    ([entry_name]; the tag may also be [None] or empty): [ENV_ROOT / version
    / name] is then the entry [name] of the entry [version] of the root. *)
Definition env_path (fs : dir) (nm : string) (version : option string)
  : option Path :=
  if truthy version then
    match version with
    | Some v =>
        let env_dir := join (join [] v) nm in
        if is_dir fs env_dir && exists_ fs (join env_dir marker)
        then Some env_dir else None
    | None => None
    end
  else
    find (fun sub => is_dir fs sub && String.eqb (name sub) nm
                     && exists_ fs (join sub marker))
         (glob2 fs).

(** ** Python built-ins on byte strings *)

Module Py.

Definition nl : string := String (ascii_of_nat 10) EmptyString.

Definition lower_ascii (c : ascii) : ascii :=
  let n := nat_of_ascii c in
  if (65 <=? n)%nat && (n <=? 90)%nat then ascii_of_nat (n + 32) else c.

(** [s.lower()]: bytes outside A-Z are kept, so the result is ["y"]
    exactly for ["y"] and ["Y"], as for the Python [str]. *)
Fixpoint lower (s : string) : string :=
  match s with
  | EmptyString => EmptyString
  | String c s' => String (lower_ascii c) (lower s')
  end.

Definition lf : ascii := ascii_of_nat 10.

Definition cr : ascii := ascii_of_nat 13.

(** What [f.write(s)] stores through a file opened in text mode: each line
    feed becomes the line separator of the platform. *)
Fixpoint written (nt : bool) (s : string) : string :=
  match s with
  | EmptyString => EmptyString
  | String c s' =>
      if Ascii.eqb c lf && nt then String cr (String lf (written nt s'))
      else String c (written nt s')
  end.

(** The lines [for line in f] yields from a file opened in text mode: a
    line ends at a line feed, a carriage return or the two together, each
    read as one line feed. *)
Fixpoint read_lines_acc (cur : string) (s : string) : list string :=
  match s with
  | EmptyString => match cur with EmptyString => [] | _ => [cur] end
  | String c s' =>
      if Ascii.eqb c lf then (cur ++ nl) :: read_lines_acc EmptyString s'
      else if Ascii.eqb c cr then
        match s' with
        | String c' s'' =>
            if Ascii.eqb c' lf then (cur ++ nl) :: read_lines_acc EmptyString s''
            else (cur ++ nl) :: read_lines_acc EmptyString s'
        | EmptyString => [cur ++ nl]
        end
      else read_lines_acc (cur ++ String c EmptyString) s'
  end.

Definition file_lines (nt : bool) (text : string) : list string :=
  read_lines_acc EmptyString (written nt text).


(** [s.startswith(p)] *)
Definition startswith (p s : string) : bool := String.prefix p s.

(** [needle in s] *)
Fixpoint contains (needle s : string) : bool :=
  String.prefix needle s ||
  match s with
  | EmptyString => false
  | String _ s' => contains needle s'
  end.

(** [s.split(sep, 1)[1]] for a one-character separator: what follows the
    first separator; [None] is the IndexError when there is none. *)
Fixpoint after_first (sep : ascii) (s : string) : option string :=
  match s with
  | EmptyString => None
  | String c s' => if Ascii.eqb c sep then Some s' else after_first sep s'
  end.

(** [re.split(r'[\.-]', v)]: the segments between the separators, empty
    ones included. *)
Definition is_sep (c : ascii) : bool :=
  Ascii.eqb c "."%char || Ascii.eqb c "-"%char.

Fixpoint re_split_acc (cur : string) (s : string) : list string :=
  match s with
  | EmptyString => [cur]
  | String c s' =>
      if is_sep c then cur :: re_split_acc EmptyString s'
      else re_split_acc (cur ++ String c EmptyString) s'
  end.

Definition re_split (v : string) : list string := re_split_acc EmptyString v.

(** [Path(s).name]: what follows the last separator, trailing separators
    apart. *)
Fixpoint basename_acc (nt : bool) (cur last_ : string) (s : string) : string :=
  match s with
  | EmptyString => match cur with EmptyString => last_ | _ => cur end
  | String c s' =>
      if Ascii.eqb c "/"%char || (nt && Ascii.eqb c "\"%char) then
        basename_acc nt EmptyString
          (match cur with EmptyString => last_ | _ => cur end) s'
      else basename_acc nt (cur ++ String c EmptyString) last_ s'
  end.

Definition basename (nt : bool) (s : string) : string :=
  basename_acc nt EmptyString EmptyString s.

(** [f"{s:<9}"] *)
Fixpoint spaces (n : nat) : string :=
  match n with
  | O => EmptyString
  | S n' => String " "%char (spaces n')
  end.

Definition ljust (width : nat) (s : string) : string :=
  s ++ spaces (width - String.length s).

(** [str(n)] for a natural number. *)
Definition str_nat (n : nat) : string :=
  DecimalString.NilEmpty.string_of_uint (Nat.to_uint n).

(** [enumerate(l, start)] *)
Fixpoint enumerate {A : Type} (start : nat) (l : list A) : list (nat * A) :=
  match l with
  | [] => []
  | x :: l' => (start, x) :: enumerate (S start) l'
  end.

(** Comparison of [str] values: code point order, which on byte strings is
    byte order. *)
Definition str_leb (a b : string) : bool := String.leb a b.

(** An [s.strip()] for ASCII white space: the instance the examples run
    with. *)
Definition is_space (c : ascii) : bool :=
  let n := nat_of_ascii c in
  ((9 <=? n)%nat && (n <=? 13)%nat) || (n =? 32)%nat.

Fixpoint lstrip (s : string) : string :=
  match s with
  | String c s' => if is_space c then lstrip s' else s
  | EmptyString => EmptyString
  end.

Fixpoint rstrip (s : string) : string :=
  match s with
  | String c s' =>
      match rstrip s' with
      | EmptyString => if is_space c then EmptyString else String c EmptyString
      | r => String c r
      end
  | EmptyString => EmptyString
  end.

Definition strip_ascii (s : string) : string := rstrip (lstrip s).

(** An [int(s)] for ASCII decimal numerals without sign, blanks or
    underscores: the instance the examples run with. *)
Definition digit_val (c : ascii) : option Z :=
  let n := nat_of_ascii c in
  if (48 <=? n)%nat && (n <=? 57)%nat then Some (Z.of_nat (n - 48)) else None.

Fixpoint decimal_acc (acc : Z) (s : string) : option Z :=
  match s with
  | EmptyString => Some acc
  | String c s' =>
      match digit_val c with
      | Some d => decimal_acc (10 * acc + d) s'
      | None => None
      end
  end.

Definition decimal_int (s : string) : option Z :=
  match s with
  | EmptyString => None
  | _ => decimal_acc 0 s
  end.

End Py.

(** ** The world a command runs in *)

Inductive exn : Type :=
| SystemExit (msg : string)
| KeyboardInterrupt
| EOFError
| IndexError
| NotADirectoryError
| FileNotFoundError
| FileExistsError
| OtherException (msg : string).

(** [isinstance(e, Exception)]: [SystemExit] and [KeyboardInterrupt] are
    not. *)
Definition is_Exception (e : exn) : bool :=
  match e with
  | SystemExit _ | KeyboardInterrupt => false
  | _ => true
  end.

(** [str(e)] *)
Definition exn_str (e : exn) : string :=
  match e with
  | SystemExit msg => msg
  | OtherException msg => msg
  | _ => EmptyString
  end.

(** What standard input delivers to one [input()] call; the empty list is
    end of file. *)
Inductive stdin_event : Type :=
| Line (s : string)
| CtrlC.

Inductive event : Type :=
| Print (text : string)
| PrintErr (text : string)
| Read
| Subprocess (argv : list string).

(** The outcome of an external process. *)
Inductive run_result : Type :=
| Completed (returncode : Z) (stdout : string) (fs' : dir)
| Failed (e : string) (fs' : dir).

Record World : Type := mkWorld {
  w_fs : dir;
  w_zaprc : option (list string);
  w_stdin : list stdin_event;
  w_trace : list event
}.

Record Env : Type := mkEnv {
  os_nt : bool;
  stdin_isatty : bool;
  stdout_isatty : bool;
  installed : list (string * string);
  virtual_env : option string;
  subprocess_run : list string -> dir -> run_result
}.

Inductive outcome (A : Type) : Type :=
| Normal (a : A)
| Return
| Raise (e : exn).

Arguments Normal {A} a.
Arguments Return {A}.
Arguments Raise {A} e.

Definition M (A : Type) : Type := World -> outcome A * World.

Definition ret {A : Type} (a : A) : M A := fun w => (Normal a, w).

Definition bind {A B : Type} (m : M A) (k : A -> M B) : M B :=
  fun w =>
    match m w with
    | (Normal a, w') => k a w'
    | (Return, w') => (Return, w')
    | (Raise e, w') => (Raise e, w')
    end.

Declare Scope zap_scope.
Delimit Scope zap_scope with zap.
Notation "x <- m ;; k" := (bind m (fun x => k))
  (at level 100, m at next level, right associativity) : zap_scope.
Notation "m ;;; k" := (bind m (fun _ => k))
  (at level 100, right associativity) : zap_scope.
Open Scope zap_scope.

Definition return_ {A : Type} : M A := fun w => (Return, w).

Definition raise {A : Type} (e : exn) : M A := fun w => (Raise e, w).

Definition sys_exit {A : Type} (msg : string) : M A := raise (SystemExit msg).

Definition try_except {A : Type} (m : M A) (handler : exn -> option (M A)) : M A :=
  fun w =>
    match m w with
    | (Raise e, w') =>
        match handler e with
        | Some k => k w'
        | None => (Raise e, w')
        end
    | r => r
    end.

Definition emit (evs : list event) (w : World) : World :=
  mkWorld (w_fs w) (w_zaprc w) (w_stdin w) (w_trace w ++ evs)%list.

Definition log (e : event) (w : World) : World := emit [e] w.

Definition set_fs (fs : dir) (w : World) : World :=
  mkWorld fs (w_zaprc w) (w_stdin w) (w_trace w).

Definition get_fs : M dir := fun w => (Normal (w_fs w), w).

Definition print (text : string) : M unit := fun w => (Normal tt, log (Print text) w).

Definition set_stdin (rest : list stdin_event) (w : World) : World :=
  mkWorld (w_fs w) (w_zaprc w) rest (w_trace w).

(** [input()]: one blocking read of standard input. *)
Definition input_ : M string :=
  fun w =>
    match w_stdin w with
    | [] => (Raise EOFError, log Read w)
    | Line s :: rest => (Normal s, set_stdin rest (log Read w))
    | CtrlC :: rest => (Raise KeyboardInterrupt, set_stdin rest (log Read w))
    end.

(** [input(prompt)] *)
Definition input_prompt (prompt : string) : M string := print prompt ;;; input_.

(** [shutil.rmtree(p)] *)
Definition rmtree (p : Path) : M unit :=
  fun w =>
    match stat (Dir (w_fs w)) p with
    | Some (Dir _) =>
        match unlink p (w_fs w) with
        | Some fs' => (Normal tt, set_fs fs' w)
        | None => (Raise FileNotFoundError, w)
        end
    | Some (File _) => (Raise NotADirectoryError, w)
    | None => (Raise FileNotFoundError, w)
    end.

(** [shutil.rmtree(p, ignore_errors=True)]: a directory is removed; a file
    or a missing path makes the errors that are ignored. *)
Definition rmtree_ignore_errors (p : Path) : M unit :=
  fun w =>
    match stat (Dir (w_fs w)) p with
    | Some (Dir _) =>
        match unlink p (w_fs w) with
        | Some fs' => (Normal tt, set_fs fs' w)
        | None => (Normal tt, w)
        end
    | _ => (Normal tt, w)
    end.

(** [p.mkdir(parents=True, exist_ok=True)] *)
Definition mkdir_parents (p : Path) : M unit :=
  fun w =>
    match mkdir_p p (w_fs w) with
    | Some fs' => (Normal tt, set_fs fs' w)
    | None => (Raise FileExistsError, w)
    end.

Fixpoint for_each {A : Type} (l : list A) (body : A -> M unit) : M unit :=
  match l with
  | [] => ret tt
  | x :: l' => body x ;;; for_each l' body
  end.

(** ** Ordering used by the list command *)

(** One element of the tuple [version_key] builds: [int(part)], or
    [float('inf')] where [int] raises ValueError. *)
Inductive seg : Type :=
| Num (n : Z)
| Inf.

Definition seg_eqb (a b : seg) : bool :=
  match a, b with
  | Num x, Num y => (x =? y)%Z
  | Inf, Inf => true
  | _, _ => false
  end.

Definition seg_ltb (a b : seg) : bool :=
  match a, b with
  | Num x, Num y => (x <? y)%Z
  | Num _, Inf => true
  | Inf, _ => false
  end.

(** [a < b] on tuples: decided at the first position where they differ; a
    proper prefix is smaller. *)
Fixpoint tuple_ltb (a b : list seg) : bool :=
  match a, b with
  | [], [] => false
  | [], _ :: _ => true
  | _ :: _, [] => false
  | x :: a', y :: b' => if seg_eqb x y then tuple_ltb a' b' else seg_ltb x y
  end.

(** [sorted(l, key=...)] with [ltb] the [<] of the keys: a stable sort.
    Each element goes behind the elements that are not greater. *)
Fixpoint insert_by {A : Type} (ltb : A -> A -> bool) (x : A) (l : list A) : list A :=
  match l with
  | [] => [x]
  | y :: l' => if ltb x y then x :: y :: l' else y :: insert_by ltb x l'
  end.

Definition sorted {A : Type} (ltb : A -> A -> bool) (l : list A) : list A :=
  fold_left (fun acc x => insert_by ltb x acc) l [].

(** ** The commands *)

Record create_args : Type := mkCreate { c_version : option string; c_name : string }.

Record delete_args : Type :=
  mkDelete { d_name : string; d_version : option string; d_yes : bool }.

Record activate_args : Type :=
  mkActivate { a_name : string; a_version : option string;
               a_shell : bool; a_interactive : bool }.

Section Zap.

(** [int(s)], with [None] for ValueError. *)
Variable py_int : string -> option Z.
(** [s.strip()] *)
Variable py_strip : string -> string.
(** [str(ENV_ROOT / ...)] *)
Variable path_str : Path -> string.

Variable env : Env.

(** [run(cmd)] *)
Definition run (cmd : list string) : M (Z * string) :=
  fun w =>
    let w' := log (Subprocess cmd) w in
    match subprocess_run env cmd (w_fs w) with
    | Completed rc out fs' => (Normal (rc, py_strip out), set_fs fs' w')
    | Failed e fs' => (Raise (OtherException e), set_fs fs' w')
    end.

(** [subprocess.run(cmd)] with the result dropped. *)
Definition spawn (cmd : list string) : M unit :=
  fun w =>
    let w' := log (Subprocess cmd) w in
    match subprocess_run env cmd (w_fs w) with
    | Completed _ _ fs' => (Normal tt, set_fs fs' w')
    | Failed e fs' => (Raise (OtherException e), set_fs fs' w')
    end.

Definition activate_cmd (env_dir : Path) : string :=
  if os_nt env then "& " ++ path_str env_dir ++ "\Scripts\Activate.ps1"
  else "source " ++ path_str env_dir ++ "/bin/activate".

Definition deactivate_cmd : string := "deactivate".

Definition get_default_version : M (option string) :=
  fun w =>
    match w_zaprc w with
    | Some lines =>
        match find (Py.startswith "default_version=") lines with
        | Some line =>
            match Py.after_first "="%char (py_strip line) with
            | Some v => (Normal (Some v), w)
            | None => (Raise IndexError, w)
            end
        | None => (Normal None, w)
        end
    | None => (Normal None, w)
    end.

(** The per-user file holds, as its lines, what reading the written text
    back gives. *)
Definition set_default_version (version : string) : M unit :=
  (fun w => (Normal tt,
             mkWorld (w_fs w)
                     (Some (Py.file_lines (os_nt env)
                              ("default_version=" ++ version ++ Py.nl)))
                     (w_stdin w) (w_trace w))) ;;;
  print ("Default Python version set to " ++ version).

Definition select_environment (matching_envs : list (string * Path))
  (nm action_name : string) : M (option (string * Path)) :=
  print ("Multiple environments named '" ++ nm ++ "' found:") ;;;
  for_each (Py.enumerate 1 matching_envs)
    (fun iv => print ("  " ++ Py.str_nat (fst iv) ++ ". Python " ++ fst (snd iv))) ;;;
  if stdin_isatty env then
    try_except
      (print (Py.nl ++ "Select an environment to " ++ action_name
              ++ " (or Ctrl+C to cancel):") ;;;
       choice <- input_ ;;
       match py_int choice with
       | Some n =>
           let choice_idx := (n - 1)%Z in
           if (0 <=? choice_idx)%Z
              && (choice_idx <? Z.of_nat (List.length matching_envs))%Z then
             match nth_error matching_envs (Z.to_nat choice_idx) with
             | Some (selected_version, env_dir) =>
                 print ("Selected: Python " ++ selected_version) ;;;
                 ret (Some (selected_version, env_dir))
             | None => raise IndexError
             end
           else
             print ("Invalid selection. Please choose a number between 1 and "
                    ++ Py.str_nat (List.length matching_envs) ++ ".") ;;;
             ret None
       | None =>
           print "Invalid input. Please enter a number." ;;;
           ret None
       end)
      (fun e => match e with
                | KeyboardInterrupt =>
                    Some (print (Py.nl ++ "Operation cancelled.") ;;; ret None)
                | _ => None
                end)
  else
    print (Py.nl ++ "Please specify a version with --version or use the full command:") ;;;
    print ("  zap " ++ action_name ++ " " ++ nm ++ " --version VERSION") ;;;
    print (Py.nl ++ "For example:") ;;;
    match matching_envs with
    | (v, _) :: _ =>
        print ("  zap " ++ action_name ++ " " ++ nm ++ " --version " ++ v) ;;;
        ret None
    | [] => raise IndexError
    end.

Definition version_key (v : string) : list seg :=
  map (fun part => match py_int part with
                   | Some n => Num n
                   | None => Inf
                   end)
      (Py.re_split v).

Definition version_ltb (a b : string) : bool :=
  tuple_ltb (version_key a) (version_key b).

Definition name_ltb (a b : Path) : bool :=
  negb (Py.str_leb (name b) (name a)).

(** The version tags in the order the loop of [cmd_list] visits them. *)
Definition list_order (fs : dir) : list string :=
  sorted version_ltb (map fst (envs_by_version fs)).

Definition cmd_list : M unit :=
  print (Py.nl ++ ">> Available Python interpreters:") ;;;
  for_each (installed env)
    (fun vp => print ("  " ++ Py.ljust 9 (fst vp) ++ " -> " ++ snd vp)) ;;;
  print (Py.nl ++ ">> Virtual environments in " ++ path_str [] ++ ":") ;;;
  fs <- get_fs ;;
  let envs := envs_by_version fs in
  for_each (sorted version_ltb (map fst envs))
    (fun ver =>
       match dict_get ver envs with
       | Some env_list =>
           match env_list with
           | [] => ret tt
           | _ :: _ =>
               print ("  Python " ++ ver) ;;;
               for_each (sorted name_ltb env_list)
                 (fun e => print ("    * " ++ name e))
           end
       | None => raise (OtherException "KeyError")
       end) ;;;
  print EmptyString.

Definition probe_cmd (python_exe : string) : list string :=
  [python_exe; "-c"; "import sys; print(sys.version_info >= (3, 12))"].

(** [venv_cmd] as [cmd_create] builds it. *)
Definition venv_cmd (python_exe : string) (upgrade : bool) (env_dir : Path)
  : list string :=
  ([python_exe; "-m"; "venv"]
     ++ (if upgrade then ["--upgrade-deps"] else [])
     ++ [path_str env_dir])%list.

Definition cmd_create (args : create_args) : M unit :=
  version <-
    match c_version args with
    | Some v => ret v
    | None =>
        d <- get_default_version ;;
        if truthy d then
          match d with Some v => ret v | None => raise IndexError end
        else
          sys_exit "[!] No Python version specified and no default set. Use 'zap set-default <version>' or specify a version."
    end ;;
  let pythons := installed env in
  match dict_get version pythons with
  | None => sys_exit ("[!] Python " ++ version ++ " not found. Run `zap list` first.")
  | Some python_exe =>
      let env_dir := join (join [] version) (c_name args) in
      fs <- get_fs ;;
      if exists_ fs env_dir then
        sys_exit ("[!] Environment " ++ c_name args ++ " already exists.")
      else
        mkdir_parents (parent env_dir) ;;;
        print ("Creating venv at " ++ path_str env_dir ++ " using " ++ python_exe ++ " ...") ;;;
        upgrade <-
          try_except
            (r <- run (probe_cmd python_exe) ;;
             ret (Py.contains "True" (snd r)))
            (fun e => if is_Exception e then Some (ret false) else None) ;;
        try_except
          (r <- run (venv_cmd python_exe upgrade env_dir) ;;
           if negb (fst r =? 0)%Z then
             rmtree_ignore_errors env_dir ;;;
             sys_exit (snd r)
           else print "Success!")
          (fun e =>
             if is_Exception e then
               Some (rmtree_ignore_errors env_dir ;;;
                     sys_exit ("Error creating environment: " ++ exn_str e))
             else None)
  end.

(** The lookup [cmd_delete] and [cmd_activate] both start with: the same
    statements in the two functions, but for the name of the action. *)
Definition locate (nm : string) (version : option string) (action_name : string)
  : M Path :=
  if truthy version then
    fs <- get_fs ;;
    match env_path fs nm version with
    | Some env_dir => ret env_dir
    | None =>
        sys_exit ("[!] No environment named '" ++ nm ++ "' with Python "
                  ++ match version with Some v => v | None => EmptyString end)
    end
  else
    fs <- get_fs ;;
    let matching_envs := find_envs_by_name fs nm true in
    match matching_envs with
    | [] => sys_exit ("[!] No environment named '" ++ nm ++ "'")
    | first :: others =>
        if (1 <? List.length matching_envs)%nat then
          selection <- select_environment matching_envs nm action_name ;;
          match selection with
          | Some (_, env_dir) => ret env_dir
          | None => return_
          end
        else
          print ("Using Python " ++ fst first ++ " environment.") ;;;
          ret (snd first)
    end.

Definition cmd_delete (args : delete_args) : M unit :=
  env_dir <- locate (d_name args) (d_version args) "delete" ;;
  (if negb (d_yes args) then
     answer <- input_prompt ("Delete " ++ path_str env_dir ++ "? [y/N] ") ;;
     if negb (String.eqb (Py.lower answer) "y") then return_ else ret tt
   else ret tt) ;;;
  rmtree env_dir ;;;
  print "Done.".

Definition shell_argv (cmd : string) : list string :=
  if os_nt env then ["powershell"; "-NoExit"; cmd]
  else ["bash"; "-c"; cmd ++ "; exec bash"].

(** The test [if not env_dir] after the lookup never fires, a [Path] being
    true; it is left out. *)
Definition cmd_activate (args : activate_args) : M unit :=
  env_dir <- locate (a_name args) (a_version args) "activate" ;;
  let cmd := activate_cmd env_dir in
  print cmd ;;;
  if a_shell args then spawn (shell_argv cmd)
  else if stdout_isatty env && a_interactive args then
    print (Py.nl ++ "Activating environment...") ;;;
    spawn (shell_argv cmd)
  else ret tt.

Definition cmd_deactivate : M unit :=
  match virtual_env env with
  | None => print "No active virtual environment detected."
  | Some active_env =>
      print ("Deactivating environment: " ++ Py.basename (os_nt env) active_env) ;;;
      spawn (shell_argv deactivate_cmd)
  end.

Inductive command : Type :=
| List_
| Create (args : create_args)
| Delete (args : delete_args)
| Activate (args : activate_args)
| Deactivate
| SetDefault (version : string).

Definition dispatch (c : command) : M unit :=
  match c with
  | List_ => cmd_list
  | Create args => cmd_create args
  | Delete args => cmd_delete args
  | Activate args => cmd_activate args
  | Deactivate => cmd_deactivate
  | SetDefault v => set_default_version v
  end.

(** [main], to the exit status of the process: 0 when the command returns,
    1 for [sys.exit(message)], for the KeyboardInterrupt [main] catches
    and for an exception nobody catches. *)
Definition main (c : command) (w : World) : Z * World :=
  match dispatch c w with
  | (Normal _, w') => (0%Z, w')
  | (Return, w') => (0%Z, w')
  | (Raise KeyboardInterrupt, w') =>
      (1%Z, log (PrintErr (Py.nl ++ "Operation cancelled.")) w')
  | (Raise (SystemExit msg), w') => (1%Z, log (PrintErr msg) w')
  | (Raise _, w') => (1%Z, log (PrintErr "Traceback (most recent call last):") w')
  end.

End Zap.

(** ** The resolver, as the spec names it *)

(** Follows the spec (4.1): an environment exists iff its directory exists
    and contains the marker file. *)
Definition environmentExists (fs : dir) (versionTag nm : string) : bool :=
  is_dir fs [versionTag; nm] && exists_ fs [versionTag; nm; marker].

Inductive Outcome : Type :=
| NotFound
| SingleMatch (versionTag : string) (path : Path)
| MultipleMatches (matches : list (string * Path)).

(** The case analysis [cmd_delete] and [cmd_activate] make on the result
    of [env_path] and [find_envs_by_name]; see [locate_resolve]. *)
Definition resolve (fs : dir) (nm : string) (versionTag : option string) : Outcome :=
  if truthy versionTag then
    match env_path fs nm versionTag with
    | Some env_dir =>
        SingleMatch (match versionTag with Some v => v | None => EmptyString end) env_dir
    | None => NotFound
    end
  else
    match find_envs_by_name fs nm true with
    | [] => NotFound
    | [first] => SingleMatch (fst first) (snd first)
    | matching_envs => MultipleMatches matching_envs
    end.

(** How many matches a scan reports: none, the one, or several. *)
Inductive match_class : Type :=
| NoMatch
| OneMatch (m : string * Path)
| SeveralMatches.

Definition classify (l : list (string * Path)) : match_class :=
  match l with
  | [] => NoMatch
  | [m] => OneMatch m
  | _ => SeveralMatches
  end.

(** [v1] comes before [v2] in a directory's iteration order. *)
Definition precedes (v1 v2 : string) (names : list string) : Prop :=
  exists l1 l2 l3, names = (l1 ++ v1 :: l2 ++ v2 :: l3)%list.

(** ** Vocabulary of the statements *)

(** The match the scan reports for a version tag. *)
Definition hit (nm v : string) : string * Path := (v, [v; nm]).

(** [x] and [k] compare equal: neither is less. *)
Definition tied {A : Type} (ltb : A -> A -> bool) (k x : A) : bool :=
  negb (ltb k x) && negb (ltb x k).

(** [x] is not placed behind [y]: [y < x] is false. *)
Definition not_after {A : Type} (ltb : A -> A -> bool) (x y : A) : Prop :=
  ltb y x = false.

(** The valid environments directly below a version directory, as
    [envs_by_version] collects them. *)
Definition env_list (fs : dir) (v : string) : list Path :=
  filter (fun p => exists_ fs (join p marker)) (iterdir fs [v]).

(** The sections [cmd_list] prints below the interpreters: per version tag
    with a non-empty list, the names in it, sorted. *)
Definition section_of (fs : dir) (ver : string) : list (string * list string) :=
  match dict_get ver (envs_by_version fs) with
  | Some (e :: l) => [(ver, map name (sorted name_ltb (e :: l)))]
  | _ => []
  end.

Definition listing (py_int : string -> option Z) (fs : dir)
  : list (string * list string) :=
  flat_map (section_of fs) (list_order py_int fs).

Definition reported (sections : list (string * list string)) (v nm : string) : Prop :=
  exists names, In (v, names) sections /\ In nm names.

Definition section_events (s : string * list string) : list event :=
  Print ("  Python " ++ fst s) :: map (fun n => Print ("    * " ++ n)) (snd s).

Definition has_envs (fs : dir) (v : string) : bool :=
  match dict_get v (envs_by_version fs) with
  | Some (_ :: _) => true
  | _ => false
  end.

Section OrderSpec.

Variable py_int : string -> option Z.

(** Follows the spec: numeric segments compare as integers, a numeric
    segment comes before a non-numeric one. *)
Inductive seg_before : string -> string -> Prop :=
| both_numeric (s t : string) (n m : Z) :
    py_int s = Some n -> py_int t = Some m -> (n < m)%Z -> seg_before s t
| numeric_first (s t : string) (n : Z) :
    py_int s = Some n -> py_int t = None -> seg_before s t.

(** Two segments the comparison does not tell apart: the same integer, or
    both non-numeric. *)
Definition seg_tie (s t : string) : Prop :=
  match py_int s, py_int t with
  | Some n, Some m => n = m
  | None, None => True
  | _, _ => False
  end.

(** Follows the spec: segment by segment, decided by the first pair of
    segments that differ; a tag that ends first comes first. *)
Inductive tag_before : list string -> list string -> Prop :=
| first_differs (s t : string) (a b : list string) :
    seg_before s t -> tag_before (s :: a) (t :: b)
| later_differs (s t : string) (a b : list string) :
    seg_tie s t -> tag_before a b -> tag_before (s :: a) (t :: b)
| shorter_first (t : string) (b : list string) :
    tag_before [] (t :: b).

(** The key of one segment, as [version_key] computes it. *)
Definition key_of (part : string) : seg :=
  match py_int part with
  | Some n => Num n
  | None => Inf
  end.

End OrderSpec.

(** The answer the confirmation prompt of [cmd_delete] takes as a yes. *)
Definition affirmative (answer : string) : bool :=
  String.eqb (Py.lower answer) "y".

(** Number of [input()] calls in a trace. *)
Fixpoint reads (tr : list event) : nat :=
  match tr with
  | [] => 0
  | Read :: tr' => S (reads tr')
  | _ :: tr' => reads tr'
  end.

(** A menu answer that selects nothing: not a number, or a number outside
    [1 .. count]. *)
Definition invalid_choice (py_int : string -> option Z) (count : nat)
  (choice : string) : Prop :=
  match py_int choice with
  | Some n => ~ (1 <= n <= Z.of_nat count)%Z
  | None => True
  end.

(** What [select_environment] prints first: the numbered matches. *)
Definition menu_events (matching_envs : list (string * Path)) (nm : string)
  : list event :=
  Print ("Multiple environments named '" ++ nm ++ "' found:")
  :: map (fun iv => Print ("  " ++ Py.str_nat (fst iv) ++ ". Python " ++ fst (snd iv)))
         (Py.enumerate 1 matching_envs).

(** The guidance [select_environment] prints when standard input is not a
    terminal. *)
Definition guidance_events (nm action_name v : string) : list event :=
  [Print (Py.nl ++ "Please specify a version with --version or use the full command:");
   Print ("  zap " ++ action_name ++ " " ++ nm ++ " --version VERSION");
   Print (Py.nl ++ "For example:");
   Print ("  zap " ++ action_name ++ " " ++ nm ++ " --version " ++ v)].

(** A computation that never calls [input()]. *)
Definition silent {A : Type} (m : M A) : Prop :=
  forall w, reads (w_trace (snd (m w))) = reads (w_trace w).

(** The version tag a create invocation asks for: the one given, or else
    the non-empty default of the per-user file. *)
Definition requested_version (py_strip : string -> string) (args : create_args)
  (w : World) (v : string) : Prop :=
  c_version args = Some v
  \/ (c_version args = None
      /\ get_default_version py_strip w = (Normal (Some v), w)
      /\ nonempty v = true).

(** The messages of the two failures of [cmd_create] before anything is
    made. *)
Definition msg_interpreter_not_found (v : string) : string :=
  "[!] Python " ++ v ++ " not found. Run `zap list` first.".

Definition msg_already_exists (nm : string) : string :=
  "[!] Environment " ++ nm ++ " already exists.".

(** What the version probe of [cmd_create] comes to: whether
    [--upgrade-deps] is asked for, and the file system the probe leaves.  A
    probe that cannot be started asks for nothing. *)
Definition probe_upgrade (py_strip : string -> string) (env : Env)
  (python_exe : string) (fs : dir) : bool * dir :=
  match subprocess_run env (probe_cmd python_exe) fs with
  | Completed _ out fs' => (Py.contains "True" (py_strip out), fs')
  | Failed _ fs' => (false, fs')
  end.

(** The line [cmd_delete] and [cmd_activate] print when they take the only
    match of a lookup by name. *)
Definition using_events (version : option string) (v : string) : list event :=
  if truthy version then []
  else [Print ("Using Python " ++ v ++ " environment.")].


Definition msg_no_version : string :=
  "[!] No Python version specified and no default set. Use 'zap set-default <version>' or specify a version.".


(** What [cmd_list] prints: the interpreters of the snapshot, then the
    sections of the listing. *)
Definition list_events (py_int : string -> option Z) (path_str : Path -> string)
  (env : Env) (fs : dir) : list event :=
  ([Print (Py.nl ++ ">> Available Python interpreters:")]
   ++ map (fun vp => Print ("  " ++ Py.ljust 9 (fst vp) ++ " -> " ++ snd vp))
          (installed env)
   ++ [Print (Py.nl ++ ">> Virtual environments in " ++ path_str [] ++ ":")]
   ++ flat_map section_events (listing py_int fs)
   ++ [Print EmptyString])%list.


(** ** A registry to run the commands on *)

Definition ex_path_str (p : Path) : string :=
  "/home/u/venvs" ++ String.concat EmptyString (map (fun c => "/" ++ c) p).

Definition ex_venv : node := Dir [(marker, File "home = /usr/bin")].

(** [proj] is an environment under 3.10 and 3.9, in that iteration order;
    under 3.11 it is a directory without the marker. *)
Definition ex_fs : dir :=
  [("3.10", Dir [("proj", ex_venv)]);
   ("notes.txt", File "todo");
   ("3.9", Dir [("proj", ex_venv); ("alpha", ex_venv)]);
   ("3.11", Dir [("proj", Dir [("bin", Dir [])])])].

(** A creation that leaves a half-built [beta] under 3.11 and fails; any
    other process succeeds and prints False. *)
Definition ex_half_built (fs : dir) : dir :=
  match child "3.11" fs with
  | Some (Dir d) => put "3.11" (Dir (put "beta" (Dir [("bin", Dir [])]) d)) fs
  | _ => fs
  end.

Definition ex_run (argv : list string) (fs : dir) : run_result :=
  if String.eqb (nth 1 argv EmptyString) "-m" then
    Completed 1 "Error: ensurepip failed" (ex_half_built fs)
  else Completed 0 "False" fs.

Definition ex_env (tty : bool) : Env :=
  mkEnv false tty false
    [("3.11", "/usr/bin/python3.11"); ("3.9", "/usr/bin/python3.9")]
    None ex_run.

Definition ex_world (stdin : list stdin_event) : World :=
  mkWorld ex_fs None stdin [].

(** A creation that builds the environment [beta] under 3.11 and returns
    0, and one that cannot be started. *)
Definition ex_built (fs : dir) : dir :=
  match child "3.11" fs with
  | Some (Dir d) => put "3.11" (Dir (put "beta" ex_venv d)) fs
  | _ => fs
  end.

Definition ex_run_ok (argv : list string) (fs : dir) : run_result :=
  if String.eqb (nth 1 argv EmptyString) "-m" then
    Completed 0 "created" (ex_built fs)
  else Completed 0 "True" fs.

Definition ex_run_missing (argv : list string) (fs : dir) : run_result :=
  Failed "[Errno 2] No such file or directory" fs.

Definition ex_env_run (tty : bool) (run : list string -> dir -> run_result) : Env :=
  mkEnv false tty false
    [("3.11", "/usr/bin/python3.11"); ("3.9", "/usr/bin/python3.9")]
    None run.

(** A root where 3.11 is a plain file. *)
Definition ex_fs_file : dir := [("3.11", File "not a directory")].

(** ** Facts about the file system *)

Lemma child_In (n : string) (d : dir) (c : node) :
  child n d = Some c -> In n (map fst d).
Proof.
  induction d as [|[k c'] d IH]; simpl; [discriminate|].
  destruct (String.eqb_spec n k) as [->|_]; auto.
Qed.

Lemma child_not_In (n : string) (d : dir) :
  child n d = None -> ~ In n (map fst d).
Proof.
  induction d as [|[k c'] d IH]; simpl; [tauto|].
  destruct (String.eqb_spec n k) as [->|Hne]; [discriminate|].
  intros H [Hk|Hin]; [congruence|exact (IH H Hin)].
Qed.

Lemma stat_join (nd : node) (p : Path) (n : string) :
  stat nd (join p n) =
  match stat nd p with
  | Some (Dir d) => child n d
  | _ => None
  end.
Proof.
  unfold join. revert nd.
  induction p as [|k p IH]; intros nd; simpl.
  - destruct nd as [c|d]; [reflexivity|].
    destruct (child n d); reflexivity.
  - destruct nd as [c|d]; [reflexivity|].
    destruct (child k d) as [c|]; [apply IH|reflexivity].
Qed.

Lemma exists_join_is_dir (fs : dir) (p : Path) (n : string) :
  exists_ fs (join p n) = true -> is_dir fs p = true.
Proof.
  unfold exists_, is_dir. rewrite stat_join.
  destruct (stat (Dir fs) p) as [[c|d]|]; simpl; congruence.
Qed.

Lemma is_dir_exists (fs : dir) (p : Path) :
  is_dir fs p = true -> exists_ fs p = true.
Proof.
  unfold exists_, is_dir. destruct (stat (Dir fs) p) as [[c|d]|]; congruence.
Qed.

Lemma iterdir_root (fs : dir) : iterdir fs [] = map (fun e => [fst e]) fs.
Proof. reflexivity. Qed.

Lemma marker_test (fs : dir) (p : Path) :
  exists_ fs p && exists_ fs (join p marker)
  = is_dir fs p && exists_ fs (join p marker).
Proof.
  destruct (exists_ fs (join p marker)) eqn:E.
  - rewrite (exists_join_is_dir _ _ _ E).
    rewrite (is_dir_exists _ _ (exists_join_is_dir _ _ _ E)). reflexivity.
  - rewrite !andb_false_r. reflexivity.
Qed.

Lemma environmentExists_is_dir (fs : dir) (v nm : string) :
  environmentExists fs v nm = true -> is_dir fs [v] = true.
Proof.
  unfold environmentExists. intros H. apply andb_prop in H as [H _].
  apply is_dir_exists in H.
  exact (exists_join_is_dir fs [v] nm H).
Qed.

Lemma environmentExists_In (fs : dir) (v nm : string) :
  environmentExists fs v nm = true -> In v (map fst fs).
Proof.
  intros H. apply environmentExists_is_dir in H.
  unfold is_dir in H. simpl in H.
  destruct (child v fs) as [c|] eqn:E; [|discriminate].
  exact (child_In _ _ _ E).
Qed.

(** ** The scan of [find_envs_by_name] *)

Lemma find_envs_loop_all (fs : dir) (nm : string) (l : list string)
  (acc : list (string * Path)) :
  find_envs_loop fs nm true (map (fun v => [v]) l) acc
  = (acc ++ map (hit nm) (filter (fun v => environmentExists fs v nm) l))%list.
Proof.
  revert acc. induction l as [|v l IH]; intros acc; simpl.
  - now rewrite app_nil_r.
  - change (join [v] nm) with [v; nm].
    rewrite (marker_test fs [v; nm]).
    change (join [v; nm] marker) with [v; nm; marker].
    fold (environmentExists fs v nm).
    destruct (is_dir fs [v]) eqn:Ev; simpl.
    + destruct (environmentExists fs v nm) eqn:Ee; simpl.
      * rewrite IH. rewrite <- app_assoc. reflexivity.
      * apply IH.
    + destruct (environmentExists fs v nm) eqn:Ee.
      * apply environmentExists_is_dir in Ee. congruence.
      * apply IH.
Qed.

Lemma find_envs_by_name_all (fs : dir) (nm : string) :
  find_envs_by_name fs nm true
  = map (hit nm) (filter (fun v => environmentExists fs v nm) (map fst fs)).
Proof.
  unfold find_envs_by_name. rewrite iterdir_root.
  rewrite <- (map_map fst (fun v => [v])).
  apply find_envs_loop_all.
Qed.

Lemma find_envs_loop_acc (fs : dir) (nm : string) (l : list Path)
  (acc : list (string * Path)) :
  find_envs_loop fs nm true l acc
  = (acc ++ find_envs_loop fs nm true l [])%list.
Proof.
  revert acc. induction l as [|p l IH]; intros acc; simpl.
  - now rewrite app_nil_r.
  - destruct (negb (is_dir fs p)); [apply IH|].
    destruct (exists_ fs (join p nm) && exists_ fs (join (join p nm) marker)).
    + rewrite IH. rewrite (IH [_]). now rewrite <- app_assoc.
    + apply IH.
Qed.

Lemma find_envs_loop_early (fs : dir) (nm : string) (l : list Path)
  (acc : list (string * Path)) :
  (List.length acc < 2)%nat ->
  find_envs_loop fs nm false l acc
  = firstn 2 (find_envs_loop fs nm true l acc).
Proof.
  revert acc. induction l as [|p l IH]; intros acc Hacc; cbn [find_envs_loop].
  - symmetry. apply firstn_all2. lia.
  - destruct (negb (is_dir fs p)); [now apply IH|].
    destruct (exists_ fs (join p nm) && exists_ fs (join (join p nm) marker));
      [|now apply IH].
    cbn [negb andb].
    destruct (2 <=? List.length (acc ++ [(name p, join p nm)]))%nat eqn:E.
    + apply Nat.leb_le in E. rewrite length_app in E. cbn [List.length] in E.
      rewrite find_envs_loop_acc.
      rewrite firstn_app.
      replace (2 - List.length (acc ++ [(name p, join p nm)]))%nat with 0%nat
        by (rewrite length_app; cbn [List.length]; lia).
      rewrite firstn_O, app_nil_r.
      symmetry. apply firstn_all2. rewrite length_app. cbn [List.length]. lia.
    + apply Nat.leb_gt in E. now apply IH.
Qed.

Lemma classify_firstn2 (l : list (string * Path)) :
  classify (firstn 2 l) = classify l.
Proof. destruct l as [|a [|b [|c l]]]; reflexivity. Qed.

(** C10.  For every name and every registry state, the scan that stops
    after two matches returns the first two entries of the full scan, so
    both report no match, the same single match, or several matches
    together. *)
Theorem find_envs_by_name_early_stop (fs : dir) (nm : string) :
  find_envs_by_name fs nm false = firstn 2 (find_envs_by_name fs nm true)
  /\ classify (find_envs_by_name fs nm false)
     = classify (find_envs_by_name fs nm true)
  /\ ((2 <=? List.length (find_envs_by_name fs nm false))%nat
      = (2 <=? List.length (find_envs_by_name fs nm true))%nat).
Proof.
  assert (E : find_envs_by_name fs nm false
              = firstn 2 (find_envs_by_name fs nm true)).
  { unfold find_envs_by_name. apply find_envs_loop_early. simpl. lia. }
  split; [exact E|]. rewrite E. split.
  - apply classify_firstn2.
  - destruct (find_envs_by_name fs nm true) as [|a [|b [|c l]]]; reflexivity.
Qed.

(** ** Resolution of a name that lives under two version tags *)

Lemma distinct_NoDup (l : list string) : distinct l = true -> NoDup l.
Proof.
  induction l as [|x l IH]; simpl; intros H; constructor.
  - apply andb_prop in H as [H _]. intros Hin.
    apply negb_true_iff in H.
    assert (E : existsb (String.eqb x) l = true).
    { apply existsb_exists. exists x. split; [exact Hin|apply String.eqb_refl]. }
    congruence.
  - apply andb_prop in H as [_ H]. auto.
Qed.

Lemma filter_nil_when {A : Type} (f : A -> bool) (l : list A) :
  (forall x, In x l -> f x = false) -> filter f l = [].
Proof.
  induction l as [|x l IH]; simpl; intros H; [reflexivity|].
  rewrite (H x (or_introl eq_refl)). apply IH. intros y Hy. apply H. now right.
Qed.

Lemma env_path_version (fs : dir) (nm v : string) :
  nonempty v = true ->
  env_path fs nm (Some v)
  = if environmentExists fs v nm then Some [v; nm] else None.
Proof.
  intros Hv. unfold env_path, truthy. rewrite Hv. reflexivity.
Qed.

Lemma environmentExists_child (fs fs' : dir) (v nm : string) :
  child v fs' = child v fs ->
  environmentExists fs' v nm = environmentExists fs v nm.
Proof.
  intros H. unfold environmentExists, is_dir, exists_. simpl. now rewrite H.
Qed.

Lemma wf_dir_nonempty (fs : dir) (v : string) :
  wf_dir fs = true -> In v (map fst fs) -> nonempty v = true.
Proof.
  unfold wf_dir. intros H Hin. apply andb_prop in H as [_ H].
  rewrite forallb_forall in H. auto.
Qed.

Lemma filter_two (f : string -> bool) (v1 v2 : string) (l1 l2 l3 : list string) :
  NoDup (l1 ++ v1 :: l2 ++ v2 :: l3) ->
  (forall v, f v = true <-> v = v1 \/ v = v2) ->
  filter f (l1 ++ v1 :: l2 ++ v2 :: l3) = [v1; v2].
Proof.
  intros Hnd Hf.
  assert (Hout : forall l, (forall x, In x l -> x <> v1 /\ x <> v2) -> filter f l = []).
  { intros l Hl. apply filter_nil_when. intros x Hx.
    destruct (f x) eqn:E; [|reflexivity].
    apply Hf in E. destruct (Hl x Hx). tauto. }
  assert (H1 : f v1 = true) by (apply Hf; auto).
  assert (H2 : f v2 = true) by (apply Hf; auto).
  assert (Hn1 : ~ In v1 (l1 ++ l2 ++ v2 :: l3)) by (apply NoDup_remove_2; exact Hnd).
  apply NoDup_remove_1 in Hnd.
  rewrite app_assoc in Hnd, Hn1.
  assert (Hn2 : ~ In v2 ((l1 ++ l2) ++ l3)) by (apply NoDup_remove_2; exact Hnd).
  rewrite filter_app. simpl. rewrite H1.
  rewrite filter_app. simpl. rewrite H2.
  rewrite (Hout l1), (Hout l2), (Hout l3); [reflexivity| | |].
  - intros x Hx. split; intros ->.
    + apply Hn1. apply in_or_app. right. now right.
    + apply Hn2. apply in_or_app. now right.
  - intros x Hx. split; intros ->.
    + apply Hn1. apply in_or_app. left. apply in_or_app. now right.
    + apply Hn2. apply in_or_app. left. apply in_or_app. now right.
  - intros x Hx. split; intros ->.
    + apply Hn1. apply in_or_app. left. apply in_or_app. now left.
    + apply Hn2. apply in_or_app. left. apply in_or_app. now left.
Qed.

(** C1.  When a name is a valid environment under exactly the two distinct
    version tags [v1] and [v2], [v1] the earlier in iteration order, then
    resolving the name without a version tag gives MultipleMatches with
    exactly those two pairs in that order, and resolving it with [v1] (or
    [v2]) gives SingleMatch for that environment; the answer with an
    explicit tag depends on that tag's directory alone, whatever else the
    registry holds. *)
Theorem resolve_two_versions (fs : dir) (nm v1 v2 : string) :
  wf_dir fs = true ->
  v1 <> v2 ->
  (forall v, environmentExists fs v nm = true <-> v = v1 \/ v = v2) ->
  precedes v1 v2 (map fst fs) ->
  resolve fs nm None = MultipleMatches [(v1, [v1; nm]); (v2, [v2; nm])]
  /\ resolve fs nm (Some v1) = SingleMatch v1 [v1; nm]
  /\ resolve fs nm (Some v2) = SingleMatch v2 [v2; nm]
  /\ (forall fs', child v1 fs' = child v1 fs ->
                  resolve fs' nm (Some v1) = SingleMatch v1 [v1; nm])
  /\ (forall fs', child v2 fs' = child v2 fs ->
                  resolve fs' nm (Some v2) = SingleMatch v2 [v2; nm]).
Proof.
  intros Hwf Hne Hex (l1 & l2 & l3 & Hnames).
  assert (E1 : environmentExists fs v1 nm = true) by (apply Hex; auto).
  assert (E2 : environmentExists fs v2 nm = true) by (apply Hex; auto).
  assert (N1 : nonempty v1 = true)
    by (eapply wf_dir_nonempty; eauto using environmentExists_In).
  assert (N2 : nonempty v2 = true)
    by (eapply wf_dir_nonempty; eauto using environmentExists_In).
  assert (Hexplicit : forall v fs', nonempty v = true ->
            environmentExists fs v nm = true ->
            child v fs' = child v fs ->
            resolve fs' nm (Some v) = SingleMatch v [v; nm]).
  { intros v fs' Nv Ev Hc. unfold resolve. cbn [truthy]. rewrite Nv.
    rewrite (env_path_version _ _ _ Nv).
    rewrite (environmentExists_child _ _ _ _ Hc), Ev. reflexivity. }
  split; [|repeat split; auto].
  unfold resolve. cbn [truthy]. rewrite find_envs_by_name_all, Hnames.
  rewrite (filter_two (fun v => environmentExists fs v nm) v1 v2 l1 l2 l3).
  - reflexivity.
  - rewrite <- Hnames. apply distinct_NoDup.
    unfold wf_dir in Hwf. now apply andb_prop in Hwf as [Hwf _].
  - exact Hex.
Qed.

(** ** [sorted] is a stable sort *)

Section Sorting.

Context {A : Type} (ltb : A -> A -> bool).

Lemma insert_by_perm (x : A) (l : list A) : Permutation (insert_by ltb x l) (x :: l).
Proof.
  induction l as [|y l IH]; simpl; [reflexivity|].
  destruct (ltb x y); [reflexivity|].
  rewrite IH. apply perm_swap.
Qed.

Lemma sorted_acc_perm (l acc : list A) :
  Permutation (fold_left (fun acc x => insert_by ltb x acc) l acc) (acc ++ l).
Proof.
  revert acc. induction l as [|x l IH]; intros acc; simpl.
  - now rewrite app_nil_r.
  - rewrite IH, insert_by_perm. apply Permutation_middle.
Qed.

Lemma sorted_perm (l : list A) : Permutation (sorted ltb l) l.
Proof. unfold sorted. apply (sorted_acc_perm l []). Qed.

Lemma sorted_In (l : list A) (x : A) : In x (sorted ltb l) <-> In x l.
Proof.
  split; apply Permutation_in; [|symmetry]; apply sorted_perm.
Qed.

Hypothesis ltb_asym : forall x y, ltb x y = true -> ltb y x = false.
Hypothesis ltb_negtrans :
  forall x y z, ltb y x = false -> ltb z y = false -> ltb z x = false.

Lemma insert_by_Forall (P : A -> Prop) (x : A) (l : list A) :
  P x -> Forall P l -> Forall P (insert_by ltb x l).
Proof.
  intros Hx Hl. eapply Permutation_Forall.
  - symmetry. apply insert_by_perm.
  - now constructor.
Qed.

Lemma insert_by_sorted (x : A) (l : list A) :
  StronglySorted (not_after ltb) l -> StronglySorted (not_after ltb) (insert_by ltb x l).
Proof.
  induction 1 as [|y l Hl IH Hy]; simpl.
  - repeat constructor.
  - destruct (ltb x y) eqn:E.
    + constructor; [now constructor|].
      constructor; [now apply ltb_asym|].
      eapply Forall_impl; [|exact Hy].
      intros z Hz. unfold not_after in *.
      apply ltb_negtrans with y; [now apply ltb_asym|exact Hz].
    + constructor; [exact IH|].
      apply insert_by_Forall; [exact E|exact Hy].
Qed.

Lemma sorted_acc_sorted (l acc : list A) :
  StronglySorted (not_after ltb) acc ->
  StronglySorted (not_after ltb) (fold_left (fun acc x => insert_by ltb x acc) l acc).
Proof.
  revert acc. induction l as [|x l IH]; intros acc H; simpl; [exact H|].
  apply IH. now apply insert_by_sorted.
Qed.

Lemma sorted_sorted (l : list A) : StronglySorted (not_after ltb) (sorted ltb l).
Proof. apply sorted_acc_sorted. constructor. Qed.

(** Stability: the elements that compare equal to [k] keep their order. *)
Lemma insert_by_tied (k x : A) (l : list A) :
  StronglySorted (not_after ltb) l ->
  filter (tied ltb k) (insert_by ltb x l)
  = (filter (tied ltb k) l ++ (if tied ltb k x then [x] else []))%list.
Proof.
  induction 1 as [|y l Hl IH Hy]; simpl; [reflexivity|].
  destruct (ltb x y) eqn:E.
  - cbn [filter].
    destruct (tied ltb k x) eqn:Tx; [|now rewrite app_nil_r].
    assert (Hnone : forall z, ltb x z = true -> tied ltb k z = false).
    { intros z Hz. destruct (tied ltb k z) eqn:Tz; [|reflexivity].
      unfold tied in Tx, Tz.
      apply andb_prop in Tx as [Tx1 Tx2]. apply andb_prop in Tz as [Tz1 Tz2].
      apply negb_true_iff in Tx1, Tx2, Tz1, Tz2.
      rewrite (ltb_negtrans z k x Tz1 Tx2) in Hz. discriminate. }
    rewrite (Hnone y E).
    rewrite (filter_nil_when (tied ltb k) l); [reflexivity|].
    intros z Hz. apply Hnone.
    rewrite Forall_forall in Hy. specialize (Hy z Hz). unfold not_after in Hy.
    destruct (ltb x z) eqn:Exz; [reflexivity|].
    rewrite (ltb_negtrans y z x Hy Exz) in E. discriminate.
  - cbn [filter]. rewrite IH. destruct (tied ltb k y); reflexivity.
Qed.

Lemma sorted_acc_stable (k : A) (l acc : list A) :
  StronglySorted (not_after ltb) acc ->
  filter (tied ltb k) (fold_left (fun acc x => insert_by ltb x acc) l acc)
  = (filter (tied ltb k) acc ++ filter (tied ltb k) l)%list.
Proof.
  revert acc. induction l as [|x l IH]; intros acc H; simpl.
  - now rewrite app_nil_r.
  - rewrite IH by now apply insert_by_sorted.
    rewrite insert_by_tied by exact H. rewrite <- app_assoc.
    destruct (tied ltb k x); reflexivity.
Qed.

Lemma sorted_stable (k : A) (l : list A) :
  filter (tied ltb k) (sorted ltb l) = filter (tied ltb k) l.
Proof. apply (sorted_acc_stable k l []). constructor. Qed.

End Sorting.

(** ** What the list command reports *)

Lemma dict_get_set {V : Type} (k k' : string) (v : V) (d : list (string * V)) :
  dict_get k (dict_set k' v d)
  = if String.eqb k k' then Some v else dict_get k d.
Proof.
  induction d as [|[k0 v0] d IH]; simpl.
  - reflexivity.
  - destruct (String.eqb_spec k' k0) as [->|Hne]; simpl.
    + destruct (String.eqb k k0); reflexivity.
    + destruct (String.eqb_spec k k0) as [->|Hne'].
      * destruct (String.eqb_spec k0 k'); [congruence|reflexivity].
      * exact IH.
Qed.

Lemma dict_get_In {V : Type} (k : string) (d : list (string * V)) :
  In k (map fst d) <-> dict_get k d <> None.
Proof.
  induction d as [|[k0 v0] d IH]; simpl.
  - tauto.
  - destruct (String.eqb_spec k k0) as [->|Hne].
    + split; [discriminate|auto].
    + rewrite <- IH. split; [intros [E|H]; [congruence|exact H]|auto].
Qed.

Lemma envs_fold_get (fs : dir) (v : string) (l : list string)
  (acc : list (string * list Path)) :
  dict_get v
    (fold_left
       (fun envs ver_dir =>
          if is_dir fs ver_dir then
            dict_set (name ver_dir)
              (filter (fun p => exists_ fs (join p marker)) (iterdir fs ver_dir))
              envs
          else envs)
       (map (fun k => [k]) l) acc)
  = if existsb (fun k => String.eqb v k && is_dir fs [k]) l
    then Some (env_list fs v) else dict_get v acc.
Proof.
  revert acc. induction l as [|k l IH]; intros acc; simpl; [reflexivity|].
  rewrite IH. change (name [k]) with k.
  destruct (existsb (fun k0 => String.eqb v k0 && is_dir fs [k0]) l);
    [now rewrite orb_true_r|].
  rewrite orb_false_r.
  destruct (is_dir fs [k]) eqn:Ek.
  - rewrite dict_get_set. rewrite andb_true_r.
    destruct (String.eqb_spec v k) as [->|_]; reflexivity.
  - now rewrite andb_false_r.
Qed.

Lemma envs_by_version_get (fs : dir) (v : string) :
  dict_get v (envs_by_version fs)
  = if is_dir fs [v] then Some (env_list fs v) else None.
Proof.
  unfold envs_by_version. rewrite iterdir_root.
  rewrite <- (map_map fst (fun k => [k])). rewrite envs_fold_get. simpl.
  destruct (is_dir fs [v]) eqn:Ev.
  - replace (existsb _ _) with true; [reflexivity|].
    symmetry. apply existsb_exists. exists v.
    split; [|now rewrite String.eqb_refl, Ev].
    unfold is_dir in Ev. simpl in Ev.
    destruct (child v fs) as [c|] eqn:E; [|discriminate].
    exact (child_In _ _ _ E).
  - replace (existsb _ _) with false; [reflexivity|].
    symmetry. apply not_true_is_false. intros H.
    apply existsb_exists in H as (k & _ & Hk).
    apply andb_prop in Hk as [Hk1 Hk2].
    apply String.eqb_eq in Hk1. subst k. congruence.
Qed.

Lemma env_list_In (fs : dir) (v : string) (p : Path) :
  In p (env_list fs v)
  <-> exists nm, p = [v; nm] /\ environmentExists fs v nm = true.
Proof.
  unfold env_list, iterdir, environmentExists. rewrite filter_In. split.
  - intros [Hin Hm].
    destruct (stat (Dir fs) [v]) as [[c|d]|] eqn:Ev; try contradiction.
    apply in_map_iff in Hin as ([n c] & <- & Hin). simpl in *.
    exists n. change (join [v] n) with [v; n] in *.
    change (join [v; n] marker) with [v; n; marker] in Hm.
    split; [reflexivity|]. rewrite Hm, andb_true_r.
    exact (exists_join_is_dir fs [v; n] marker Hm).
  - intros (nm & -> & H). apply andb_prop in H as [Hd Hm].
    split; [|exact Hm].
    unfold is_dir in Hd. change [v; nm] with (join [v] nm) in Hd.
    rewrite stat_join in Hd.
    destruct (stat (Dir fs) [v]) as [[c|d]|]; try discriminate.
    destruct (child nm d) as [c|] eqn:Ec; [|discriminate].
    apply in_map_iff.
    apply child_In in Ec. apply in_map_iff in Ec as (e & <- & He).
    exists e. split; [reflexivity|exact He].
Qed.

Lemma emit_emit (a b : list event) (w : World) :
  emit b (emit a w) = emit (a ++ b)%list w.
Proof. unfold emit. simpl. now rewrite app_assoc. Qed.

Lemma emit_nil (w : World) : emit [] w = w.
Proof. destruct w. unfold emit. simpl. now rewrite app_nil_r. Qed.

Lemma w_fs_emit (evs : list event) (w : World) : w_fs (emit evs w) = w_fs w.
Proof. reflexivity. Qed.

Lemma bind_normal {A B : Type} (m : M A) (k : A -> M B) (w w' : World) (a : A) :
  m w = (Normal a, w') -> bind m k w = k a w'.
Proof. unfold bind. now intros ->. Qed.

Lemma print_run (text : string) (w : World) :
  print text w = (Normal tt, emit [Print text] w).
Proof. reflexivity. Qed.

Lemma get_fs_run (w : World) : get_fs w = (Normal (w_fs w), w).
Proof. reflexivity. Qed.

Lemma bind_raise {A B : Type} (m : M A) (k : A -> M B) (w w' : World) (e : exn) :
  m w = (Raise e, w') -> bind m k w = (Raise e, w').
Proof. unfold bind. now intros ->. Qed.

Lemma bind_return {A B : Type} (m : M A) (k : A -> M B) (w w' : World) :
  m w = (Return, w') -> bind m k w = (Return, w').
Proof. unfold bind. now intros ->. Qed.

Lemma input_line (s : string) (rest : list stdin_event) (w : World) :
  w_stdin w = Line s :: rest ->
  input_ w = (Normal s, set_stdin rest (emit [Read] w)).
Proof. unfold input_. now intros ->. Qed.

Lemma input_eof (w : World) :
  w_stdin w = [] -> input_ w = (Raise EOFError, emit [Read] w).
Proof. unfold input_. now intros ->. Qed.

Lemma input_ctrlc (rest : list stdin_event) (w : World) :
  w_stdin w = CtrlC :: rest ->
  input_ w = (Raise KeyboardInterrupt, set_stdin rest (emit [Read] w)).
Proof. unfold input_. now intros ->. Qed.

Lemma w_stdin_emit (evs : list event) (w : World) : w_stdin (emit evs w) = w_stdin w.
Proof. reflexivity. Qed.

Lemma for_each_emits {A : Type} (f : A -> list event) (body : A -> M unit)
  (l : list A) :
  (forall x w, In x l -> body x w = (Normal tt, emit (f x) w)) ->
  forall w, for_each l body w = (Normal tt, emit (flat_map f l) w).
Proof.
  induction l as [|x l IH]; intros Hb w; simpl.
  - unfold ret. now rewrite emit_nil.
  - unfold bind. rewrite (Hb x w (or_introl eq_refl)).
    rewrite IH by (intros y w' Hy; apply Hb; now right).
    now rewrite emit_emit.
Qed.

Lemma flat_map_singleton {A B : Type} (f : A -> B) (l : list A) :
  flat_map (fun x => [f x]) l = map f l.
Proof. induction l as [|x l IH]; simpl; congruence. Qed.

Lemma for_each_print {A : Type} (text : A -> string) (l : list A) (w : World) :
  for_each l (fun x => print (text x)) w
  = (Normal tt, emit (map (fun x => Print (text x)) l) w).
Proof.
  rewrite <- flat_map_singleton.
  apply (for_each_emits (fun x => [Print (text x)])).
  reflexivity.
Qed.

Lemma flat_map_flat_map {A B C : Type} (f : A -> list B) (g : B -> list C)
  (l : list A) :
  flat_map g (flat_map f l) = flat_map (fun x => flat_map g (f x)) l.
Proof.
  induction l as [|x l IH]; simpl; [reflexivity|].
  now rewrite flat_map_app, IH.
Qed.

(** What [cmd_list] prints, and that it returns. *)
Lemma cmd_list_trace (py_int : string -> option Z) (path_str : Path -> string)
  (env : Env) (w : World) :
  cmd_list py_int path_str env w
  = (Normal tt,
     emit ([Print (Py.nl ++ ">> Available Python interpreters:")]
           ++ map (fun vp => Print ("  " ++ Py.ljust 9 (fst vp) ++ " -> " ++ snd vp))
                  (installed env)
           ++ [Print (Py.nl ++ ">> Virtual environments in " ++ path_str [] ++ ":")]
           ++ flat_map section_events (listing py_int (w_fs w))
           ++ [Print EmptyString])%list w).
Proof.
  unfold cmd_list.
  rewrite (bind_normal _ _ _ _ _ (print_run _ _)).
  rewrite (bind_normal _ _ _ _ _ (for_each_print _ _ _)).
  rewrite (bind_normal _ _ _ _ _ (print_run _ _)).
  rewrite (bind_normal _ _ _ _ _ (get_fs_run _)).
  rewrite !emit_emit, w_fs_emit.
  erewrite bind_normal.
  2:{ apply (for_each_emits
               (fun ver => flat_map section_events (section_of (w_fs w) ver))).
      intros ver w' Hin.
      apply sorted_In in Hin. apply dict_get_In in Hin.
      unfold section_of.
      destruct (dict_get ver (envs_by_version (w_fs w))) as [[|e l]|];
        [| |congruence].
      - unfold ret. now rewrite emit_nil.
      - rewrite (bind_normal _ _ _ _ _ (print_run _ _)).
        rewrite for_each_print, emit_emit. simpl.
        now rewrite app_nil_r, map_map. }
  rewrite print_run, !emit_emit.
  unfold listing, list_order. rewrite flat_map_flat_map.
  repeat rewrite <- app_assoc. reflexivity.
Qed.

Lemma entry_name_nonempty (s : string) : entry_name s = true -> nonempty s = true.
Proof. destruct s; [discriminate|reflexivity]. Qed.

(** C4.  For a version tag and a name that are names of directory entries:
    they are reported by the list command (whose output is the sections of
    [listing]), and counted as a match by the resolver (by the scan over
    all version tags and by the lookup under an explicit tag), exactly when
    the directory [ROOT/tag/name] exists and holds an entry named
    [pyvenv.cfg]; a subdirectory without the marker is in neither. *)
Theorem marker_decides_existence (py_int : string -> option Z) (fs : dir)
  (v nm : string) :
  entry_name v = true ->
  entry_name nm = true ->
  (forall path_str env w,
      w_fs w = fs ->
      cmd_list py_int path_str env w
      = (Normal tt, emit (list_events py_int path_str env fs) w))
  /\ (reported (listing py_int fs) v nm <-> environmentExists fs v nm = true)
  /\ (forall p, In (v, p) (find_envs_by_name fs nm true)
                <-> p = [v; nm] /\ environmentExists fs v nm = true)
  /\ env_path fs nm (Some v)
     = (if environmentExists fs v nm then Some [v; nm] else None)
  /\ (environmentExists fs v nm = true
      <-> exists d e c, child v fs = Some (Dir d)
                        /\ child nm d = Some (Dir e)
                        /\ child marker e = Some c).
Proof.
  intros Hentry_v Hentry_nm.
  split; [intros path_str env w <-; apply cmd_list_trace|].
  rewrite (env_path_version fs nm v (entry_name_nonempty v Hentry_v)).
  repeat split.
  - intros (names & Hin & Hnm).
    unfold listing in Hin. apply in_flat_map in Hin as (ver & _ & Hin).
    unfold section_of in Hin. rewrite envs_by_version_get in Hin.
    destruct (is_dir fs [ver]); [|contradiction].
    destruct (env_list fs ver) as [|e l] eqn:El; [contradiction|].
    destruct Hin as [Hin|[]]. injection Hin as -> <-.
    apply in_map_iff in Hnm as (p & <- & Hp).
    apply sorted_In in Hp. rewrite <- El in Hp.
    apply env_list_In in Hp as (n & -> & Hn). exact Hn.
  - intros H. assert (Hd := environmentExists_is_dir _ _ _ H).
    assert (Hp : In [v; nm] (env_list fs v))
      by (apply env_list_In; exists nm; auto).
    destruct (env_list fs v) as [|e l] eqn:El; [contradiction|].
    exists (map name (sorted name_ltb (e :: l))). split.
    + unfold listing. apply in_flat_map. exists v. split.
      * unfold list_order. apply sorted_In. apply dict_get_In.
        rewrite envs_by_version_get, Hd. discriminate.
      * unfold section_of. rewrite envs_by_version_get, Hd, El. now left.
    + apply in_map_iff. exists [v; nm]. split; [reflexivity|].
      now apply sorted_In.
  - rewrite find_envs_by_name_all in H.
    apply in_map_iff in H as (x & Hx & _). unfold hit in Hx. congruence.
  - rewrite find_envs_by_name_all in H.
    apply in_map_iff in H as (x & Hx & Hf). unfold hit in Hx.
    apply filter_In in Hf as [_ Hf]. congruence.
  - intros [-> H]. rewrite find_envs_by_name_all.
    apply in_map_iff. exists v. split; [reflexivity|].
    apply filter_In. split; [exact (environmentExists_In _ _ _ H)|exact H].
  - unfold environmentExists, is_dir, exists_. simpl.
    destruct (child v fs) as [[c|d]|] eqn:Ev; try discriminate.
    destruct (child nm d) as [[c|e]|] eqn:Ed; try discriminate.
    destruct (child marker e) as [c|] eqn:Em; [|discriminate].
    intros _. exists d, e, c. auto.
  - intros (d & e & c & Hv & Hd & He).
    unfold environmentExists, is_dir, exists_. simpl.
    now rewrite Hv, Hd, He.
Qed.

(** ** The order of the version tags in the listing *)

Lemma seg_eqb_eq (a b : seg) : seg_eqb a b = true <-> a = b.
Proof.
  destruct a as [x|], b as [y|]; simpl; split; try congruence.
  - intros H. apply Z.eqb_eq in H. congruence.
  - intros H. injection H as ->. apply Z.eqb_refl.
Qed.

Ltac seg_cases :=
  repeat match goal with
         | s : seg |- _ => destruct s
         end;
  cbn [seg_eqb seg_ltb] in *;
  repeat match goal with
         | |- context [(?x =? ?y)%Z] => destruct (Z.eqb_spec x y)
         | H : context [(?x =? ?y)%Z] |- _ => destruct (Z.eqb_spec x y)
         end;
  subst;
  rewrite ?Z.ltb_ge, ?Z.ltb_lt, ?Z.ltb_irrefl in *;
  try discriminate; try lia; try congruence.

Lemma tuple_ltb_asym (a b : list seg) :
  tuple_ltb a b = true -> tuple_ltb b a = false.
Proof.
  revert b. induction a as [|x a IH]; intros [|y b]; simpl; try congruence.
  intros H. specialize (IH b).
  destruct (seg_eqb x y) eqn:E1, (seg_eqb y x) eqn:E2; auto;
    rewrite ?seg_eqb_eq in *; subst; try rewrite (proj2 (seg_eqb_eq _ _) eq_refl) in *;
    try discriminate.
  seg_cases.
Qed.

Lemma tuple_ltb_negtrans (x y z : list seg) :
  tuple_ltb y x = false -> tuple_ltb z y = false -> tuple_ltb z x = false.
Proof.
  revert y z. induction x as [|a x IH]; intros [|b y] [|c z]; simpl;
    try congruence.
  intros H1 H2. specialize (IH y z).
  destruct (seg_eqb b a) eqn:E1, (seg_eqb c b) eqn:E2, (seg_eqb c a) eqn:E3;
    auto; rewrite ?seg_eqb_eq in *; subst;
    try rewrite (proj2 (seg_eqb_eq _ _) eq_refl) in *; try discriminate;
    try congruence; seg_cases.
Qed.

Section VersionOrder.

Variable py_int : string -> option Z.

Lemma seg_ltb_before (s t : string) :
  seg_ltb (key_of py_int s) (key_of py_int t) = true <-> seg_before py_int s t.
Proof.
  unfold key_of. split.
  - destruct (py_int s) as [n|] eqn:Es, (py_int t) as [m|] eqn:Et; simpl;
      try discriminate.
    + intros H. apply Z.ltb_lt in H. eapply both_numeric; eauto.
    + intros _. eapply numeric_first; eauto.
  - intros [s' t' n m Hs Ht Hlt|s' t' n Hs Ht]; rewrite Hs, Ht; simpl;
      [now apply Z.ltb_lt|reflexivity].
Qed.

Lemma seg_eqb_tie (s t : string) :
  seg_eqb (key_of py_int s) (key_of py_int t) = true <-> seg_tie py_int s t.
Proof.
  unfold key_of, seg_tie.
  destruct (py_int s) as [n|], (py_int t) as [m|]; simpl;
    rewrite ?Z.eqb_eq; intuition congruence.
Qed.

Lemma seg_before_not_tie (s t : string) : seg_before py_int s t -> ~ seg_tie py_int s t.
Proof.
  unfold seg_tie.
  intros [s' t' n m Hs Ht Hlt|s' t' n Hs Ht]; rewrite Hs, Ht; [lia|tauto].
Qed.

Lemma tuple_ltb_tag_before (a b : list string) :
  tuple_ltb (map (key_of py_int) a) (map (key_of py_int) b) = true <-> tag_before py_int a b.
Proof.
  revert b. induction a as [|s a IH]; intros [|t b]; simpl.
  - split; [discriminate|inversion 1].
  - split; [intros _; constructor|reflexivity].
  - split; [discriminate|inversion 1].
  - destruct (seg_eqb (key_of py_int s) (key_of py_int t)) eqn:E.
    + apply seg_eqb_tie in E. rewrite IH. split.
      * now apply later_differs.
      * intros Hb.
        inversion Hb as [s' t' a' b' Hsb|s' t' a' b' Htie Hrest|]; subst;
          [|assumption].
        now apply seg_before_not_tie in Hsb.
    + rewrite seg_ltb_before. split.
      * now apply first_differs.
      * intros Hb.
        inversion Hb as [s' t' a' b' Hsb|s' t' a' b' Htie Hrest|]; subst;
          [assumption|].
        apply seg_eqb_tie in Htie. congruence.
Qed.

Lemma version_ltb_tag_before (a b : string) :
  version_ltb py_int a b = true <-> tag_before py_int (Py.re_split a) (Py.re_split b).
Proof. unfold version_ltb, version_key. apply tuple_ltb_tag_before. Qed.

Lemma StronglySorted_filter {A : Type} (R : A -> A -> Prop) (f : A -> bool)
  (l : list A) :
  StronglySorted R l -> StronglySorted R (filter f l).
Proof.
  induction 1 as [|x l Hl IH Hx]; simpl; [constructor|].
  destruct (f x); [|exact IH].
  constructor; [exact IH|].
  rewrite Forall_forall in *. intros y Hy.
  apply filter_In in Hy as [Hy _]. auto.
Qed.

Lemma listing_versions (fs : dir) :
  map fst (listing py_int fs) = filter (has_envs fs) (list_order py_int fs).
Proof.
  unfold listing. induction (list_order py_int fs) as [|v l IH]; simpl;
    [reflexivity|].
  rewrite map_app, IH. unfold section_of, has_envs.
  destruct (dict_get v (envs_by_version fs)) as [[|e es]|]; reflexivity.
Qed.

(** C3.  The list command returns after printing, below the interpreters,
    one section per version tag that has environments, the tags taken in
    [list_order]: the version tag directories, each of them, ordered by the
    comparison of their keys: tags split on [.] and [-], compared segment
    by segment, numeric segments as integers and a non-numeric segment
    behind every numeric one; a tag is never behind a tag that compares
    greater, and the printed sections keep that order.  So 3.9 comes before
    3.10 and 3.10 before 3.11-arm64, where the order of strings puts 3.10
    before 3.9. *)
Theorem list_order_version_aware (fs : dir) :
  py_int "3" = Some 3%Z -> py_int "9" = Some 9%Z -> py_int "10" = Some 10%Z ->
  py_int "11" = Some 11%Z ->
  (forall path_str env w,
      w_fs w = fs ->
      cmd_list py_int path_str env w
      = (Normal tt,
         emit ([Print (Py.nl ++ ">> Available Python interpreters:")]
               ++ map (fun vp => Print ("  " ++ Py.ljust 9 (fst vp) ++ " -> " ++ snd vp))
                      (installed env)
               ++ [Print (Py.nl ++ ">> Virtual environments in " ++ path_str [] ++ ":")]
               ++ flat_map section_events (listing py_int fs)
               ++ [Print EmptyString])%list w))
  /\ map fst (listing py_int fs) = filter (has_envs fs) (list_order py_int fs)
  /\ (forall v, In v (list_order py_int fs) <-> is_dir fs [v] = true)
  /\ Permutation (list_order py_int fs) (map fst (envs_by_version fs))
  /\ StronglySorted (fun a b => version_ltb py_int b a = false)
       (list_order py_int fs)
  /\ StronglySorted (fun a b => version_ltb py_int b a = false)
       (map fst (listing py_int fs))
  /\ (forall a b, version_ltb py_int a b = true
                  <-> tag_before py_int (Py.re_split a) (Py.re_split b))
  /\ version_ltb py_int "3.9" "3.10" = true
  /\ version_ltb py_int "3.10" "3.11-arm64" = true
  /\ String.ltb "3.10" "3.9" = true.
Proof.
  intros H3 H9 H10 H11.
  assert (Hs : StronglySorted (fun a b => version_ltb py_int b a = false)
                 (list_order py_int fs)).
  { unfold list_order.
    apply (sorted_sorted (version_ltb py_int)); unfold version_ltb.
    - intros x y. apply tuple_ltb_asym.
    - intros x y z. apply tuple_ltb_negtrans. }
  split; [intros path_str env w <-; apply cmd_list_trace|].
  split; [apply listing_versions|].
  split; [|split; [|split; [|split; [|split; [|split; [|split]]]]]].
  - intros v. unfold list_order. rewrite sorted_In, dict_get_In.
    rewrite envs_by_version_get. destruct (is_dir fs [v]); split; congruence.
  - apply sorted_perm.
  - exact Hs.
  - rewrite listing_versions. now apply StronglySorted_filter.
  - apply version_ltb_tag_before.
  - unfold version_ltb, version_key. cbn [Py.re_split Py.re_split_acc Py.is_sep map].
    simpl. now rewrite H3, H9, H10.
  - unfold version_ltb, version_key. simpl. now rewrite H3, H10, H11.
  - reflexivity.
Qed.

End VersionOrder.

(** ** Facts about the commands *)

Lemma lower_y (answer : string) :
  affirmative answer = true <-> answer = "y" \/ answer = "Y".
Proof.
  unfold affirmative. rewrite String.eqb_eq. split.
  - destruct answer as [|c [|c' s]]; simpl; try discriminate.
    intros H. injection H as H.
    assert (Hc : nat_of_ascii c = 121 \/ nat_of_ascii c = 89).
    { unfold Py.lower_ascii in H.
      destruct ((65 <=? nat_of_ascii c)%nat && (nat_of_ascii c <=? 90)%nat) eqn:E.
      - apply (f_equal nat_of_ascii) in H.
        apply andb_prop in E as [E1 E2].
        apply Nat.leb_le in E1, E2.
        rewrite nat_ascii_embedding in H by lia.
        change (nat_of_ascii "y"%char) with 121 in H. right. lia.
      - left. now rewrite H. }
    destruct Hc as [Hc|Hc]; apply (f_equal ascii_of_nat) in Hc;
      rewrite ascii_nat_embedding in Hc; subst c; auto.
  - intros [->| ->]; reflexivity.
Qed.

Lemma child_put_same (n : string) (c c0 : node) (d : dir) :
  child n d = Some c0 -> child n (put n c d) = Some c.
Proof.
  induction d as [|[k c'] d IH]; simpl; [discriminate|].
  destruct (String.eqb n k) eqn:E; simpl; rewrite E; auto.
Qed.

Lemma child_put_new (n : string) (c : node) (d : dir) :
  child n (put n c d) = Some c.
Proof.
  induction d as [|[k c'] d IH]; simpl.
  - now rewrite String.eqb_refl.
  - destruct (String.eqb n k) eqn:E; simpl; rewrite E; auto.
Qed.

Lemma child_put_other (n k : string) (c : node) (d : dir) :
  n <> k -> child n (put k c d) = child n d.
Proof.
  intros Hne. induction d as [|[k' c'] d IH]; simpl.
  - destruct (String.eqb_spec n k); [congruence|reflexivity].
  - destruct (String.eqb_spec k k') as [->|Hk]; simpl.
    + destruct (String.eqb_spec n k'); [congruence|reflexivity].
    + destruct (String.eqb n k'); auto.
Qed.

Lemma child_remove_same (n : string) (d : dir) : child n (remove n d) = None.
Proof.
  induction d as [|[k c] d IH]; simpl; [reflexivity|].
  destruct (String.eqb n k) eqn:E; simpl; [exact IH|].
  now rewrite E.
Qed.

Lemma child_remove_other (n k : string) (d : dir) :
  n <> k -> child n (remove k d) = child n d.
Proof.
  intros Hne. induction d as [|[k' c] d IH]; simpl; [reflexivity|].
  destruct (String.eqb_spec k k') as [->|Hk]; simpl.
  - destruct (String.eqb_spec n k'); [congruence|exact IH].
  - destruct (String.eqb n k'); auto.
Qed.

(** Removing an environment directory: it and all below it are gone, its
    siblings and the other version directories stay. *)
Lemma unlink_env (fs : dir) (v nm : string) :
  is_dir fs [v; nm] = true ->
  exists d,
    child v fs = Some (Dir d)
    /\ unlink [v; nm] fs = Some (put v (Dir (remove nm d)) fs)
    /\ (forall p, stat (Dir (put v (Dir (remove nm d)) fs)) (v :: nm :: p) = None)
    /\ (forall n p, n <> nm ->
          stat (Dir (put v (Dir (remove nm d)) fs)) (v :: n :: p)
          = stat (Dir fs) (v :: n :: p))
    /\ (forall k p, k <> v ->
          stat (Dir (put v (Dir (remove nm d)) fs)) (k :: p)
          = stat (Dir fs) (k :: p)).
Proof.
  unfold is_dir. simpl.
  destruct (child v fs) as [[c|d]|] eqn:Ev; try discriminate.
  destruct (child nm d) as [c|] eqn:En; [|discriminate].
  intros _. exists d. repeat split.
  - intros p. simpl. rewrite (child_put_same _ _ _ _ Ev).
    now rewrite child_remove_same.
  - intros n p Hn. simpl. rewrite (child_put_same _ _ _ _ Ev).
    now rewrite child_remove_other.
  - intros k p Hk. simpl. now rewrite child_put_other.
Qed.

Lemma reads_app (a b : list event) : reads (a ++ b) = (reads a + reads b)%nat.
Proof.
  induction a as [|e a IH]; simpl; [reflexivity|].
  destruct e; simpl; lia.
Qed.

Lemma reads_map_print {A : Type} (f : A -> string) (l : list A) :
  reads (map (fun x => Print (f x)) l) = 0%nat.
Proof. induction l as [|x l IH]; simpl; auto. Qed.

Lemma reads_menu (matching_envs : list (string * Path)) (nm : string) :
  reads (menu_events matching_envs nm) = 0%nat.
Proof. unfold menu_events. cbn [reads]. apply reads_map_print. Qed.

Ltac solve_reads :=
  unfold log; cbn [fst snd w_trace emit set_stdin];
  repeat rewrite reads_app; rewrite ?reads_menu; cbn [reads]; lia.

Section CommandFacts.

Variable py_int : string -> option Z.
Variable py_strip : string -> string.
Variable path_str : Path -> string.
Variable env : Env.

Lemma select_environment_menu (matching_envs : list (string * Path))
  (nm action_name : string) (w : World) :
  select_environment py_int env matching_envs nm action_name w
  = (if stdin_isatty env then
       try_except
         (print (Py.nl ++ "Select an environment to " ++ action_name
                 ++ " (or Ctrl+C to cancel):") ;;;
          choice <- input_ ;;
          match py_int choice with
          | Some n =>
              let choice_idx := (n - 1)%Z in
              if (0 <=? choice_idx)%Z
                 && (choice_idx <? Z.of_nat (List.length matching_envs))%Z then
                match nth_error matching_envs (Z.to_nat choice_idx) with
                | Some (selected_version, env_dir) =>
                    print ("Selected: Python " ++ selected_version) ;;;
                    ret (Some (selected_version, env_dir))
                | None => raise IndexError
                end
              else
                print ("Invalid selection. Please choose a number between 1 and "
                       ++ Py.str_nat (List.length matching_envs) ++ ".") ;;;
                ret None
          | None =>
              print "Invalid input. Please enter a number." ;;;
              ret None
          end)
         (fun e => match e with
                   | KeyboardInterrupt =>
                       Some (print (Py.nl ++ "Operation cancelled.") ;;; ret None)
                   | _ => None
                   end)
     else
       print (Py.nl ++ "Please specify a version with --version or use the full command:") ;;;
       print ("  zap " ++ action_name ++ " " ++ nm ++ " --version VERSION") ;;;
       print (Py.nl ++ "For example:") ;;;
       match matching_envs with
       | (v, _) :: _ =>
           print ("  zap " ++ action_name ++ " " ++ nm ++ " --version " ++ v) ;;;
           ret None
       | [] => raise IndexError
       end) (emit (menu_events matching_envs nm) w).
Proof.
  unfold select_environment.
  rewrite (bind_normal _ _ _ _ _ (print_run _ _)).
  rewrite (bind_normal _ _ _ _ _ (for_each_print _ _ _)).
  rewrite emit_emit. reflexivity.
Qed.

(** Without a terminal the menu is followed by the guidance and nothing is
    read. *)
Lemma select_environment_unattended (m : string * Path)
  (others : list (string * Path)) (nm action_name : string) (w : World) :
  stdin_isatty env = false ->
  select_environment py_int env (m :: others) nm action_name w
  = (Normal None,
     emit (menu_events (m :: others) nm ++ guidance_events nm action_name (fst m))%list w).
Proof.
  intros Htty. rewrite select_environment_menu, Htty.
  destruct m as [v p].
  repeat rewrite (bind_normal _ _ _ _ _ (print_run _ _)).
  unfold ret. rewrite !emit_emit. reflexivity.
Qed.

(** With a terminal, an answer that selects nothing ends the selection
    with [None]; the registry is as before. *)
Lemma select_environment_invalid (matching_envs : list (string * Path))
  (nm action_name choice : string) (rest : list stdin_event) (w : World) :
  stdin_isatty env = true ->
  w_stdin w = Line choice :: rest ->
  invalid_choice py_int (List.length matching_envs) choice ->
  exists w', select_environment py_int env matching_envs nm action_name w
             = (Normal None, w')
             /\ w_fs w' = w_fs w /\ w_stdin w' = rest
             /\ reads (w_trace w') = S (reads (w_trace w)).
Proof.
  intros Htty Hin Hinv. rewrite select_environment_menu, Htty.
  unfold try_except.
  rewrite (bind_normal _ _ _ _ _ (print_run _ _)).
  erewrite bind_normal by (apply input_line; exact Hin).
  unfold invalid_choice in Hinv.
  destruct (py_int choice) as [n|].
  - destruct ((0 <=? n - 1)%Z && (n - 1 <? Z.of_nat (List.length matching_envs))%Z)
      eqn:E.
    + exfalso. apply Hinv. apply andb_prop in E as [E1 E2].
      apply Z.leb_le in E1. apply Z.ltb_lt in E2. lia.
    + rewrite (bind_normal _ _ _ _ _ (print_run _ _)). unfold ret.
      eexists. split; [reflexivity|].
      repeat split. solve_reads.
  - rewrite (bind_normal _ _ _ _ _ (print_run _ _)). unfold ret.
    eexists. split; [reflexivity|].
    repeat split. solve_reads.
Qed.

(** Whatever is answered, [select_environment] leaves the registry alone,
    reads once with a terminal and never without, and a selection it
    returns is one of the matches. *)
Lemma select_environment_facts (matching_envs : list (string * Path))
  (nm action_name : string) (w : World) :
  w_fs (snd (select_environment py_int env matching_envs nm action_name w)) = w_fs w
  /\ reads (w_trace (snd (select_environment py_int env matching_envs nm action_name w)))
     = (reads (w_trace w) + (if stdin_isatty env then 1 else 0))%nat
  /\ match fst (select_environment py_int env matching_envs nm action_name w) with
     | Normal (Some m) => In m matching_envs
     | Normal None => True
     | Return => False
     | Raise e => e = EOFError \/ e = IndexError
     end.
Proof.
  rewrite select_environment_menu.
  destruct (stdin_isatty env).
  - unfold try_except.
    rewrite (bind_normal _ _ _ _ _ (print_run _ _)).
    destruct (w_stdin w) as [|[choice|] rest] eqn:Hin.
    + erewrite bind_raise by (apply input_eof; exact Hin).
      split; [reflexivity|split; [solve_reads|cbn [fst]; auto]].
    + erewrite bind_normal by (apply input_line; exact Hin).
      destruct (py_int choice) as [n|].
      * destruct ((0 <=? n - 1)%Z
                  && (n - 1 <? Z.of_nat (List.length matching_envs))%Z).
        -- destruct (nth_error matching_envs (Z.to_nat (n - 1)))
             as [[v p]|] eqn:En.
           ++ rewrite (bind_normal _ _ _ _ _ (print_run _ _)). unfold ret.
              split; [reflexivity|split; [solve_reads|cbn [fst]]].
              exact (nth_error_In _ _ En).
           ++ unfold raise. split; [reflexivity|split; [solve_reads|cbn [fst]; auto]].
        -- rewrite (bind_normal _ _ _ _ _ (print_run _ _)). unfold ret.
           split; [reflexivity|split; [solve_reads|exact I]].
      * rewrite (bind_normal _ _ _ _ _ (print_run _ _)). unfold ret.
        split; [reflexivity|split; [solve_reads|exact I]].
    + erewrite bind_raise by (apply input_ctrlc; exact Hin).
      cbv beta iota.
      rewrite (bind_normal _ _ _ _ _ (print_run _ _)). unfold ret.
      split; [reflexivity|split; [solve_reads|exact I]].
  - repeat rewrite (bind_normal _ _ _ _ _ (print_run _ _)).
    destruct matching_envs as [|[v p] others].
    + unfold raise. split; [reflexivity|split; [solve_reads|cbn [fst]; auto]].
    + rewrite (bind_normal _ _ _ _ _ (print_run _ _)). unfold ret.
      split; [reflexivity|split; [solve_reads|exact I]].
Qed.

(** [locate] acts on the outcome of [resolve]: not found is a failure, a
    single match is taken, several matches go to the menu. *)
Lemma locate_resolve (nm : string) (version : option string)
  (action_name : string) (w : World) :
  locate py_int env nm version action_name w
  = match resolve (w_fs w) nm version with
    | NotFound =>
        (Raise (SystemExit
                  (if truthy version
                   then "[!] No environment named '" ++ nm ++ "' with Python "
                        ++ match version with Some v => v | None => EmptyString end
                   else "[!] No environment named '" ++ nm ++ "'")), w)
    | SingleMatch v env_dir =>
        if truthy version then (Normal env_dir, w)
        else (Normal env_dir,
              emit [Print ("Using Python " ++ v ++ " environment.")] w)
    | MultipleMatches matching_envs =>
        (selection <- select_environment py_int env matching_envs nm action_name ;;
         match selection with
         | Some (_, env_dir) => ret env_dir
         | None => return_
         end) w
    end.
Proof.
  unfold locate, resolve.
  destruct (truthy version).
  - rewrite (bind_normal _ _ _ _ _ (get_fs_run _)).
    destruct (env_path (w_fs w) nm version); reflexivity.
  - rewrite (bind_normal _ _ _ _ _ (get_fs_run _)).
    destruct (find_envs_by_name (w_fs w) nm true) as [|a [|b l]]; reflexivity.
Qed.

Lemma resolve_sound (fs : dir) (nm : string) (version : option string) :
  match resolve fs nm version with
  | NotFound => True
  | SingleMatch v p => p = [v; nm] /\ environmentExists fs v nm = true
  | MultipleMatches l =>
      (2 <= List.length l)%nat /\ truthy version = false
      /\ l = find_envs_by_name fs nm true
      /\ forall m, In m l ->
                   snd m = [fst m; nm] /\ environmentExists fs (fst m) nm = true
  end.
Proof.
  unfold resolve. destruct (truthy version) eqn:Ht.
  - destruct version as [v|]; [|discriminate]. cbn [truthy] in Ht.
    rewrite (env_path_version _ _ _ Ht).
    destruct (environmentExists fs v nm) eqn:E; auto.
  - assert (Hall : forall m, In m (find_envs_by_name fs nm true) ->
               snd m = [fst m; nm] /\ environmentExists fs (fst m) nm = true).
    { intros m Hm. rewrite find_envs_by_name_all in Hm.
      apply in_map_iff in Hm as (v & <- & Hv).
      apply filter_In in Hv as [_ Hv]. auto. }
    destruct (find_envs_by_name fs nm true) as [|a [|b l]]; [exact I| |].
    + destruct (Hall a (or_introl eq_refl)) as [H1 H2]. auto.
    + repeat split; try apply Hall; auto. cbn [List.length]. lia.
Qed.

Lemma locate_facts (nm : string) (version : option string)
  (action_name : string) (w : World) :
  w_fs (snd (locate py_int env nm version action_name w)) = w_fs w
  /\ (stdin_isatty env = false ->
      reads (w_trace (snd (locate py_int env nm version action_name w)))
      = reads (w_trace w))
  /\ match fst (locate py_int env nm version action_name w) with
     | Normal p => exists v, p = [v; nm] /\ environmentExists (w_fs w) v nm = true
     | _ => True
     end.
Proof.
  rewrite locate_resolve.
  assert (Hs := resolve_sound (w_fs w) nm version).
  destruct (resolve (w_fs w) nm version) as [|v p|l].
  - repeat split.
  - destruct Hs as [-> Hs].
    destruct (truthy version); (split; [reflexivity|split; [intros _; solve_reads|]]);
      exists v; auto.
  - destruct Hs as (_ & _ & _ & Hall).
    destruct (select_environment_facts l nm action_name w) as (Hfs & Hr & Hm).
    unfold bind.
    destruct (select_environment py_int env l nm action_name w)
      as [[[[v p]|]| |e] w'].
    + cbn [fst snd] in *. unfold ret. cbn [fst snd].
      split; [exact Hfs|split].
      * intros Htty. rewrite Htty in Hr. lia.
      * destruct (Hall _ Hm) as [H1 H2]. exists v. auto.
    + cbn [fst snd] in *. unfold return_. cbn [fst snd].
      split; [exact Hfs|split; [|exact I]].
      intros Htty. rewrite Htty in Hr. lia.
    + contradiction.
    + cbn [fst snd] in *.
      split; [exact Hfs|split; [|exact I]].
      intros Htty. rewrite Htty in Hr. lia.
Qed.

(** Several matches and no terminal: the lookup ends the command after the
    menu and the guidance. *)
Lemma locate_unattended (nm : string) (version : option string)
  (action_name : string) (matches : list (string * Path)) (w : World) :
  stdin_isatty env = false ->
  resolve (w_fs w) nm version = MultipleMatches matches ->
  exists m others,
    matches = m :: others
    /\ locate py_int env nm version action_name w
       = (Return, emit (menu_events matches nm
                        ++ guidance_events nm action_name (fst m))%list w).
Proof.
  intros Htty Hres.
  assert (Hlen := resolve_sound (w_fs w) nm version).
  rewrite Hres in Hlen. destruct Hlen as (Hlen & _).
  destruct matches as [|m others]; [cbn in Hlen; lia|].
  exists m, others. split; [reflexivity|].
  rewrite locate_resolve, Hres.
  now rewrite (bind_normal _ _ _ _ _
                 (select_environment_unattended m others nm action_name w Htty)).
Qed.

Lemma input_prompt_line (prompt answer : string) (rest : list stdin_event)
  (w : World) :
  w_stdin w = Line answer :: rest ->
  input_prompt prompt w
  = (Normal answer, set_stdin rest (emit [Print prompt; Read] w)).
Proof.
  intros Hin. unfold input_prompt.
  rewrite (bind_normal _ _ _ _ _ (print_run _ _)).
  erewrite input_line by exact Hin. now rewrite emit_emit.
Qed.

Lemma rmtree_run (p : Path) (fs' : dir) (w : World) :
  is_dir (w_fs w) p = true ->
  unlink p (w_fs w) = Some fs' ->
  rmtree p w = (Normal tt, set_fs fs' w).
Proof.
  unfold is_dir, rmtree. intros Hd Hu.
  destruct (stat (Dir (w_fs w)) p) as [[c|d]|]; try discriminate.
  now rewrite Hu.
Qed.

Lemma main_delete (args : delete_args) (w : World) :
  main py_int py_strip path_str env (Delete args) w
  = match cmd_delete py_int path_str env args w with
    | (Normal _, w') => (0%Z, w')
    | (Return, w') => (0%Z, w')
    | (Raise KeyboardInterrupt, w') =>
        (1%Z, log (PrintErr (Py.nl ++ "Operation cancelled.")) w')
    | (Raise (SystemExit msg), w') => (1%Z, log (PrintErr msg) w')
    | (Raise _, w') => (1%Z, log (PrintErr "Traceback (most recent call last):") w')
    end.
Proof. reflexivity. Qed.

Lemma main_activate (args : activate_args) (w : World) :
  main py_int py_strip path_str env (Activate args) w
  = match cmd_activate py_int path_str env args w with
    | (Normal _, w') => (0%Z, w')
    | (Return, w') => (0%Z, w')
    | (Raise KeyboardInterrupt, w') =>
        (1%Z, log (PrintErr (Py.nl ++ "Operation cancelled.")) w')
    | (Raise (SystemExit msg), w') => (1%Z, log (PrintErr msg) w')
    | (Raise _, w') => (1%Z, log (PrintErr "Traceback (most recent call last):") w')
    end.
Proof. reflexivity. Qed.

(** C2, as the code has it.  When [cmd_delete] has settled on one
    environment and the skip-confirmation flag is not set, it asks; the
    prompt is answered with a line.  The answer counts as a yes
    exactly when it is [y] or [Y].  Any other answer ends the command with
    exit status 0 and the registry as it was, the environment directory and
    its marker still there; a yes removes the environment directory with
    all below it and the command ends with exit status 0. *)
Theorem delete_confirmation (args : delete_args) (w w1 : World)
  (env_dir : Path) (answer : string) (rest : list stdin_event) :
  d_yes args = false ->
  locate py_int env (d_name args) (d_version args) "delete" w
  = (Normal env_dir, w1) ->
  w_stdin w1 = Line answer :: rest ->
  (affirmative answer = true <-> answer = "y" \/ answer = "Y")
  /\ (affirmative answer = false ->
      exists w',
        cmd_delete py_int path_str env args w = (Return, w')
        /\ w_fs w' = w_fs w
        /\ is_dir (w_fs w') env_dir = true
        /\ exists_ (w_fs w') (join env_dir marker) = true
        /\ fst (main py_int py_strip path_str env (Delete args) w) = 0%Z)
  /\ (affirmative answer = true ->
      exists w',
        cmd_delete py_int path_str env args w = (Normal tt, w')
        /\ unlink env_dir (w_fs w) = Some (w_fs w')
        /\ (forall p, exists_ (w_fs w') (env_dir ++ p)%list = false)
        /\ fst (main py_int py_strip path_str env (Delete args) w) = 0%Z).
Proof.
  intros Hyes Hloc Hin.
  destruct (locate_facts (d_name args) (d_version args) "delete" w)
    as (Hfs & _ & Hp).
  rewrite Hloc in Hfs, Hp. cbn [fst snd] in Hfs, Hp.
  destruct Hp as (v & -> & Hex).
  assert (Hd : is_dir (w_fs w) [v; d_name args] = true)
    by (unfold environmentExists in Hex; now apply andb_prop in Hex as [Hd _]).
  assert (Hm : exists_ (w_fs w) [v; d_name args; marker] = true)
    by (unfold environmentExists in Hex; now apply andb_prop in Hex as [_ Hm]).
  split; [apply lower_y|].
  assert (Hrun :
             cmd_delete py_int path_str env args w
             = ((if negb (affirmative answer) then return_ else ret tt) ;;;
                rmtree [v; d_name args] ;;; print "Done.")
                 (set_stdin rest
                    (emit [Print ("Delete " ++ path_str [v; d_name args] ++ "? [y/N] ");
                           Read] w1))).
  { unfold cmd_delete.
    rewrite (bind_normal _ _ _ _ _ Hloc). rewrite Hyes. cbn [negb].
    unfold bind at 1. unfold bind at 1.
    rewrite (input_prompt_line _ answer rest _ Hin). reflexivity. }
  split; intros Ha; rewrite main_delete, Hrun, Ha; cbn [negb].
  - eexists. split; [reflexivity|].
    cbn [fst snd w_fs set_stdin emit]. rewrite Hfs.
    repeat split; assumption.
  - destruct (unlink_env (w_fs w) v (d_name args) Hd)
      as (d & Hv & Hu & Hgone & _).
    rewrite (bind_normal _ _ _ _ _ (eq_refl : ret tt _ = (Normal tt, _))).
    erewrite bind_normal.
    2:{ apply rmtree_run; cbn [w_fs set_stdin emit set_fs]; rewrite Hfs;
        [exact Hd|exact Hu]. }
    rewrite print_run.
    eexists. split; [reflexivity|].
    cbn [fst snd w_fs set_stdin emit set_fs].
    repeat split; try assumption.
    intros p. unfold exists_. cbn [app]. now rewrite Hgone.
Qed.

(** C8.  When the name resolves to several matches, [cmd_delete] and
    [cmd_activate] end without a failure and without touching the registry
    in these cases: without a terminal, right after the menu and the
    guidance to give --version, with nothing read; with a terminal, when
    the answer is not a number or is a number outside the menu (the empty
    line is such an answer wherever [int] rejects it).  The exit status is
    0 each time. *)
Theorem ambiguous_selection_aborts (nm : string) (version : option string)
  (matches : list (string * Path)) (w : World) (yes shell interactive : bool) :
  resolve (w_fs w) nm version = MultipleMatches matches ->
  (stdin_isatty env = false ->
   exists m others,
     matches = m :: others
     /\ cmd_delete py_int path_str env (mkDelete nm version yes) w
        = (Return, emit (menu_events matches nm
                         ++ guidance_events nm "delete" (fst m))%list w)
     /\ cmd_activate py_int path_str env (mkActivate nm version shell interactive) w
        = (Return, emit (menu_events matches nm
                         ++ guidance_events nm "activate" (fst m))%list w)
     /\ fst (main py_int py_strip path_str env
               (Delete (mkDelete nm version yes)) w) = 0%Z
     /\ fst (main py_int py_strip path_str env
               (Activate (mkActivate nm version shell interactive)) w) = 0%Z)
  /\ (stdin_isatty env = true ->
      forall choice rest,
        w_stdin w = Line choice :: rest ->
        invalid_choice py_int (List.length matches) choice ->
        (exists w',
            cmd_delete py_int path_str env (mkDelete nm version yes) w = (Return, w')
            /\ w_fs w' = w_fs w)
        /\ (exists w',
               cmd_activate py_int path_str env
                 (mkActivate nm version shell interactive) w = (Return, w')
               /\ w_fs w' = w_fs w)
        /\ fst (main py_int py_strip path_str env
                  (Delete (mkDelete nm version yes)) w) = 0%Z
        /\ fst (main py_int py_strip path_str env
                  (Activate (mkActivate nm version shell interactive)) w) = 0%Z).
Proof.
  intros Hres.
  split.
  - intros Htty.
    destruct (locate_unattended nm version "delete" matches w Htty Hres)
      as (m & others & -> & Hlocd).
    destruct (locate_unattended nm version "activate" (m :: others) w Htty Hres)
      as (m' & others' & Heq & Hloca).
    injection Heq as <- <-.
    assert (Hd : cmd_delete py_int path_str env (mkDelete nm version yes) w
                 = (Return, emit (menu_events (m :: others) nm
                                  ++ guidance_events nm "delete" (fst m))%list w))
      by (unfold cmd_delete; cbn [d_name d_version];
          now rewrite (bind_return _ _ _ _ Hlocd)).
    assert (Ha : cmd_activate py_int path_str env
                   (mkActivate nm version shell interactive) w
                 = (Return, emit (menu_events (m :: others) nm
                                  ++ guidance_events nm "activate" (fst m))%list w))
      by (unfold cmd_activate; cbn [a_name a_version];
          now rewrite (bind_return _ _ _ _ Hloca)).
    exists m, others. rewrite main_delete, main_activate, Hd, Ha.
    repeat split.
  - intros Htty choice rest Hin Hinv.
    assert (Hloc : forall action_name,
               exists w', locate py_int env nm version action_name w = (Return, w')
                          /\ w_fs w' = w_fs w).
    { intros a. rewrite locate_resolve, Hres.
      destruct (select_environment_invalid matches nm a choice rest w Htty Hin Hinv)
        as (w' & Hsel & Hfs & _).
      exists w'. now rewrite (bind_normal _ _ _ _ _ Hsel). }
    destruct (Hloc "delete") as (wd & Hd & Hfd).
    destruct (Hloc "activate") as (wa & Ha & Hfa).
    assert (Hd' : cmd_delete py_int path_str env (mkDelete nm version yes) w
                  = (Return, wd))
      by (unfold cmd_delete; cbn [d_name d_version];
          now rewrite (bind_return _ _ _ _ Hd)).
    assert (Ha' : cmd_activate py_int path_str env
                    (mkActivate nm version shell interactive) w
                  = (Return, wa))
      by (unfold cmd_activate; cbn [a_name a_version];
          now rewrite (bind_return _ _ _ _ Ha)).
    rewrite main_delete, main_activate, Hd', Ha'.
    repeat split; eauto.
Qed.

Lemma silent_bind {A B : Type} (m : M A) (k : A -> M B) :
  silent m -> (forall a, silent (k a)) -> silent (bind m k).
Proof.
  intros Hm Hk w. unfold bind. specialize (Hm w).
  destruct (m w) as [[a| |e] w']; cbn [snd] in *; [|assumption|assumption].
  now rewrite Hk.
Qed.

Lemma bind_reads {A B : Type} (m : M A) (k : A -> M B) (w : World) :
  (forall a, silent (k a)) ->
  reads (w_trace (snd (bind m k w))) = reads (w_trace (snd (m w))).
Proof.
  intros Hk. unfold bind.
  destruct (m w) as [[a| |e] w']; cbn [snd]; [apply Hk|reflexivity|reflexivity].
Qed.

Lemma silent_print (text : string) : silent (print text).
Proof. intros w. rewrite print_run. solve_reads. Qed.

Lemma silent_ret {A : Type} (a : A) : silent (ret a).
Proof. intros w. reflexivity. Qed.

Lemma silent_return {A : Type} : silent (@return_ A).
Proof. intros w. reflexivity. Qed.

Lemma silent_rmtree (p : Path) : silent (rmtree p).
Proof.
  intros w. unfold rmtree.
  destruct (stat (Dir (w_fs w)) p) as [[c|d]|]; try reflexivity.
  destruct (unlink p (w_fs w)); reflexivity.
Qed.

Lemma silent_spawn (cmd : list string) : silent (spawn env cmd).
Proof.
  intros w. unfold spawn.
  destruct (subprocess_run env cmd (w_fs w)); cbn [snd set_fs w_trace]; solve_reads.
Qed.

Lemma input_prompt_reads (prompt : string) (w : World) :
  reads (w_trace (snd (input_prompt prompt w))) = S (reads (w_trace w)).
Proof.
  unfold input_prompt. rewrite (bind_normal _ _ _ _ _ (print_run _ _)).
  unfold input_. rewrite w_stdin_emit.
  destruct (w_stdin w) as [|[a|] rest]; solve_reads.
Qed.

(** C9, as the code has it.  Without a terminal on standard input the
    lookup with its menu never reads: on several matches it prints the
    guidance and ends the command.  So [cmd_activate] never reads and
    [cmd_delete] with the skip-confirmation flag never reads; the
    confirmation of [cmd_delete] is read all the same: without the flag,
    once an environment is settled on, exactly one [input()] call is
    made. *)
Theorem prompts_without_terminal :
  stdin_isatty env = false ->
  (forall nm version action_name, silent (locate py_int env nm version action_name))
  /\ (forall args, silent (cmd_activate py_int path_str env args))
  /\ (forall nm version action_name matches w,
        resolve (w_fs w) nm version = MultipleMatches matches ->
        exists m others,
          matches = m :: others
          /\ locate py_int env nm version action_name w
             = (Return, emit (menu_events matches nm
                              ++ guidance_events nm action_name (fst m))%list w))
  /\ (forall args, d_yes args = true -> silent (cmd_delete py_int path_str env args))
  /\ (forall args w,
        d_yes args = false ->
        reads (w_trace (snd (cmd_delete py_int path_str env args w)))
        = (reads (w_trace w)
           + match fst (locate py_int env (d_name args) (d_version args) "delete" w) with
             | Normal _ => 1
             | _ => 0
             end)%nat).
Proof.
  intros Htty.
  assert (Hloc : forall nm version action_name,
             silent (locate py_int env nm version action_name)).
  { intros nm version a w.
    destruct (locate_facts nm version a w) as (_ & H & _). auto. }
  split; [exact Hloc|]. split; [|split; [|split]].
  - intros args. unfold cmd_activate. apply silent_bind; [apply Hloc|].
    intros p. apply silent_bind; [apply silent_print|]. intros _.
    destruct (a_shell args); [apply silent_spawn|].
    destruct (stdout_isatty env && a_interactive args); [|apply silent_ret].
    apply silent_bind; [apply silent_print|]. intros _. apply silent_spawn.
  - intros nm version a matches w Hres.
    exact (locate_unattended nm version a matches w Htty Hres).
  - intros args Hyes. unfold cmd_delete. rewrite Hyes. cbn [negb].
    apply silent_bind; [apply Hloc|]. intros p.
    apply silent_bind; [apply silent_ret|]. intros _.
    apply silent_bind; [apply silent_rmtree|]. intros _. apply silent_print.
  - intros args w Hyes. unfold cmd_delete. rewrite Hyes. cbn [negb].
    specialize (Hloc (d_name args) (d_version args) "delete" w).
    unfold bind at 1.
    destruct (locate py_int env (d_name args) (d_version args) "delete" w)
      as [[p| |e] w1]; cbn [fst snd] in *; [|lia|lia].
    rewrite bind_reads.
    + rewrite bind_reads.
      * rewrite input_prompt_reads. lia.
      * intros a. destruct (negb _); [apply silent_return|apply silent_ret].
    + intros _. apply silent_bind; [apply silent_rmtree|].
      intros _. apply silent_print.
Qed.

Lemma cmd_create_version (args : create_args) (w : World) (v : string) :
  requested_version py_strip args w v ->
  cmd_create py_strip path_str env args w
  = match dict_get v (installed env) with
    | None => (Raise (SystemExit (msg_interpreter_not_found v)), w)
    | Some python_exe =>
        if exists_ (w_fs w) [v; c_name args] then
          (Raise (SystemExit (msg_already_exists (c_name args))), w)
        else
          (mkdir_parents [v] ;;;
           print ("Creating venv at " ++ path_str [v; c_name args] ++ " using "
                  ++ python_exe ++ " ...") ;;;
           upgrade <-
             try_except
               (r <- run py_strip env (probe_cmd python_exe) ;;
                ret (Py.contains "True" (snd r)))
               (fun e => if is_Exception e then Some (ret false) else None) ;;
           try_except
             (r <- run py_strip env (venv_cmd path_str python_exe upgrade [v; c_name args]) ;;
              if negb (fst r =? 0)%Z then
                rmtree_ignore_errors [v; c_name args] ;;;
                sys_exit (snd r)
              else print "Success!")
             (fun e =>
                if is_Exception e then
                  Some (rmtree_ignore_errors [v; c_name args] ;;;
                        sys_exit ("Error creating environment: " ++ exn_str e))
                else None)) w
    end.
Proof.
  intros Hv. unfold cmd_create.
  assert (Hver : (match c_version args with
                  | Some v0 => ret v0
                  | None =>
                      d <- get_default_version py_strip ;;
                      if truthy d then
                        match d with Some v0 => ret v0 | None => raise IndexError end
                      else
                        sys_exit "[!] No Python version specified and no default set. Use 'zap set-default <version>' or specify a version."
                  end) w = (Normal v, w)).
  { destruct Hv as [->|(-> & Hd & Hn)]; [reflexivity|].
    rewrite (bind_normal _ _ _ _ _ Hd). cbn [truthy]. now rewrite Hn. }
  rewrite (bind_normal _ _ _ _ _ Hver).
  destruct (dict_get v (installed env)) as [exe|]; [|reflexivity].
  rewrite (bind_normal _ _ _ _ _ (get_fs_run _)).
  change (join (join [] v) (c_name args)) with [v; c_name args].
  destruct (exists_ (w_fs w) [v; c_name args]); reflexivity.
Qed.

Lemma main_create (args : create_args) (w : World) :
  main py_int py_strip path_str env (Create args) w
  = match cmd_create py_strip path_str env args w with
    | (Normal _, w') => (0%Z, w')
    | (Return, w') => (0%Z, w')
    | (Raise KeyboardInterrupt, w') =>
        (1%Z, log (PrintErr (Py.nl ++ "Operation cancelled.")) w')
    | (Raise (SystemExit msg), w') => (1%Z, log (PrintErr msg) w')
    | (Raise _, w') => (1%Z, log (PrintErr "Traceback (most recent call last):") w')
    end.
Proof. reflexivity. Qed.

(** C5.  A create invocation whose version tag, given or taken from the
    per-user default, is not among the installed interpreters fails with
    the interpreter-not-found message and exit status 1, and the world
    after it is the world before it: no directory is created or changed. *)
Theorem create_unknown_version (args : create_args) (w : World) (v : string) :
  requested_version py_strip args w v ->
  dict_get v (installed env) = None ->
  cmd_create py_strip path_str env args w
  = (Raise (SystemExit (msg_interpreter_not_found v)), w)
  /\ main py_int py_strip path_str env (Create args) w
     = (1%Z, log (PrintErr (msg_interpreter_not_found v)) w)
  /\ w_fs (snd (cmd_create py_strip path_str env args w)) = w_fs w.
Proof.
  intros Hv Hnone.
  rewrite main_create, (cmd_create_version _ _ _ Hv), Hnone. repeat split.
Qed.

(** C6, as the code has it.  A create invocation whose version tag is among
    the installed interpreters and whose target [ROOT/tag/name] is a
    directory, with or without the marker, fails with the already-exists
    message and exit status 1, and the world after it is the world before
    it. *)
Theorem create_existing_target (args : create_args) (w : World)
  (v python_exe : string) :
  requested_version py_strip args w v ->
  dict_get v (installed env) = Some python_exe ->
  is_dir (w_fs w) [v; c_name args] = true ->
  cmd_create py_strip path_str env args w
  = (Raise (SystemExit (msg_already_exists (c_name args))), w)
  /\ main py_int py_strip path_str env (Create args) w
     = (1%Z, log (PrintErr (msg_already_exists (c_name args))) w)
  /\ w_fs (snd (cmd_create py_strip path_str env args w)) = w_fs w.
Proof.
  intros Hv Hexe Hd.
  rewrite main_create, (cmd_create_version _ _ _ Hv), Hexe.
  rewrite (is_dir_exists _ _ Hd). repeat split.
Qed.

Lemma mkdir_p_single (fs : dir) (v : string) :
  is_file fs [v] = false -> exists fs1, mkdir_p [v] fs = Some fs1.
Proof.
  unfold is_file. simpl.
  destruct (child v fs) as [[c|d]|]; try discriminate; eauto.
Qed.

Lemma rmtree_ignore_errors_gone (v nm : string) (w : World) :
  fst (rmtree_ignore_errors [v; nm] w) = Normal tt
  /\ is_dir (w_fs (snd (rmtree_ignore_errors [v; nm] w))) [v; nm] = false
  /\ w_trace (snd (rmtree_ignore_errors [v; nm] w)) = w_trace w.
Proof.
  unfold rmtree_ignore_errors.
  destruct (stat (Dir (w_fs w)) [v; nm]) as [[c|d]|] eqn:E.
  - unfold is_dir. cbn [fst snd]. now rewrite E.
  - assert (Hd : is_dir (w_fs w) [v; nm] = true) by (unfold is_dir; now rewrite E).
    destruct (unlink_env _ _ _ Hd) as (d' & _ & Hu & Hgone & _).
    rewrite Hu. cbn [fst snd set_fs w_fs w_trace]. repeat split.
    unfold is_dir. specialize (Hgone []). now rewrite Hgone.
  - unfold is_dir. cbn [fst snd]. now rewrite E.
Qed.

Lemma probe_returns (python_exe : string) (w : World) :
  exists upgrade w',
    try_except
      (r <- run py_strip env (probe_cmd python_exe) ;;
       ret (Py.contains "True" (snd r)))
      (fun e => if is_Exception e then Some (ret false) else None) w
    = (Normal upgrade, w').
Proof.
  unfold try_except, bind, run.
  destruct (subprocess_run env (probe_cmd python_exe) (w_fs w));
    cbn [is_Exception]; unfold ret; eauto.
Qed.

End CommandFacts.

Example ex_list_order :
  list_order Py.decimal_int
    [("3.10", Dir []); ("3.11-arm64", Dir []); ("3.9", Dir []); ("2.7", Dir [])]
  = ["2.7"; "3.9"; "3.10"; "3.11-arm64"].
Proof. reflexivity. Qed.

Example ex_listing :
  listing Py.decimal_int ex_fs = [("3.9", ["alpha"; "proj"]); ("3.10", ["proj"])].
Proof. reflexivity. Qed.

Example ex_answer_yes_word : affirmative "yes" = false.
Proof. reflexivity. Qed.

(** A default with a line feed in it is written as two lines, and read
    back as what the first of them holds. *)
Example ex_default_two_lines :
  w_zaprc (snd (set_default_version (ex_env false) ("3.9" ++ Py.nl ++ "3.11")
                  (ex_world [])))
  = Some ["default_version=3.9" ++ Py.nl; "3.11" ++ Py.nl]
  /\ fst (get_default_version Py.strip_ascii
            (snd (set_default_version (ex_env false) ("3.9" ++ Py.nl ++ "3.11")
                    (ex_world []))))
     = Normal (Some "3.9").
Proof. split; reflexivity. Qed.

Lemma ex_fs_proj (v : string) :
  environmentExists ex_fs v "proj" = true <-> v = "3.10" \/ v = "3.9".
Proof.
  split.
  - intros H.
    destruct (String.eqb_spec v "3.10") as [->|N1]; [now left|].
    destruct (String.eqb_spec v "3.9") as [->|N2]; [now right|].
    exfalso. revert H. unfold environmentExists, is_dir, exists_.
    cbn [stat child ex_fs].
    destruct (String.eqb_spec v "3.10"); [contradiction|].
    destruct (String.eqb_spec v "notes.txt"); [discriminate|].
    destruct (String.eqb_spec v "3.9"); [contradiction|].
    destruct (String.eqb_spec v "3.11") as [->|]; discriminate.
  - intros [->| ->]; reflexivity.
Defined.

Lemma resolve_two_versions_witness :
  resolve ex_fs "proj" None
  = MultipleMatches [("3.10", ["3.10"; "proj"]); ("3.9", ["3.9"; "proj"])]
  /\ resolve ex_fs "proj" (Some "3.10") = SingleMatch "3.10" ["3.10"; "proj"]
  /\ resolve ex_fs "proj" (Some "3.9") = SingleMatch "3.9" ["3.9"; "proj"].
Proof.
  destruct (resolve_two_versions ex_fs "proj" "3.10" "3.9")
    as (H1 & H2 & H3 & _).
  - reflexivity.
  - discriminate.
  - exact ex_fs_proj.
  - exists [], ["notes.txt"], ["3.11"]. reflexivity.
  - auto.
Defined.

Lemma list_order_version_aware_witness :
  list_order Py.decimal_int ex_fs = ["3.9"; "3.10"; "3.11"]
  /\ version_ltb Py.decimal_int "3.9" "3.10" = true
  /\ version_ltb Py.decimal_int "3.10" "3.11-arm64" = true
  /\ StronglySorted (fun a b => version_ltb Py.decimal_int b a = false)
       (list_order Py.decimal_int ex_fs)
  /\ cmd_list Py.decimal_int ex_path_str (ex_env false) (ex_world [])
     = (Normal tt,
        mkWorld ex_fs None []
          [Print (Py.nl ++ ">> Available Python interpreters:");
           Print "  3.11      -> /usr/bin/python3.11";
           Print "  3.9       -> /usr/bin/python3.9";
           Print (Py.nl ++ ">> Virtual environments in /home/u/venvs:");
           Print "  Python 3.9";
           Print "    * alpha";
           Print "    * proj";
           Print "  Python 3.10";
           Print "    * proj";
           Print EmptyString]).
Proof.
  destruct (list_order_version_aware Py.decimal_int ex_fs)
    as (Hlist & _ & _ & _ & Hs & _ & _ & H1 & H2 & _);
    [reflexivity|reflexivity|reflexivity|reflexivity|].
  split; [reflexivity|]. split; [exact H1|]. split; [exact H2|].
  split; [exact Hs|].
  rewrite (Hlist ex_path_str (ex_env false) (ex_world []) eq_refl).
  reflexivity.
Defined.

Lemma delete_confirmation_witness :
  (exists w',
      cmd_delete Py.decimal_int ex_path_str (ex_env true)
        (mkDelete "alpha" None false) (ex_world [Line "n"]) = (Return, w')
      /\ w_fs w' = ex_fs)
  /\ (exists w',
         cmd_delete Py.decimal_int ex_path_str (ex_env true)
           (mkDelete "alpha" None false) (ex_world [Line "Y"]) = (Normal tt, w')
         /\ exists_ (w_fs w') ["3.9"; "alpha"; marker] = false
         /\ exists_ (w_fs w') ["3.9"; "proj"; marker] = true).
Proof.
  split.
  - destruct (delete_confirmation Py.decimal_int Py.strip_ascii ex_path_str
                (ex_env true) (mkDelete "alpha" None false) (ex_world [Line "n"])
                (emit [Print "Using Python 3.9 environment."] (ex_world [Line "n"]))
                ["3.9"; "alpha"] "n" [])
      as (_ & Hno & _); [reflexivity|reflexivity|reflexivity|].
    destruct (Hno eq_refl) as (w' & Hrun & Hfs & _).
    exists w'. split; [exact Hrun|exact Hfs].
  - destruct (delete_confirmation Py.decimal_int Py.strip_ascii ex_path_str
                (ex_env true) (mkDelete "alpha" None false) (ex_world [Line "Y"])
                (emit [Print "Using Python 3.9 environment."] (ex_world [Line "Y"]))
                ["3.9"; "alpha"] "Y" [])
      as (_ & _ & Hyes); [reflexivity|reflexivity|reflexivity|].
    destruct (Hyes eq_refl) as (w' & Hrun & Hu & Hgone & _).
    exists w'. split; [exact Hrun|]. split; [exact (Hgone [marker])|].
    injection Hu as <-. reflexivity.
Defined.

(** C2 as stated fails for the answer it names: the word [yes] is not
    taken as a yes.  The command ends with exit status 0 and the
    environment, with its marker, is still there. *)
Lemma delete_confirmation_counterexample :
  cmd_delete Py.decimal_int ex_path_str (ex_env true)
    (mkDelete "alpha" None false) (ex_world [Line "yes"])
  = (Return,
     mkWorld ex_fs None []
       [Print "Using Python 3.9 environment.";
        Print "Delete /home/u/venvs/3.9/alpha? [y/N] ";
        Read])
  /\ environmentExists ex_fs "3.9" "alpha" = true
  /\ fst (main Py.decimal_int Py.strip_ascii ex_path_str (ex_env true)
            (Delete (mkDelete "alpha" None false)) (ex_world [Line "yes"]))
     = 0%Z
  /\ cmd_delete Py.decimal_int ex_path_str (ex_env true)
       (mkDelete "alpha" None false) (ex_world [Line "yes"])
     <> cmd_delete Py.decimal_int ex_path_str (ex_env true)
          (mkDelete "alpha" None false) (ex_world [Line "y"]).
Proof.
  split; [reflexivity|]. split; [reflexivity|]. split; [reflexivity|].
  discriminate.
Qed.

Lemma create_unknown_version_witness :
  cmd_create Py.strip_ascii ex_path_str (ex_env false)
    (mkCreate (Some "3.7") "gamma") (ex_world [])
  = (Raise (SystemExit "[!] Python 3.7 not found. Run `zap list` first."),
     ex_world [])
  /\ cmd_create Py.strip_ascii ex_path_str (ex_env false)
       (mkCreate None "gamma")
       (mkWorld ex_fs (Some ["# zap"; "default_version=3.8" ++ Py.nl]) [] [])
     = (Raise (SystemExit "[!] Python 3.8 not found. Run `zap list` first."),
        mkWorld ex_fs (Some ["# zap"; "default_version=3.8" ++ Py.nl]) [] []).
Proof.
  split.
  - apply (create_unknown_version Py.decimal_int Py.strip_ascii ex_path_str
             (ex_env false) (mkCreate (Some "3.7") "gamma") (ex_world []) "3.7").
    + left. reflexivity.
    + reflexivity.
  - apply (create_unknown_version Py.decimal_int Py.strip_ascii ex_path_str
             (ex_env false) (mkCreate None "gamma")
             (mkWorld ex_fs (Some ["# zap"; "default_version=3.8" ++ Py.nl]) [] [])
             "3.8").
    + right. repeat split; reflexivity.
    + reflexivity.
Defined.

Lemma create_existing_target_witness :
  cmd_create Py.strip_ascii ex_path_str (ex_env false)
    (mkCreate (Some "3.11") "proj") (ex_world [])
  = (Raise (SystemExit "[!] Environment proj already exists."), ex_world [])
  /\ environmentExists ex_fs "3.11" "proj" = false.
Proof.
  split; [|reflexivity].
  apply (create_existing_target Py.decimal_int Py.strip_ascii ex_path_str
           (ex_env false) (mkCreate (Some "3.11") "proj") (ex_world [])
           "3.11" "/usr/bin/python3.11").
  - left. reflexivity.
  - reflexivity.
  - reflexivity.
Defined.

(** C6 as stated fails: the target is an environment directory, yet the
    invocation fails because the interpreter is gone, not because the
    target exists. *)
Lemma create_existing_target_counterexample :
  is_dir ex_fs ["3.10"; "proj"] = true
  /\ cmd_create Py.strip_ascii ex_path_str (ex_env false)
       (mkCreate (Some "3.10") "proj") (ex_world [])
     = (Raise (SystemExit "[!] Python 3.10 not found. Run `zap list` first."),
        ex_world [])
  /\ cmd_create Py.strip_ascii ex_path_str (ex_env false)
       (mkCreate (Some "3.10") "proj") (ex_world [])
     <> (Raise (SystemExit "[!] Environment proj already exists."), ex_world []).
Proof.
  split; [reflexivity|]. split; [reflexivity|]. discriminate.
Qed.

Lemma ambiguous_selection_aborts_witness :
  (exists w',
      cmd_delete Py.decimal_int ex_path_str (ex_env false)
        (mkDelete "proj" None true) (ex_world []) = (Return, w')
      /\ w_fs w' = ex_fs
      /\ In (Print "  zap delete proj --version 3.10") (w_trace w'))
  /\ (exists w',
         cmd_delete Py.decimal_int ex_path_str (ex_env true)
           (mkDelete "proj" None true) (ex_world [Line EmptyString]) = (Return, w')
         /\ w_fs w' = ex_fs)
  /\ (exists w',
         cmd_activate Py.decimal_int ex_path_str (ex_env true)
           (mkActivate "proj" None true false) (ex_world [Line "7"]) = (Return, w')
         /\ w_fs w' = ex_fs).
Proof.
  split; [|split].
  - destruct (ambiguous_selection_aborts Py.decimal_int Py.strip_ascii ex_path_str
                (ex_env false) "proj" None
                [("3.10", ["3.10"; "proj"]); ("3.9", ["3.9"; "proj"])]
                (ex_world []) true true false eq_refl) as (H & _).
    destruct (H eq_refl) as (m & others & Hm & Hd & _).
    injection Hm as <- <-.
    eexists. split; [exact Hd|]. split; [reflexivity|].
    cbn. auto 10.
  - destruct (ambiguous_selection_aborts Py.decimal_int Py.strip_ascii ex_path_str
                (ex_env true) "proj" None
                [("3.10", ["3.10"; "proj"]); ("3.9", ["3.9"; "proj"])]
                (ex_world [Line EmptyString]) true true false eq_refl) as (_ & H).
    destruct (H eq_refl EmptyString [] eq_refl I) as (Hd & _).
    exact Hd.
  - destruct (ambiguous_selection_aborts Py.decimal_int Py.strip_ascii ex_path_str
                (ex_env true) "proj" None
                [("3.10", ["3.10"; "proj"]); ("3.9", ["3.9"; "proj"])]
                (ex_world [Line "7"]) true true false eq_refl) as (_ & H).
    assert (Hinv : invalid_choice Py.decimal_int 2 "7")
      by (change (~ (1 <= 7 <= 2)%Z); lia).
    destruct (H eq_refl "7" [] eq_refl Hinv) as (_ & Ha & _).
    exact Ha.
Defined.

Lemma prompts_without_terminal_witness :
  reads (w_trace (snd (cmd_delete Py.decimal_int ex_path_str (ex_env false)
                         (mkDelete "proj" None false) (ex_world [Line "y"]))))
  = 0%nat
  /\ reads (w_trace (snd (cmd_delete Py.decimal_int ex_path_str (ex_env false)
                            (mkDelete "alpha" None false) (ex_world [Line "n"]))))
     = 1%nat.
Proof.
  destruct (prompts_without_terminal Py.decimal_int ex_path_str (ex_env false)
              eq_refl) as (_ & _ & _ & _ & H).
  split.
  - exact (H (mkDelete "proj" None false) (ex_world [Line "y"]) eq_refl).
  - exact (H (mkDelete "alpha" None false) (ex_world [Line "n"]) eq_refl).
Defined.

(** C9 as stated fails for the confirmation: standard input is not a
    terminal, the skip-confirmation flag is not set, and [cmd_delete] calls
    [input()], takes the piped answer and removes the environment instead
    of ending with guidance. *)
Lemma prompts_without_terminal_counterexample :
  stdin_isatty (ex_env false) = false
  /\ cmd_delete Py.decimal_int ex_path_str (ex_env false)
       (mkDelete "alpha" None false) (ex_world [Line "y"])
     = (Normal tt,
        mkWorld [("3.10", Dir [("proj", ex_venv)]);
                 ("notes.txt", File "todo");
                 ("3.9", Dir [("proj", ex_venv)]);
                 ("3.11", Dir [("proj", Dir [("bin", Dir [])])])]
          None []
          [Print "Using Python 3.9 environment.";
           Print "Delete /home/u/venvs/3.9/alpha? [y/N] ";
           Read;
           Print "Done."])
  /\ reads (w_trace (snd (cmd_delete Py.decimal_int ex_path_str (ex_env false)
                            (mkDelete "alpha" None false) (ex_world [Line "y"]))))
     <> reads (w_trace (ex_world [Line "y"])).
Proof.
  split; [reflexivity|]. split; [reflexivity|]. discriminate.
Qed.

(** ** More of the commands: defaults and creation *)

Section CreateFacts.

Variable py_int : string -> option Z.
Variable py_strip : string -> string.
Variable path_str : Path -> string.
Variable env : Env.









(** X3.  Creating without a version tag fails with the no-version message
    and exit status 1, the world unchanged and whatever is installed, when
    the per-user file is missing, or has no line that starts with
    [default_version=], or gives the empty default. *)
Theorem create_without_version (nm : string) (w : World) :
  (w_zaprc w = None
   \/ (exists lines, w_zaprc w = Some lines
                     /\ find (Py.startswith "default_version=") lines = None)
   \/ get_default_version py_strip w = (Normal (Some EmptyString), w)) ->
  cmd_create py_strip path_str env (mkCreate None nm) w
  = (Raise (SystemExit msg_no_version), w)
  /\ main py_int py_strip path_str env (Create (mkCreate None nm)) w
     = (1%Z, log (PrintErr msg_no_version) w).
Proof.
  intros H.
  assert (Hd : exists d, get_default_version py_strip w = (Normal d, w)
                         /\ truthy d = false).
  { destruct H as [H|[(lines & H1 & H2)|H]].
    - exists None. unfold get_default_version. now rewrite H.
    - exists None. unfold get_default_version. now rewrite H1, H2.
    - exists (Some EmptyString). auto. }
  destruct Hd as (d & Hd & Ht).
  assert (Hc : cmd_create py_strip path_str env (mkCreate None nm) w
               = (Raise (SystemExit msg_no_version), w)).
  { unfold cmd_create. cbn [c_version].
    erewrite bind_raise; [reflexivity|].
    rewrite (bind_normal _ _ _ _ _ Hd). now rewrite Ht. }
  split; [exact Hc|]. now rewrite main_create, Hc.
Qed.

(** The world [cmd_create] delegates the creation in: the version
    directory made, the announcement printed, the probe run. *)
Lemma cmd_create_delegates (args : create_args) (w : World)
  (v python_exe : string) (fs1 fs2 : dir) (upgrade : bool) :
  requested_version py_strip args w v ->
  dict_get v (installed env) = Some python_exe ->
  exists_ (w_fs w) [v; c_name args] = false ->
  mkdir_p [v] (w_fs w) = Some fs1 ->
  probe_upgrade py_strip env python_exe fs1 = (upgrade, fs2) ->
  cmd_create py_strip path_str env args w
  = try_except
      (r <- run py_strip env (venv_cmd path_str python_exe upgrade [v; c_name args]) ;;
       if negb (fst r =? 0)%Z then
         rmtree_ignore_errors [v; c_name args] ;;;
         sys_exit (snd r)
       else print "Success!")
      (fun e =>
         if is_Exception e then
           Some (rmtree_ignore_errors [v; c_name args] ;;;
                 sys_exit ("Error creating environment: " ++ exn_str e))
         else None)
      (mkWorld fs2 (w_zaprc w) (w_stdin w)
         (w_trace w
          ++ [Print ("Creating venv at " ++ path_str [v; c_name args]
                     ++ " using " ++ python_exe ++ " ...");
              Subprocess (probe_cmd python_exe)])%list).
Proof.
  intros Hv Hexe Hnew Hmk Hprobe.
  rewrite (cmd_create_version _ _ _ _ _ _ Hv), Hexe, Hnew.
  assert (Hmkdir : mkdir_parents [v] w = (Normal tt, set_fs fs1 w))
    by (unfold mkdir_parents; now rewrite Hmk).
  rewrite (bind_normal _ _ _ _ _ Hmkdir).
  rewrite (bind_normal _ _ _ _ _ (print_run _ _)).
  erewrite bind_normal; [reflexivity|].
  unfold probe_upgrade in Hprobe.
  unfold try_except, bind, run. cbn [w_fs emit set_fs].
  destruct (subprocess_run env (probe_cmd python_exe) fs1) as [rc out fs'|e fs'];
    injection Hprobe as <- <-; cbn [is_Exception]; unfold ret, log, emit, set_fs;
    cbn [w_fs w_zaprc w_stdin w_trace fst snd]; now rewrite <- app_assoc.
Qed.

(** [shutil.rmtree(ROOT/v/nm, ignore_errors=True)] returns, whatever is at
    the target: a directory there is removed with all below it, anything
    else is left. *)
Lemma rmtree_ignore_errors_run (v nm : string) (w : World) :
  exists fs4,
    rmtree_ignore_errors [v; nm] w = (Normal tt, set_fs fs4 w)
    /\ is_dir fs4 [v; nm] = false
    /\ (is_dir (w_fs w) [v; nm] = true -> unlink [v; nm] (w_fs w) = Some fs4)
    /\ (is_dir (w_fs w) [v; nm] = false -> fs4 = w_fs w).
Proof.
  destruct (is_dir (w_fs w) [v; nm]) eqn:Hd.
  - destruct (unlink_env _ _ _ Hd) as (d & _ & Hu & Hgone & _).
    exists (put v (Dir (remove nm d)) (w_fs w)).
    unfold rmtree_ignore_errors. unfold is_dir in Hd.
    destruct (stat (Dir (w_fs w)) [v; nm]) as [[c|d']|]; try discriminate.
    rewrite Hu. split; [reflexivity|]. split; [|split; [auto|discriminate]].
    unfold is_dir. now rewrite (Hgone []).
  - exists (w_fs w). split; [|split; [exact Hd|split; [discriminate|reflexivity]]].
    unfold rmtree_ignore_errors. unfold is_dir in Hd.
    destruct w as [fs z i t]. unfold set_fs. cbn [w_fs w_zaprc w_stdin w_trace] in *.
    destruct (stat (Dir fs) [v; nm]) as [[c|d']|]; try discriminate; reflexivity.
Qed.

(** C7.  A create invocation, for a version tag and a name that are names
    of directory entries, that gets as far as the delegated creation (the
    interpreter is installed, the target does not exist, the version
    directory is made, the probe has run) and whose [python -m venv] run
    returns a non-zero status: the command removes the directory the
    creation left at the target, with all below it, and then fails with
    the output of the creation as its message and exit status 1.
    Afterwards the target is not a directory and nothing lies below it. *)
Theorem create_failure_cleans_up (args : create_args) (w : World)
  (v python_exe out : string) (rc : Z) (fs1 fs2 fs3 : dir) (upgrade : bool) :
  entry_name v = true ->
  entry_name (c_name args) = true ->
  requested_version py_strip args w v ->
  dict_get v (installed env) = Some python_exe ->
  exists_ (w_fs w) [v; c_name args] = false ->
  mkdir_p [v] (w_fs w) = Some fs1 ->
  probe_upgrade py_strip env python_exe fs1 = (upgrade, fs2) ->
  subprocess_run env (venv_cmd path_str python_exe upgrade [v; c_name args]) fs2
  = Completed rc out fs3 ->
  rc <> 0%Z ->
  exists fs4,
    cmd_create py_strip path_str env args w
    = (Raise (SystemExit (py_strip out)),
       mkWorld fs4 (w_zaprc w) (w_stdin w)
         (w_trace w
          ++ [Print ("Creating venv at " ++ path_str [v; c_name args]
                     ++ " using " ++ python_exe ++ " ...");
              Subprocess (probe_cmd python_exe);
              Subprocess (venv_cmd path_str python_exe upgrade [v; c_name args])])%list)
    /\ is_dir fs4 [v; c_name args] = false
    /\ (forall n, exists_ fs4 [v; c_name args; n] = false)
    /\ (is_dir fs3 [v; c_name args] = true ->
        unlink [v; c_name args] fs3 = Some fs4)
    /\ (is_dir fs3 [v; c_name args] = false -> fs4 = fs3)
    /\ fst (main py_int py_strip path_str env (Create args) w) = 1%Z.
Proof.
  intros _ _ Hv Hexe Hnew Hmk Hprobe Hrun Hrc.
  pose proof (cmd_create_delegates _ _ _ _ _ _ _ Hv Hexe Hnew Hmk Hprobe) as Hc.
  set (w3 := mkWorld fs2 (w_zaprc w) (w_stdin w)
               (w_trace w
                ++ [Print ("Creating venv at " ++ path_str [v; c_name args]
                           ++ " using " ++ python_exe ++ " ...");
                    Subprocess (probe_cmd python_exe)])%list) in Hc.
  set (w4 := set_fs fs3 (log (Subprocess (venv_cmd path_str python_exe upgrade
                                            [v; c_name args])) w3)).
  assert (Hvenv : run py_strip env
                    (venv_cmd path_str python_exe upgrade [v; c_name args]) w3
                  = (Normal (rc, py_strip out), w4))
    by (unfold run; cbn [w_fs w3]; now rewrite Hrun).
  destruct (rmtree_ignore_errors_run v (c_name args) w4)
    as (fs4 & Hrm & Hgone & Hdir & Hkeep).
  cbn [w_fs w4 set_fs] in Hdir, Hkeep.
  unfold try_except in Hc.
  rewrite (bind_normal _ _ _ _ _ Hvenv) in Hc. cbn [fst snd] in Hc.
  replace (negb (rc =? 0)%Z) with true in Hc
    by (symmetry; apply negb_true_iff; now apply Z.eqb_neq).
  rewrite (bind_normal _ _ _ _ _ Hrm) in Hc.
  cbn [sys_exit raise is_Exception] in Hc.
  assert (Hw : set_fs fs4 w4
               = mkWorld fs4 (w_zaprc w) (w_stdin w)
                   (w_trace w
                    ++ [Print ("Creating venv at " ++ path_str [v; c_name args]
                               ++ " using " ++ python_exe ++ " ...");
                        Subprocess (probe_cmd python_exe);
                        Subprocess (venv_cmd path_str python_exe upgrade
                                      [v; c_name args])])%list).
  { unfold w4, w3, set_fs, log, emit. cbn [w_fs w_zaprc w_stdin w_trace].
    now rewrite <- app_assoc. }
  rewrite Hw in Hc.
  exists fs4. rewrite main_create, Hc.
  repeat split; auto.
  intros n. destruct (exists_ fs4 [v; c_name args; n]) eqn:E; [|reflexivity].
  apply (exists_join_is_dir fs4 [v; c_name args] n) in E. congruence.
Qed.

(** X4.  A creation, for a version tag and a name that are names of
    directory entries, that returns status 0: [cmd_create] announces it, runs
    the probe and then [python -m venv], with [--upgrade-deps] exactly when
    the probe printed True, reports success and returns with exit status
    0.  The file system afterwards is the one the creation left: nothing is
    removed. *)
Theorem create_success (args : create_args) (w : World)
  (v python_exe out : string) (fs1 fs2 fs3 : dir) (upgrade : bool) :
  entry_name v = true ->
  entry_name (c_name args) = true ->
  requested_version py_strip args w v ->
  dict_get v (installed env) = Some python_exe ->
  exists_ (w_fs w) [v; c_name args] = false ->
  mkdir_p [v] (w_fs w) = Some fs1 ->
  probe_upgrade py_strip env python_exe fs1 = (upgrade, fs2) ->
  subprocess_run env (venv_cmd path_str python_exe upgrade [v; c_name args]) fs2
  = Completed 0 out fs3 ->
  cmd_create py_strip path_str env args w
  = (Normal tt,
     mkWorld fs3 (w_zaprc w) (w_stdin w)
       (w_trace w
        ++ [Print ("Creating venv at " ++ path_str [v; c_name args]
                   ++ " using " ++ python_exe ++ " ...");
            Subprocess (probe_cmd python_exe);
            Subprocess (venv_cmd path_str python_exe upgrade [v; c_name args]);
            Print "Success!"])%list)
  /\ fst (main py_int py_strip path_str env (Create args) w) = 0%Z.
Proof.
  intros _ _ Hv Hexe Hnew Hmk Hprobe Hrun.
  assert (Hc : cmd_create py_strip path_str env args w
               = (Normal tt,
                  mkWorld fs3 (w_zaprc w) (w_stdin w)
                    (w_trace w
                     ++ [Print ("Creating venv at " ++ path_str [v; c_name args]
                                ++ " using " ++ python_exe ++ " ...");
                         Subprocess (probe_cmd python_exe);
                         Subprocess (venv_cmd path_str python_exe upgrade
                                       [v; c_name args]);
                         Print "Success!"])%list)).
  { rewrite (cmd_create_delegates _ _ _ _ _ _ _ Hv Hexe Hnew Hmk Hprobe).
    unfold try_except, bind, run. cbn [w_fs]. rewrite Hrun.
    cbn [fst snd Z.eqb negb]. unfold print, log, emit, set_fs.
    cbn [w_fs w_zaprc w_stdin w_trace].
    now rewrite <- !app_assoc. }
  split; [exact Hc|]. now rewrite main_create, Hc.
Qed.

(** X5.  A creation, for a version tag and a name that are names of
    directory entries, that cannot be run at all (the interpreter file is
    gone, say): [cmd_create] removes what is at the target as after a
    non-zero status and fails with exit status 1 and the message
    [Error creating environment:] followed by the exception's text. *)
Theorem create_exception_cleans_up (args : create_args) (w : World)
  (v python_exe e : string) (fs1 fs2 fs3 : dir) (upgrade : bool) :
  entry_name v = true ->
  entry_name (c_name args) = true ->
  requested_version py_strip args w v ->
  dict_get v (installed env) = Some python_exe ->
  exists_ (w_fs w) [v; c_name args] = false ->
  mkdir_p [v] (w_fs w) = Some fs1 ->
  probe_upgrade py_strip env python_exe fs1 = (upgrade, fs2) ->
  subprocess_run env (venv_cmd path_str python_exe upgrade [v; c_name args]) fs2
  = Failed e fs3 ->
  exists w',
    cmd_create py_strip path_str env args w
    = (Raise (SystemExit ("Error creating environment: " ++ e)), w')
    /\ is_dir (w_fs w') [v; c_name args] = false
    /\ (is_dir fs3 [v; c_name args] = false -> w_fs w' = fs3)
    /\ fst (main py_int py_strip path_str env (Create args) w) = 1%Z.
Proof.
  intros _ _ Hv Hexe Hnew Hmk Hprobe Hrun.
  pose proof (cmd_create_delegates _ _ _ _ _ _ _ Hv Hexe Hnew Hmk Hprobe) as Hc.
  set (w3 := mkWorld fs2 (w_zaprc w) (w_stdin w)
               (w_trace w
                ++ [Print ("Creating venv at " ++ path_str [v; c_name args]
                           ++ " using " ++ python_exe ++ " ...");
                    Subprocess (probe_cmd python_exe)])%list) in Hc.
  set (w4 := set_fs fs3 (log (Subprocess (venv_cmd path_str python_exe upgrade
                                            [v; c_name args])) w3)).
  assert (Hvenv : run py_strip env
                    (venv_cmd path_str python_exe upgrade [v; c_name args]) w3
                  = (Raise (OtherException e), w4))
    by (unfold run; cbn [w_fs w3]; now rewrite Hrun).
  destruct (rmtree_ignore_errors_gone v (c_name args) w4) as (Hn & Hgone & _).
  assert (Hkeep : is_dir fs3 [v; c_name args] = false ->
                  w_fs (snd (rmtree_ignore_errors [v; c_name args] w4)) = fs3).
  { intros Hd. unfold rmtree_ignore_errors, is_dir in *. cbn [w_fs w4 set_fs] in *.
    destruct (stat (Dir fs3) [v; c_name args]) as [[c|d]|];
      try discriminate; reflexivity. }
  destruct (rmtree_ignore_errors [v; c_name args] w4) as [o w5] eqn:Hrm.
  cbn [fst snd] in Hn, Hgone, Hkeep. subst o.
  unfold try_except in Hc.
  rewrite (bind_raise _ _ _ _ _ Hvenv) in Hc.
  cbn [is_Exception exn_str] in Hc.
  rewrite (bind_normal _ _ _ _ _ Hrm) in Hc.
  cbn [sys_exit raise] in Hc.
  exists w5. rewrite main_create, Hc. repeat split; auto.
Qed.

(** X6.  When [ROOT/tag] is a plain file, [cmd_create] for an installed
    tag and a name that are names of directory entries stops at making the version directory with a FileExistsError that
    nothing catches: exit status 1, no process started, the world
    unchanged. *)
Theorem create_under_a_file (args : create_args) (w : World)
  (v python_exe : string) :
  entry_name v = true ->
  entry_name (c_name args) = true ->
  requested_version py_strip args w v ->
  dict_get v (installed env) = Some python_exe ->
  is_file (w_fs w) [v] = true ->
  cmd_create py_strip path_str env args w = (Raise FileExistsError, w)
  /\ fst (main py_int py_strip path_str env (Create args) w) = 1%Z.
Proof.
  intros _ _ Hv Hexe Hfile.
  assert (Hc : cmd_create py_strip path_str env args w = (Raise FileExistsError, w)).
  { rewrite (cmd_create_version _ _ _ _ _ _ Hv), Hexe.
    unfold is_file in Hfile. cbn [stat] in Hfile.
    destruct (child v (w_fs w)) as [[c|d]|] eqn:Ev; try discriminate.
    assert (Hnew : exists_ (w_fs w) [v; c_name args] = false)
      by (unfold exists_; cbn [stat]; now rewrite Ev).
    rewrite Hnew.
    erewrite bind_raise; [reflexivity|].
    unfold mkdir_parents. cbn [mkdir_p]. now rewrite Ev. }
  split; [exact Hc|]. now rewrite main_create, Hc.
Qed.

End CreateFacts.

(** ** More of the commands: lookup, deletion and activation *)

Lemma unlink_env_frame (fs fs' : dir) (v nm : string) :
  is_dir fs [v; nm] = true ->
  unlink [v; nm] fs = Some fs' ->
  environmentExists fs' v nm = false
  /\ (forall v' n', v' <> v \/ n' <> nm ->
        environmentExists fs' v' n' = environmentExists fs v' n').
Proof.
  intros Hd Hu.
  destruct (unlink_env fs v nm Hd) as (d & _ & Hu' & Hgone & Hsib & Hoth).
  rewrite Hu in Hu'. injection Hu' as ->.
  split.
  - unfold environmentExists, is_dir. now rewrite (Hgone []).
  - intros v' n' Hne. unfold environmentExists, is_dir, exists_.
    destruct (String.eqb_spec v' v) as [->|Hv].
    + destruct Hne as [Hne|Hne]; [congruence|].
      now rewrite (Hsib n' [] Hne), (Hsib n' [marker] Hne).
    + now rewrite (Hoth v' [n'] Hv), (Hoth v' [n'; marker] Hv).
Qed.

Lemma reported_exists (py_int : string -> option Z) (fs : dir) (v nm : string) :
  reported (listing py_int fs) v nm -> environmentExists fs v nm = true.
Proof.
  intros (names & Hin & Hnm).
  unfold listing in Hin. apply in_flat_map in Hin as (ver & _ & Hin).
  unfold section_of in Hin. rewrite envs_by_version_get in Hin.
  destruct (is_dir fs [ver]); [|contradiction].
  destruct (env_list fs ver) as [|e l] eqn:El; [contradiction|].
  destruct Hin as [Hin|[]]. injection Hin as -> <-.
  apply in_map_iff in Hnm as (p & <- & Hp).
  apply sorted_In in Hp. rewrite <- El in Hp.
  apply env_list_In in Hp as (n & -> & Hn). exact Hn.
Qed.

Lemma find_envs_by_name_exists (fs : dir) (nm v : string) (p : Path) :
  In (v, p) (find_envs_by_name fs nm true) ->
  p = [v; nm] /\ environmentExists fs v nm = true.
Proof.
  rewrite find_envs_by_name_all. intros H.
  apply in_map_iff in H as (x & Hx & Hf). unfold hit in Hx.
  apply filter_In in Hf as [_ Hf]. injection Hx as -> <-. auto.
Qed.

Section LookupFacts.

Variable py_int : string -> option Z.
Variable py_strip : string -> string.
Variable path_str : Path -> string.
Variable env : Env.

Lemma locate_single (nm : string) (version : option string)
  (action_name v : string) (p : Path) (w : World) :
  resolve (w_fs w) nm version = SingleMatch v p ->
  locate py_int env nm version action_name w
  = (Normal p, emit (using_events version v) w).
Proof.
  intros Hres. rewrite locate_resolve, Hres. unfold using_events.
  destruct (truthy version); [now rewrite emit_nil|reflexivity].
Qed.


(** What [cmd_delete] does once the lookup has given a directory and the
    confirmation, if any, is passed. *)
Lemma delete_tail (v nm : string) (w : World) :
  is_dir (w_fs w) [v; nm] = true ->
  exists fs',
    unlink [v; nm] (w_fs w) = Some fs'
    /\ (rmtree [v; nm] ;;; print "Done.") w
       = (Normal tt, emit [Print "Done."] (set_fs fs' w)).
Proof.
  intros Hd. destruct (unlink_env _ _ _ Hd) as (d & _ & Hu & _).
  eexists. split; [exact Hu|].
  now rewrite (bind_normal _ _ _ _ _ (rmtree_run _ _ _ Hd Hu)).
Qed.

Lemma cmd_delete_normal (args : delete_args) (w w' : World) :
  cmd_delete py_int path_str env args w = (Normal tt, w') ->
  exists v,
    environmentExists (w_fs w) v (d_name args) = true
    /\ unlink [v; d_name args] (w_fs w) = Some (w_fs w').
Proof.
  unfold cmd_delete. intros H.
  destruct (locate_facts py_int env (d_name args) (d_version args) "delete" w)
    as (Hfs & _ & Hp).
  destruct (locate py_int env (d_name args) (d_version args) "delete" w)
    as [[p| |e] w1] eqn:Hloc; cbn [fst snd] in *;
    [|rewrite (bind_return _ _ _ _ Hloc) in H; discriminate
     |rewrite (bind_raise _ _ _ _ _ Hloc) in H; discriminate].
  rewrite (bind_normal _ _ _ _ _ Hloc) in H.
  destruct Hp as (v & -> & Hex). exists v. split; [exact Hex|].
  assert (Hd : is_dir (w_fs w) [v; d_name args] = true)
    by (unfold environmentExists in Hex; now apply andb_prop in Hex as [Hd _]).
  assert (Htail : forall w2, w_fs w2 = w_fs w ->
            (rmtree [v; d_name args] ;;; print "Done.") w2 = (Normal tt, w') ->
            unlink [v; d_name args] (w_fs w) = Some (w_fs w')).
  { intros w2 Hw2 Hrun.
    destruct (delete_tail v (d_name args) w2) as (fs' & Hu & Ht);
      [now rewrite Hw2|].
    rewrite Ht in Hrun. injection Hrun as <-. now rewrite <- Hw2. }
  destruct (d_yes args); cbn [negb] in H.
  - rewrite (bind_normal _ _ _ _ _ (eq_refl : ret tt w1 = (Normal tt, w1))) in H.
    exact (Htail w1 Hfs H).
  - unfold bind at 1 in H. unfold bind at 1 in H.
    destruct (w_stdin w1) as [|[answer|] rest] eqn:Hin.
    + unfold input_prompt in H.
      rewrite (bind_normal _ _ _ _ _ (print_run _ _)) in H.
      erewrite input_eof in H by exact Hin. discriminate.
    + rewrite (input_prompt_line _ answer rest _ Hin) in H.
      destruct (negb (Py.lower answer =? "y")); [discriminate|].
      cbn [ret] in H. eapply Htail; [|exact H]. exact Hfs.
    + unfold input_prompt in H.
      rewrite (bind_normal _ _ _ _ _ (print_run _ _)) in H.
      erewrite input_ctrlc in H by exact Hin. discriminate.
Qed.

Lemma put_keys (n : string) (c c0 : node) (d : dir) :
  child n d = Some c0 -> map fst (put n c d) = map fst d.
Proof.
  induction d as [|[k c'] d IH]; cbn [child put map fst]; [discriminate|].
  destruct (String.eqb n k); [reflexivity|].
  intros H. cbn [map fst]. now rewrite (IH H).
Qed.

(** X7.  Whenever [cmd_delete], given a name and a version tag that are
    names of directory entries, completes a deletion, it removed one
    environment of the given name that existed, under some version tag:
    [ROOT/tag/name] with all below it.  Everything else is exactly as it
    was: every other entry of that version directory and every other entry
    of the root lead to the same tree as before, and the root has the same
    entries in the same order.  So the same name under the other version
    tags and the other names under the same tag are the environments they
    were, and neither the scan by name nor the listing shows the removed
    one. *)
Theorem delete_removes_only_target (args : delete_args) (w w' : World) :
  entry_name (d_name args) = true ->
  entry_tag (d_version args) = true ->
  cmd_delete py_int path_str env args w = (Normal tt, w') ->
  exists v,
    environmentExists (w_fs w) v (d_name args) = true
    /\ unlink [v; d_name args] (w_fs w) = Some (w_fs w')
    /\ (forall p, stat (Dir (w_fs w')) (v :: d_name args :: p) = None)
    /\ (forall n p, n <> d_name args ->
          stat (Dir (w_fs w')) (v :: n :: p) = stat (Dir (w_fs w)) (v :: n :: p))
    /\ (forall k p, k <> v ->
          stat (Dir (w_fs w')) (k :: p) = stat (Dir (w_fs w)) (k :: p))
    /\ map fst (w_fs w') = map fst (w_fs w)
    /\ environmentExists (w_fs w') v (d_name args) = false
    /\ (forall v' n', v' <> v \/ n' <> d_name args ->
          environmentExists (w_fs w') v' n' = environmentExists (w_fs w) v' n')
    /\ (forall p, ~ In (v, p) (find_envs_by_name (w_fs w') (d_name args) true))
    /\ ~ reported (listing py_int (w_fs w')) v (d_name args).
Proof.
  intros _ _ H. destruct (cmd_delete_normal _ _ _ H) as (v & Hex & Hu).
  assert (Hd : is_dir (w_fs w) [v; d_name args] = true)
    by (unfold environmentExists in Hex; now apply andb_prop in Hex as [Hd _]).
  destruct (unlink_env_frame _ _ _ _ Hd Hu) as (Hgone & Hframe).
  destruct (unlink_env _ _ _ Hd) as (d & Hchild & Hu' & Hnone & Hsib & Hoth).
  rewrite Hu in Hu'. injection Hu' as Hfs.
  exists v.
  split; [exact Hex|]. split; [exact Hu|].
  split; [now rewrite Hfs|]. split; [now rewrite Hfs|]. split; [now rewrite Hfs|].
  split; [rewrite Hfs; exact (put_keys _ _ _ _ Hchild)|].
  split; [exact Hgone|]. split; [exact Hframe|]. split.
  - intros p Hin. apply find_envs_by_name_exists in Hin as [_ Hin]. congruence.
  - intros Hr. apply reported_exists in Hr. congruence.
Qed.

(** X8.  With the skip-confirmation flag and a lookup that gives a single
    match, [cmd_delete] removes that environment without asking: standard
    input is left as it was, nothing is read, the exit status is 0. *)
Theorem delete_yes_asks_nothing (nm : string) (version : option string)
  (v : string) (p : Path) (w : World) :
  resolve (w_fs w) nm version = SingleMatch v p ->
  exists fs',
    unlink p (w_fs w) = Some fs'
    /\ cmd_delete py_int path_str env (mkDelete nm version true) w
       = (Normal tt,
          mkWorld fs' (w_zaprc w) (w_stdin w)
            (w_trace w ++ using_events version v ++ [Print "Done."])%list)
    /\ fst (main py_int py_strip path_str env
              (Delete (mkDelete nm version true)) w) = 0%Z.
Proof.
  intros Hres.
  assert (Hs := resolve_sound (w_fs w) nm version). rewrite Hres in Hs.
  destruct Hs as [-> Hex].
  assert (Hd : is_dir (w_fs (emit (using_events version v) w)) [v; nm] = true)
    by (unfold environmentExists in Hex; now apply andb_prop in Hex as [Hd _]).
  destruct (delete_tail v nm _ Hd) as (fs' & Hu & Ht).
  exists fs'. split; [exact Hu|].
  assert (Hc : cmd_delete py_int path_str env (mkDelete nm version true) w
               = (Normal tt,
                  mkWorld fs' (w_zaprc w) (w_stdin w)
                    (w_trace w ++ using_events version v ++ [Print "Done."])%list)).
  { unfold cmd_delete. cbn [d_name d_version d_yes negb].
    rewrite (bind_normal _ _ _ _ _ (locate_single nm version "delete" v _ w Hres)).
    rewrite (bind_normal _ _ _ _ _ (eq_refl : ret tt _ = (Normal tt, _))).
    rewrite Ht. unfold emit, set_fs. cbn [w_fs w_zaprc w_stdin w_trace].
    now rewrite <- app_assoc. }
  split; [exact Hc|]. now rewrite main_delete, Hc.
Qed.


(** X10.  Activation of a single match.  The activation command for the
    directory is always printed.  Without [--shell], and unless standard
    output is a terminal and [--interactive] is given, that is all: no
    process is started and the registry, the per-user file and standard
    input are as before.  With [--shell] one shell is started on that
    command, and its return code is dropped: the exit status is 0. *)
Theorem activate_single_match (nm : string) (version : option string)
  (v : string) (p : Path) (w : World) (shell interactive : bool) :
  resolve (w_fs w) nm version = SingleMatch v p ->
  (shell = false -> stdout_isatty env && interactive = false ->
   cmd_activate py_int path_str env (mkActivate nm version shell interactive) w
   = (Normal tt,
      emit (using_events version v ++ [Print (activate_cmd path_str env p)])%list w))
  /\ (shell = true ->
      forall rc out fs',
        subprocess_run env (shell_argv env (activate_cmd path_str env p)) (w_fs w)
        = Completed rc out fs' ->
        cmd_activate py_int path_str env (mkActivate nm version shell interactive) w
        = (Normal tt,
           mkWorld fs' (w_zaprc w) (w_stdin w)
             (w_trace w ++ using_events version v
              ++ [Print (activate_cmd path_str env p);
                  Subprocess (shell_argv env (activate_cmd path_str env p))])%list)
        /\ fst (main py_int py_strip path_str env
                  (Activate (mkActivate nm version shell interactive)) w) = 0%Z).
Proof.
  intros Hres.
  assert (Hstart : cmd_activate py_int path_str env
                     (mkActivate nm version shell interactive) w
                   = (if shell then spawn env (shell_argv env (activate_cmd path_str env p))
                      else if stdout_isatty env && interactive then
                             print (Py.nl ++ "Activating environment...") ;;;
                             spawn env (shell_argv env (activate_cmd path_str env p))
                           else ret tt)
                       (emit (using_events version v
                              ++ [Print (activate_cmd path_str env p)])%list w)).
  { unfold cmd_activate. cbn [a_name a_version a_shell a_interactive].
    rewrite (bind_normal _ _ _ _ _ (locate_single nm version "activate" v _ w Hres)).
    rewrite (bind_normal _ _ _ _ _ (print_run _ _)).
    now rewrite emit_emit. }
  split.
  - intros -> Hi. now rewrite Hstart, Hi.
  - intros -> rc out fs' Hrun.
    assert (Hc : cmd_activate py_int path_str env
                   (mkActivate nm version true interactive) w
                 = (Normal tt,
                    mkWorld fs' (w_zaprc w) (w_stdin w)
                      (w_trace w ++ using_events version v
                       ++ [Print (activate_cmd path_str env p);
                           Subprocess (shell_argv env (activate_cmd path_str env p))])%list)).
    { rewrite Hstart. unfold spawn. cbn [w_fs emit]. rewrite Hrun.
      unfold set_fs, log, emit. cbn [w_fs w_zaprc w_stdin w_trace].
      now rewrite <- !app_assoc. }
    split; [exact Hc|]. now rewrite main_activate, Hc.
Qed.

End LookupFacts.

(** ** More of the commands: the menu and the prompts *)

Section PromptFacts.

Variable py_int : string -> option Z.
Variable py_strip : string -> string.
Variable path_str : Path -> string.
Variable env : Env.

Lemma select_environment_valid (matching_envs : list (string * Path))
  (nm action_name choice v : string) (p : Path) (n : Z)
  (rest : list stdin_event) (w : World) :
  stdin_isatty env = true ->
  w_stdin w = Line choice :: rest ->
  py_int choice = Some n ->
  (1 <= n)%Z ->
  nth_error matching_envs (Z.to_nat (n - 1)) = Some (v, p) ->
  select_environment py_int env matching_envs nm action_name w
  = (Normal (Some (v, p)),
     set_stdin rest
       (emit (menu_events matching_envs nm
              ++ [Print (Py.nl ++ "Select an environment to " ++ action_name
                         ++ " (or Ctrl+C to cancel):");
                  Read;
                  Print ("Selected: Python " ++ v)])%list w)).
Proof.
  intros Htty Hin Hn Hpos Hnth.
  rewrite select_environment_menu, Htty. unfold try_except.
  rewrite (bind_normal _ _ _ _ _ (print_run _ _)).
  erewrite bind_normal by (apply input_line; exact Hin).
  rewrite Hn. cbv zeta. rewrite Hnth.
  assert (Hlt : (Z.to_nat (n - 1) < List.length matching_envs)%nat)
    by (apply nth_error_Some; congruence).
  replace ((0 <=? n - 1)%Z && (n - 1 <? Z.of_nat (List.length matching_envs))%Z)
    with true
    by (symmetry; apply andb_true_intro; split;
        [apply Z.leb_le|apply Z.ltb_lt]; lia).
  rewrite (bind_normal _ _ _ _ _ (print_run _ _)). unfold ret.
  unfold set_stdin, emit. cbn [w_fs w_zaprc w_stdin w_trace].
  now rewrite <- !app_assoc.
Qed.

(** X11.  The menu counts from 1 in the order of the scan: with a terminal,
    answering the number [n] of a line of the menu selects the [n]-th
    match, and [cmd_delete] (here with the skip-confirmation flag) removes
    that one and leaves the other matches of the name in place. *)
Theorem menu_choice_deletes_nth (nm : string) (version : option string)
  (matches : list (string * Path)) (choice v : string) (p : Path) (n : Z)
  (rest : list stdin_event) (w : World) :
  stdin_isatty env = true ->
  resolve (w_fs w) nm version = MultipleMatches matches ->
  w_stdin w = Line choice :: rest ->
  py_int choice = Some n ->
  (1 <= n)%Z ->
  nth_error matches (Z.to_nat (n - 1)) = Some (v, p) ->
  exists w',
    cmd_delete py_int path_str env (mkDelete nm version true) w = (Normal tt, w')
    /\ p = [v; nm]
    /\ unlink p (w_fs w) = Some (w_fs w')
    /\ w_stdin w' = rest
    /\ In (Print ("Selected: Python " ++ v)) (w_trace w')
    /\ (forall v', v' <> v ->
          environmentExists (w_fs w') v' nm = environmentExists (w_fs w) v' nm).
Proof.
  intros Htty Hres Hin Hn Hpos Hnth.
  assert (Hs := resolve_sound (w_fs w) nm version). rewrite Hres in Hs.
  destruct Hs as (_ & _ & _ & Hall).
  destruct (Hall (v, p) (nth_error_In _ _ Hnth)) as [Hp Hex].
  cbn [fst snd] in Hp, Hex. subst p.
  assert (Hd : is_dir (w_fs w) [v; nm] = true)
    by (unfold environmentExists in Hex; now apply andb_prop in Hex as [Hd _]).
  pose proof (select_environment_valid matches nm "delete" choice v [v; nm] n
                rest w Htty Hin Hn Hpos Hnth) as Hsel.
  set (w1 := set_stdin rest _) in Hsel.
  destruct (delete_tail v nm w1 Hd) as (fs' & Hu & Ht).
  exists (emit [Print "Done."] (set_fs fs' w1)).
  split; [|split; [reflexivity|split; [exact Hu|split; [reflexivity|split]]]].
  - unfold cmd_delete. cbn [d_name d_version d_yes negb].
    unfold bind at 1. rewrite locate_resolve, Hres.
    rewrite (bind_normal _ _ _ _ _ Hsel). cbn [ret].
    rewrite (bind_normal _ _ _ _ _ (eq_refl : ret tt w1 = (Normal tt, w1))).
    exact Ht.
  - cbn [w_trace emit set_fs w1 set_stdin]. rewrite !in_app_iff.
    left. right. cbn. auto.
  - intros v' Hv'. cbn [w_fs emit set_fs].
    destruct (unlink_env_frame _ _ _ _ Hd Hu) as (_ & Hframe). auto.
Qed.

Lemma select_environment_ctrlc (matching_envs : list (string * Path))
  (nm action_name : string) (rest : list stdin_event) (w : World) :
  stdin_isatty env = true ->
  w_stdin w = CtrlC :: rest ->
  exists w', select_environment py_int env matching_envs nm action_name w
             = (Normal None, w')
             /\ w_fs w' = w_fs w
             /\ In (Print (Py.nl ++ "Operation cancelled.")) (w_trace w').
Proof.
  intros Htty Hin. rewrite select_environment_menu, Htty. unfold try_except.
  rewrite (bind_normal _ _ _ _ _ (print_run _ _)).
  erewrite bind_raise by (apply input_ctrlc; exact Hin).
  cbv beta iota.
  rewrite (bind_normal _ _ _ _ _ (print_run _ _)). unfold ret.
  eexists. split; [reflexivity|]. split; [reflexivity|].
  cbn [w_trace emit set_stdin]. rewrite !in_app_iff. right. now left.
Qed.

Lemma select_environment_eof (matching_envs : list (string * Path))
  (nm action_name : string) (w : World) :
  stdin_isatty env = true ->
  w_stdin w = [] ->
  exists w', select_environment py_int env matching_envs nm action_name w
             = (Raise EOFError, w')
             /\ w_fs w' = w_fs w.
Proof.
  intros Htty Hin. rewrite select_environment_menu, Htty. unfold try_except.
  rewrite (bind_normal _ _ _ _ _ (print_run _ _)).
  erewrite bind_raise by (apply input_eof; exact Hin).
  cbv beta iota. eexists. split; reflexivity.
Qed.

(** X12.  At the menu, with a terminal: Ctrl-C is caught there, the
    command says that the operation is cancelled and ends with exit status
    0; the end of input is not caught, the EOFError ends the command with
    exit status 1.  Neither touches the registry. *)
Theorem menu_without_answer (nm : string) (version : option string)
  (matches : list (string * Path)) (w : World) (yes shell interactive : bool) :
  stdin_isatty env = true ->
  resolve (w_fs w) nm version = MultipleMatches matches ->
  (forall rest, w_stdin w = CtrlC :: rest ->
     exists wd wa,
       cmd_delete py_int path_str env (mkDelete nm version yes) w = (Return, wd)
       /\ cmd_activate py_int path_str env
            (mkActivate nm version shell interactive) w = (Return, wa)
       /\ w_fs wd = w_fs w /\ w_fs wa = w_fs w
       /\ In (Print (Py.nl ++ "Operation cancelled.")) (w_trace wd)
       /\ fst (main py_int py_strip path_str env
                 (Delete (mkDelete nm version yes)) w) = 0%Z)
  /\ (w_stdin w = [] ->
      exists wd wa,
        cmd_delete py_int path_str env (mkDelete nm version yes) w
        = (Raise EOFError, wd)
        /\ cmd_activate py_int path_str env
             (mkActivate nm version shell interactive) w = (Raise EOFError, wa)
        /\ w_fs wd = w_fs w /\ w_fs wa = w_fs w
        /\ fst (main py_int py_strip path_str env
                  (Delete (mkDelete nm version yes)) w) = 1%Z).
Proof.
  intros Htty Hres. split.
  - intros rest Hin.
    destruct (select_environment_ctrlc matches nm "delete" rest w Htty Hin)
      as (wd & Hd & Hfd & Hpd).
    destruct (select_environment_ctrlc matches nm "activate" rest w Htty Hin)
      as (wa & Ha & Hfa & _).
    assert (Hcd : cmd_delete py_int path_str env (mkDelete nm version yes) w
                  = (Return, wd)).
    { unfold cmd_delete. cbn [d_name d_version].
      erewrite bind_return; [reflexivity|].
      rewrite locate_resolve, Hres. now rewrite (bind_normal _ _ _ _ _ Hd). }
    assert (Hca : cmd_activate py_int path_str env
                    (mkActivate nm version shell interactive) w = (Return, wa)).
    { unfold cmd_activate. cbn [a_name a_version].
      erewrite bind_return; [reflexivity|].
      rewrite locate_resolve, Hres. now rewrite (bind_normal _ _ _ _ _ Ha). }
    exists wd, wa. rewrite main_delete, Hcd, Hca. repeat split; auto.
  - intros Hin.
    destruct (select_environment_eof matches nm "delete" w Htty Hin)
      as (wd & Hd & Hfd).
    destruct (select_environment_eof matches nm "activate" w Htty Hin)
      as (wa & Ha & Hfa).
    assert (Hcd : cmd_delete py_int path_str env (mkDelete nm version yes) w
                  = (Raise EOFError, wd)).
    { unfold cmd_delete. cbn [d_name d_version].
      erewrite bind_raise; [reflexivity|].
      rewrite locate_resolve, Hres. now rewrite (bind_raise _ _ _ _ _ Hd). }
    assert (Hca : cmd_activate py_int path_str env
                    (mkActivate nm version shell interactive) w
                  = (Raise EOFError, wa)).
    { unfold cmd_activate. cbn [a_name a_version].
      erewrite bind_raise; [reflexivity|].
      rewrite locate_resolve, Hres. now rewrite (bind_raise _ _ _ _ _ Ha). }
    exists wd, wa. rewrite main_delete, Hcd, Hca. repeat split; auto.
Qed.

(** X13.  At the confirmation of [cmd_delete], both Ctrl-C and the end of
    input leave the command through an exception: exit status 1 (Ctrl-C
    with the cancelled message of [main] on standard error), and the
    environment is not removed. *)
Theorem confirmation_without_answer (args : delete_args) (w w1 : World)
  (env_dir : Path) :
  d_yes args = false ->
  locate py_int env (d_name args) (d_version args) "delete" w
  = (Normal env_dir, w1) ->
  (forall rest, w_stdin w1 = CtrlC :: rest ->
     exists w',
       cmd_delete py_int path_str env args w = (Raise KeyboardInterrupt, w')
       /\ w_fs w' = w_fs w
       /\ main py_int py_strip path_str env (Delete args) w
          = (1%Z, log (PrintErr (Py.nl ++ "Operation cancelled.")) w'))
  /\ (w_stdin w1 = [] ->
      exists w',
        cmd_delete py_int path_str env args w = (Raise EOFError, w')
        /\ w_fs w' = w_fs w
        /\ fst (main py_int py_strip path_str env (Delete args) w) = 1%Z).
Proof.
  intros Hyes Hloc.
  destruct (locate_facts py_int env (d_name args) (d_version args) "delete" w)
    as (Hfs & _ & _).
  rewrite Hloc in Hfs. cbn [snd] in Hfs.
  split.
  - intros rest Hin.
    assert (Hc : exists w', cmd_delete py_int path_str env args w
                            = (Raise KeyboardInterrupt, w') /\ w_fs w' = w_fs w).
    { unfold cmd_delete. rewrite (bind_normal _ _ _ _ _ Hloc), Hyes. cbn [negb].
      eexists. split.
      - erewrite bind_raise; [reflexivity|].
        erewrite bind_raise; [reflexivity|].
        unfold input_prompt. rewrite (bind_normal _ _ _ _ _ (print_run _ _)).
        apply input_ctrlc. exact Hin.
      - cbn [w_fs set_stdin emit]. exact Hfs. }
    destruct Hc as (w' & Hc & Hw'). exists w'.
    rewrite main_delete, Hc. auto.
  - intros Hin.
    assert (Hc : exists w', cmd_delete py_int path_str env args w
                            = (Raise EOFError, w') /\ w_fs w' = w_fs w).
    { unfold cmd_delete. rewrite (bind_normal _ _ _ _ _ Hloc), Hyes. cbn [negb].
      eexists. split.
      - erewrite bind_raise; [reflexivity|].
        erewrite bind_raise; [reflexivity|].
        unfold input_prompt. rewrite (bind_normal _ _ _ _ _ (print_run _ _)).
        apply input_eof. exact Hin.
      - cbn [w_fs set_stdin emit]. exact Hfs. }
    destruct Hc as (w' & Hc & Hw'). exists w'.
    rewrite main_delete, Hc. auto.
Qed.

End PromptFacts.

(** ** More of the helpers: the legacy lookup, the scan, the listing *)





(** X15.  Under a root whose entry names are distinct, no version tag
    occurs twice among the matches of a scan, every match is
    [(tag, ROOT/tag/name)], and the scan that stops early returns at most
    two matches. *)
Theorem find_envs_by_name_distinct (fs : dir) (nm : string) :
  wf_dir fs = true ->
  NoDup (map fst (find_envs_by_name fs nm true))
  /\ (forall m, In m (find_envs_by_name fs nm true) -> snd m = [fst m; nm])
  /\ (List.length (find_envs_by_name fs nm false) <= 2)%nat.
Proof.
  intros Hwf. split; [|split].
  - rewrite find_envs_by_name_all, map_map. cbn [hit fst]. rewrite map_id.
    apply NoDup_filter. apply distinct_NoDup.
    unfold wf_dir in Hwf. now apply andb_prop in Hwf as [Hwf _].
  - intros [v p] Hm. apply find_envs_by_name_exists in Hm as [-> _]. reflexivity.
  - unfold find_envs_by_name.
    rewrite find_envs_loop_early by (cbn; lia).
    apply firstn_le_length.
Qed.

Lemma dict_set_new_keys {V : Type} (k : string) (v : V) (d : list (string * V)) :
  ~ In k (map fst d) -> map fst (dict_set k v d) = (map fst d ++ [k])%list.
Proof.
  induction d as [|[k' v'] d IH]; simpl; intros Hn; [reflexivity|].
  destruct (String.eqb_spec k k') as [->|Hne]; [tauto|].
  simpl. f_equal. apply IH. tauto.
Qed.

Lemma envs_fold_keys (fs : dir) (l : list string) (acc : list (string * list Path)) :
  NoDup l ->
  (forall k, In k l -> ~ In k (map fst acc)) ->
  map fst
    (fold_left
       (fun envs ver_dir =>
          if is_dir fs ver_dir then
            dict_set (name ver_dir)
              (filter (fun p => exists_ fs (join p marker)) (iterdir fs ver_dir))
              envs
          else envs)
       (map (fun k => [k]) l) acc)
  = (map fst acc ++ filter (fun v => is_dir fs [v]) l)%list.
Proof.
  revert acc. induction l as [|k l IH]; intros acc Hnd Hfresh; simpl.
  - now rewrite app_nil_r.
  - inversion Hnd as [|k' l' Hk Hl]; subst. change (name [k]) with k.
    destruct (is_dir fs [k]).
    + rewrite IH; [|exact Hl|].
      * rewrite dict_set_new_keys by (apply Hfresh; now left).
        now rewrite <- app_assoc.
      * intros k' Hk'. rewrite dict_set_new_keys by (apply Hfresh; now left).
        rewrite in_app_iff. intros [H|[H|[]]].
        -- exact (Hfresh k' (or_intror Hk') H).
        -- subst. contradiction.
    + apply IH; [exact Hl|]. intros k' Hk'. apply Hfresh. now right.
Qed.

Lemma envs_by_version_keys (fs : dir) :
  wf_dir fs = true ->
  map fst (envs_by_version fs) = filter (fun v => is_dir fs [v]) (map fst fs).
Proof.
  intros Hwf. unfold envs_by_version. rewrite iterdir_root.
  rewrite <- (map_map fst (fun k => [k])).
  rewrite envs_fold_keys; [reflexivity| |intros k _ []].
  apply distinct_NoDup. unfold wf_dir in Hwf. now apply andb_prop in Hwf as [Hwf _].
Qed.

(** X16.  [envs_by_version] has one key for each directory directly under
    the root, in iteration order; plain files there are skipped, and a
    version directory without environments keeps its key, with the empty
    list.  The value of a key lists exactly the valid environments under
    it.  (Entry names of the root distinct.) *)
Theorem envs_by_version_keys_values (fs : dir) :
  wf_dir fs = true ->
  map fst (envs_by_version fs) = filter (fun v => is_dir fs [v]) (map fst fs)
  /\ (forall v, dict_get v (envs_by_version fs)
                = if is_dir fs [v] then Some (env_list fs v) else None)
  /\ (forall v p, In p (env_list fs v)
                  <-> exists nm, p = [v; nm] /\ environmentExists fs v nm = true).
Proof.
  intros Hwf. split; [now apply envs_by_version_keys|]. split.
  - apply envs_by_version_get.
  - apply env_list_In.
Qed.

(** ** More of the listing: the order of tags and of names *)

Lemma tuple_ltb_irrefl (a : list seg) : tuple_ltb a a = false.
Proof.
  induction a as [|x a IH]; simpl; [reflexivity|].
  now rewrite (proj2 (seg_eqb_eq x x) eq_refl).
Qed.

Lemma tuple_ltb_trans (a b c : list seg) :
  tuple_ltb a b = true -> tuple_ltb b c = true -> tuple_ltb a c = true.
Proof.
  intros Hab Hbc. destruct (tuple_ltb a c) eqn:E; [reflexivity|].
  pose proof (tuple_ltb_asym _ _ Hbc) as Hcb.
  rewrite (tuple_ltb_negtrans b c a Hcb E) in Hab. discriminate.
Qed.

Lemma tuple_ltb_extension (a b : list seg) (x : seg) :
  tuple_ltb a (a ++ x :: b) = true.
Proof.
  induction a as [|y a IH]; simpl; [reflexivity|].
  now rewrite (proj2 (seg_eqb_eq y y) eq_refl).
Qed.

Lemma re_split_acc_sep (cur a s : string) (c : ascii) :
  Py.is_sep c = true ->
  Py.re_split_acc cur (a ++ String c s)
  = (Py.re_split_acc cur a ++ Py.re_split_acc EmptyString s)%list.
Proof.
  intros Hc. revert cur. induction a as [|x a IH]; intros cur; simpl.
  - now rewrite Hc.
  - destruct (Py.is_sep x); [now rewrite IH|apply IH].
Qed.

Lemma re_split_acc_cons (cur s : string) :
  exists x l, Py.re_split_acc cur s = x :: l.
Proof.
  revert cur. induction s as [|c s IH]; intros cur; simpl; eauto.
  destruct (Py.is_sep c); eauto.
Qed.

Lemma String_leb_trans (a b c : string) :
  String.leb a b = true -> String.leb b c = true -> String.leb a c = true.
Proof.
  unfold String.leb. intros Hab Hbc.
  destruct (String.compare a c) eqn:Eac; try reflexivity.
  assert (Hca : OrderedTypeEx.String_as_OT.lt c a).
  { apply OrderedTypeEx.String_as_OT.cmp_lt.
    unfold OrderedTypeEx.String_as_OT.cmp.
    rewrite String.compare_antisym, Eac. reflexivity. }
  destruct (String.compare a b) eqn:Eab; try discriminate;
    destruct (String.compare b c) eqn:Ebc; try discriminate.
  - apply String.compare_eq_iff in Eab, Ebc. subst.
    exfalso. exact (OrderedTypeEx.String_as_OT.lt_not_eq _ _ Hca eq_refl).
  - apply String.compare_eq_iff in Eab. subst. congruence.
  - apply String.compare_eq_iff in Ebc. subst. congruence.
  - apply OrderedTypeEx.String_as_OT.cmp_lt in Eab, Ebc.
    exfalso.
    exact (OrderedTypeEx.String_as_OT.lt_not_eq _ _
             (OrderedTypeEx.String_as_OT.lt_trans _ _ _ Hca
                (OrderedTypeEx.String_as_OT.lt_trans _ _ _ Eab Ebc)) eq_refl).
Qed.

Lemma name_ltb_asym (x y : Path) : name_ltb x y = true -> name_ltb y x = false.
Proof.
  unfold name_ltb, Py.str_leb. intros H. apply negb_true_iff in H.
  apply negb_false_iff.
  destruct (String.leb_total (name x) (name y)); congruence.
Qed.

Lemma name_ltb_negtrans (x y z : Path) :
  name_ltb y x = false -> name_ltb z y = false -> name_ltb z x = false.
Proof.
  unfold name_ltb, Py.str_leb. rewrite !negb_false_iff.
  intros H1 H2. exact (String_leb_trans _ _ _ H1 H2).
Qed.

Lemma StronglySorted_map_name (l : list Path) :
  StronglySorted (not_after name_ltb) l ->
  StronglySorted (fun a b => String.leb a b = true) (map name l).
Proof.
  induction 1 as [|x l Hl IH Hx]; simpl; constructor; [exact IH|].
  rewrite Forall_forall in *. intros n Hn.
  apply in_map_iff in Hn as (p & <- & Hp). specialize (Hx p Hp).
  unfold not_after, name_ltb, Py.str_leb in Hx. now apply negb_false_iff in Hx.
Qed.

Section ListingFacts.

Variable py_int : string -> option Z.
Variable py_strip : string -> string.
Variable path_str : Path -> string.
Variable env : Env.

(** X17.  The comparison of version tags is a strict weak order, whatever
    [int] makes of the segments: no tag is before itself, two tags are
    never each before the other, before is transitive, and so is comparing
    equal.  A tag is before every tag that continues it with a separator
    and more segments (3.11 before 3.11-arm64 and before 3.11.2). *)
Theorem version_order_strict_weak :
  (forall a, version_ltb py_int a a = false)
  /\ (forall a b, version_ltb py_int a b = true -> version_ltb py_int b a = false)
  /\ (forall a b c, version_ltb py_int a b = true -> version_ltb py_int b c = true ->
                    version_ltb py_int a c = true)
  /\ (forall a b c, tied (version_ltb py_int) a b = true ->
                    tied (version_ltb py_int) b c = true ->
                    tied (version_ltb py_int) a c = true)
  /\ (forall a s, version_ltb py_int a (a ++ "." ++ s) = true
                  /\ version_ltb py_int a (a ++ "-" ++ s) = true).
Proof.
  unfold version_ltb. split; [|split; [|split; [|split]]].
  - intros a. apply tuple_ltb_irrefl.
  - intros a b. apply tuple_ltb_asym.
  - intros a b c. apply tuple_ltb_trans.
  - intros a b c. unfold tied. intros Hab Hbc.
    apply andb_prop in Hab as [H1 H2]. apply andb_prop in Hbc as [H3 H4].
    apply negb_true_iff in H1, H2, H3, H4.
    apply andb_true_intro. split; apply negb_true_iff.
    + exact (tuple_ltb_negtrans _ _ _ H3 H1).
    + exact (tuple_ltb_negtrans _ _ _ H2 H4).
  - intros a s.
    assert (H : forall c, Py.is_sep c = true ->
              tuple_ltb (version_key py_int a)
                (version_key py_int (a ++ String c s)) = true).
    { intros c Hc. unfold version_key, Py.re_split.
      rewrite (re_split_acc_sep _ _ _ _ Hc), map_app.
      destruct (re_split_acc_cons EmptyString s) as (x & l & ->).
      apply tuple_ltb_extension. }
    split; apply H; reflexivity.
Qed.

(** X18.  The sort of the listing is stable: among the version directories
    whose tags compare equal to a given tag, the order of the listing is
    the iteration order of the root.  (Entry names of the root
    distinct.) *)
Theorem list_order_stable (fs : dir) (k : string) :
  wf_dir fs = true ->
  filter (tied (version_ltb py_int) k) (list_order py_int fs)
  = filter (tied (version_ltb py_int) k)
      (filter (fun v => is_dir fs [v]) (map fst fs)).
Proof.
  intros Hwf. unfold list_order.
  rewrite (sorted_stable (version_ltb py_int)).
  - now rewrite envs_by_version_keys.
  - intros x y. apply tuple_ltb_asym.
  - intros x y z. apply tuple_ltb_negtrans.
Qed.

(** X19.  Every section of the listing has at least one name, its names
    are in ascending byte order, and each is a valid environment under the
    section's version tag. *)
Theorem listing_sections_sorted (fs : dir) (v : string) (names : list string) :
  In (v, names) (listing py_int fs) ->
  names <> []
  /\ StronglySorted (fun a b => String.leb a b = true) names
  /\ (forall nm, In nm names -> environmentExists fs v nm = true).
Proof.
  intros Hin. split; [|split].
  - unfold listing in Hin. apply in_flat_map in Hin as (ver & _ & Hin).
    unfold section_of in Hin.
    destruct (dict_get ver (envs_by_version fs)) as [[|e l]|]; try contradiction.
    destruct Hin as [Hin|[]]. injection Hin as _ <-.
    intros Hnil. apply (f_equal (@List.length string)) in Hnil.
    rewrite length_map in Hnil.
    rewrite (Permutation_length (sorted_perm name_ltb (e :: l))) in Hnil.
    discriminate.
  - unfold listing in Hin. apply in_flat_map in Hin as (ver & _ & Hin).
    unfold section_of in Hin.
    destruct (dict_get ver (envs_by_version fs)) as [[|e l]|]; try contradiction.
    destruct Hin as [Hin|[]]. injection Hin as _ <-.
    apply StronglySorted_map_name.
    apply (sorted_sorted name_ltb);
      [exact name_ltb_asym|exact name_ltb_negtrans].
  - intros nm Hnm. apply (reported_exists py_int). exists names. auto.
Qed.

(** X20.  [cmd_list] returns for every registry: each key it sorted is in
    the dict, so no lookup fails.  It prints the interpreters of the
    snapshot in their order and then the sections of the listing, calls
    [input()] never, and leaves the registry, the per-user file and standard
    input as they were; the exit status is 0. *)
Theorem list_always_returns (w : World) :
  cmd_list py_int path_str env w
  = (Normal tt, emit (list_events py_int path_str env (w_fs w)) w)
  /\ main py_int py_strip path_str env List_ w
     = (0%Z, emit (list_events py_int path_str env (w_fs w)) w)
  /\ reads (list_events py_int path_str env (w_fs w)) = 0%nat.
Proof.
  assert (Hc := cmd_list_trace py_int path_str env w).
  fold (list_events py_int path_str env (w_fs w)) in Hc.
  split; [exact Hc|]. split.
  - unfold main, dispatch. now rewrite Hc.
  - unfold list_events. rewrite !reads_app, reads_map_print. cbn [reads].
    assert (Hs : forall l, reads (flat_map section_events l) = 0%nat).
    { induction l as [|s l IH]; [reflexivity|].
      cbn [flat_map]. rewrite reads_app, IH. unfold section_events.
      cbn [reads]. now rewrite reads_map_print. }
    now rewrite Hs.
Qed.

End ListingFacts.

(** ** Creating twice *)

Section CreateTwice.

Variable py_int : string -> option Z.
Variable py_strip : string -> string.
Variable path_str : Path -> string.
Variable env : Env.

Lemma rmtree_ignore_errors_normal (p : Path) (w : World) :
  exists w', rmtree_ignore_errors p w = (Normal tt, w').
Proof.
  unfold rmtree_ignore_errors.
  destruct (stat (Dir (w_fs w)) p) as [[c|d]|]; eauto.
  destruct (unlink p (w_fs w)); eauto.
Qed.

Lemma cmd_create_normal (args : create_args) (w w' : World) (v : string) :
  requested_version py_strip args w v ->
  cmd_create py_strip path_str env args w = (Normal tt, w') ->
  w_zaprc w' = w_zaprc w
  /\ exists python_exe, dict_get v (installed env) = Some python_exe.
Proof.
  intros Hv H.
  pose proof (cmd_create_version py_strip path_str env args w v Hv) as Hc.
  destruct (dict_get v (installed env)) as [exe|] eqn:Hexe;
    [|rewrite Hc in H; discriminate].
  split; [|eauto].
  destruct (exists_ (w_fs w) [v; c_name args]) eqn:Hnew;
    [rewrite Hc in H; discriminate|].
  clear Hc.
  destruct (mkdir_p [v] (w_fs w)) as [fs1|] eqn:Hmk.
  - destruct (probe_upgrade py_strip env exe fs1) as [upgrade fs2] eqn:Hprobe.
    rewrite (cmd_create_delegates py_strip path_str env args w v exe fs1 fs2 upgrade
               Hv Hexe Hnew Hmk Hprobe) in H.
    unfold try_except, bind, run in H. cbn [w_fs] in H.
    destruct (subprocess_run env (venv_cmd path_str exe upgrade [v; c_name args]) fs2)
      as [rc out fs3|e fs3].
    + cbn [fst snd] in H. destruct (negb (rc =? 0)%Z).
      * revert H.
        match goal with
        | |- context [rmtree_ignore_errors ?p ?w0] =>
            destruct (rmtree_ignore_errors_normal p w0) as (w5 & Hr); rewrite Hr
        end.
        cbn [sys_exit raise is_Exception]. discriminate.
      * unfold print in H. injection H as <-. reflexivity.
    + cbn [is_Exception] in H. revert H.
      match goal with
      | |- context [rmtree_ignore_errors ?p ?w0] =>
          destruct (rmtree_ignore_errors_normal p w0) as (w5 & Hr); rewrite Hr
      end.
      cbn [sys_exit raise]. discriminate.
  - rewrite (cmd_create_version py_strip path_str env args w v Hv), Hexe, Hnew in H.
    erewrite bind_raise in H; [discriminate|].
    unfold mkdir_parents. now rewrite Hmk.
Qed.

(** X21.  After a create invocation that succeeded and left something at
    the target, the same invocation again fails with the already-exists
    message and exit status 1, and changes nothing. *)
Theorem create_twice_fails (args : create_args) (w w' : World) (v : string) :
  requested_version py_strip args w v ->
  cmd_create py_strip path_str env args w = (Normal tt, w') ->
  exists_ (w_fs w') [v; c_name args] = true ->
  cmd_create py_strip path_str env args w'
  = (Raise (SystemExit (msg_already_exists (c_name args))), w')
  /\ fst (main py_int py_strip path_str env (Create args) w') = 1%Z.
Proof.
  intros Hv H Hex.
  destruct (cmd_create_normal args w w' v Hv H) as (Hz & exe & Hexe).
  assert (Hv' : requested_version py_strip args w' v).
  { destruct Hv as [Hv|(Hn & Hd & Hne)]; [now left|right].
    split; [exact Hn|]. split; [|exact Hne].
    unfold get_default_version in *. rewrite Hz.
    destruct (w_zaprc w) as [lines|]; [|discriminate].
    destruct (find (Py.startswith "default_version=") lines) as [line|];
      [|discriminate].
    destruct (Py.after_first "=" (py_strip line)); [|discriminate].
    injection Hd as ->. reflexivity. }
  assert (Hc : cmd_create py_strip path_str env args w'
               = (Raise (SystemExit (msg_already_exists (c_name args))), w'))
    by now rewrite (cmd_create_version py_strip path_str env args w' v Hv'), Hexe, Hex.
  split; [exact Hc|]. now rewrite main_create, Hc.
Qed.

End CreateTwice.

(** ** The further facts on the example registry *)



Lemma create_without_version_witness :
  cmd_create Py.strip_ascii ex_path_str (ex_env false) (mkCreate None "beta")
    (mkWorld ex_fs (Some ["# nothing set" ++ Py.nl]) [] [])
  = (Raise (SystemExit msg_no_version),
     mkWorld ex_fs (Some ["# nothing set" ++ Py.nl]) [] []).
Proof.
  apply (create_without_version Py.decimal_int Py.strip_ascii ex_path_str
           (ex_env false) "beta"
           (mkWorld ex_fs (Some ["# nothing set" ++ Py.nl]) [] [])).
  right. left. eexists. split; reflexivity.
Defined.

Lemma create_failure_cleans_up_witness :
  exists fs4,
    cmd_create Py.strip_ascii ex_path_str (ex_env false)
      (mkCreate (Some "3.11") "beta") (ex_world [])
    = (Raise (SystemExit "Error: ensurepip failed"),
       mkWorld fs4 None []
         [Print "Creating venv at /home/u/venvs/3.11/beta using /usr/bin/python3.11 ...";
          Subprocess (probe_cmd "/usr/bin/python3.11");
          Subprocess ["/usr/bin/python3.11"; "-m"; "venv"; "/home/u/venvs/3.11/beta"]])
    /\ fs4 = ex_fs
    /\ is_dir (ex_half_built ex_fs) ["3.11"; "beta"; "bin"] = true.
Proof.
  destruct (create_failure_cleans_up Py.decimal_int Py.strip_ascii ex_path_str
              (ex_env false) (mkCreate (Some "3.11") "beta") (ex_world [])
              "3.11" "/usr/bin/python3.11" "Error: ensurepip failed" 1%Z
              ex_fs ex_fs (ex_half_built ex_fs) false)
    as (fs4 & Hrun & _ & _ & Hdir & _).
  - reflexivity.
  - reflexivity.
  - left. reflexivity.
  - reflexivity.
  - reflexivity.
  - reflexivity.
  - reflexivity.
  - reflexivity.
  - lia.
  - exists fs4. split; [exact Hrun|]. split; [|reflexivity].
    specialize (Hdir eq_refl). injection Hdir as <-. reflexivity.
Defined.

Lemma create_success_witness :
  fst (cmd_create Py.strip_ascii ex_path_str (ex_env_run false ex_run_ok)
         (mkCreate (Some "3.11") "beta") (ex_world [])) = Normal tt
  /\ environmentExists
       (w_fs (snd (cmd_create Py.strip_ascii ex_path_str (ex_env_run false ex_run_ok)
                     (mkCreate (Some "3.11") "beta") (ex_world []))))
       "3.11" "beta" = true.
Proof.
  destruct (create_success Py.decimal_int Py.strip_ascii ex_path_str
              (ex_env_run false ex_run_ok) (mkCreate (Some "3.11") "beta")
              (ex_world []) "3.11" "/usr/bin/python3.11" "created"
              ex_fs ex_fs (ex_built ex_fs) true) as (H & _).
  - reflexivity.
  - reflexivity.
  - left. reflexivity.
  - reflexivity.
  - reflexivity.
  - reflexivity.
  - reflexivity.
  - reflexivity.
  - rewrite H. split; reflexivity.
Defined.

Lemma create_exception_cleans_up_witness :
  exists w',
    cmd_create Py.strip_ascii ex_path_str (ex_env_run false ex_run_missing)
      (mkCreate (Some "3.11") "beta") (ex_world [])
    = (Raise (SystemExit
                "Error creating environment: [Errno 2] No such file or directory"),
       w')
    /\ w_fs w' = ex_fs.
Proof.
  destruct (create_exception_cleans_up Py.decimal_int Py.strip_ascii ex_path_str
              (ex_env_run false ex_run_missing) (mkCreate (Some "3.11") "beta")
              (ex_world []) "3.11" "/usr/bin/python3.11"
              "[Errno 2] No such file or directory" ex_fs ex_fs ex_fs false)
    as (w' & H & _ & Hkeep & _).
  - reflexivity.
  - reflexivity.
  - left. reflexivity.
  - reflexivity.
  - reflexivity.
  - reflexivity.
  - reflexivity.
  - reflexivity.
  - exists w'. split; [exact H|]. apply Hkeep. reflexivity.
Defined.

Lemma create_under_a_file_witness :
  cmd_create Py.strip_ascii ex_path_str (ex_env false)
    (mkCreate (Some "3.11") "beta") (mkWorld ex_fs_file None [] [])
  = (Raise FileExistsError, mkWorld ex_fs_file None [] []).
Proof.
  apply (create_under_a_file Py.decimal_int Py.strip_ascii ex_path_str
           (ex_env false) (mkCreate (Some "3.11") "beta")
           (mkWorld ex_fs_file None [] []) "3.11" "/usr/bin/python3.11").
  - reflexivity.
  - reflexivity.
  - left. reflexivity.
  - reflexivity.
  - reflexivity.
Defined.

Lemma delete_removes_only_target_witness :
  exists v,
    environmentExists ex_fs v "proj" = true
    /\ environmentExists
         (w_fs (snd (cmd_delete Py.decimal_int ex_path_str (ex_env true)
                       (mkDelete "proj" (Some "3.9") true) (ex_world []))))
         "3.10" "proj" = true.
Proof.
  destruct (delete_removes_only_target Py.decimal_int ex_path_str (ex_env true)
              (mkDelete "proj" (Some "3.9") true) (ex_world [])
              (snd (cmd_delete Py.decimal_int ex_path_str (ex_env true)
                      (mkDelete "proj" (Some "3.9") true) (ex_world []))))
    as (v & Hex & _).
  - reflexivity.
  - reflexivity.
  - reflexivity.
  - exists v. split; [exact Hex|]. reflexivity.
Defined.

Lemma delete_yes_asks_nothing_witness :
  exists fs',
    cmd_delete Py.decimal_int ex_path_str (ex_env false)
      (mkDelete "alpha" None true) (ex_world [Line "n"])
    = (Normal tt,
       mkWorld fs' None [Line "n"]
         [Print "Using Python 3.9 environment."; Print "Done."])
    /\ environmentExists fs' "3.9" "alpha" = false.
Proof.
  destruct (delete_yes_asks_nothing Py.decimal_int Py.strip_ascii ex_path_str
              (ex_env false) "alpha" None "3.9" ["3.9"; "alpha"]
              (ex_world [Line "n"]) eq_refl) as (fs' & Hu & Hc & _).
  exists fs'. split; [exact Hc|].
  injection Hu as <-. reflexivity.
Defined.


Lemma activate_single_match_witness :
  cmd_activate Py.decimal_int ex_path_str (ex_env true)
    (mkActivate "alpha" None false true) (ex_world [])
  = (Normal tt,
     mkWorld ex_fs None []
       [Print "Using Python 3.9 environment.";
        Print "source /home/u/venvs/3.9/alpha/bin/activate"])
  /\ fst (main Py.decimal_int Py.strip_ascii ex_path_str (ex_env true)
            (Activate (mkActivate "alpha" None true false)) (ex_world [])) = 0%Z.
Proof.
  split.
  - apply (activate_single_match Py.decimal_int Py.strip_ascii ex_path_str
             (ex_env true) "alpha" None "3.9" ["3.9"; "alpha"] (ex_world [])
             false true eq_refl); reflexivity.
  - destruct (activate_single_match Py.decimal_int Py.strip_ascii ex_path_str
                (ex_env true) "alpha" None "3.9" ["3.9"; "alpha"] (ex_world [])
                true false eq_refl) as (_ & H).
    exact (proj2 (H eq_refl 0%Z "False" ex_fs eq_refl)).
Defined.

Lemma menu_choice_deletes_nth_witness :
  exists w',
    cmd_delete Py.decimal_int ex_path_str (ex_env true)
      (mkDelete "proj" None true) (ex_world [Line "2"]) = (Normal tt, w')
    /\ environmentExists (w_fs w') "3.9" "proj" = false
    /\ environmentExists (w_fs w') "3.10" "proj" = true.
Proof.
  destruct (menu_choice_deletes_nth Py.decimal_int ex_path_str (ex_env true)
              "proj" None [("3.10", ["3.10"; "proj"]); ("3.9", ["3.9"; "proj"])]
              "2" "3.9" ["3.9"; "proj"] 2%Z [] (ex_world [Line "2"]))
    as (w' & Hc & _ & Hu & _ & _ & Hframe).
  - reflexivity.
  - reflexivity.
  - reflexivity.
  - reflexivity.
  - lia.
  - reflexivity.
  - exists w'. split; [exact Hc|]. injection Hu as <-. split; reflexivity.
Defined.

Lemma menu_without_answer_witness :
  fst (main Py.decimal_int Py.strip_ascii ex_path_str (ex_env true)
         (Delete (mkDelete "proj" None false)) (ex_world [CtrlC])) = 0%Z
  /\ fst (main Py.decimal_int Py.strip_ascii ex_path_str (ex_env true)
            (Delete (mkDelete "proj" None false)) (ex_world [])) = 1%Z.
Proof.
  split.
  - destruct (menu_without_answer Py.decimal_int Py.strip_ascii ex_path_str
                (ex_env true) "proj" None
                [("3.10", ["3.10"; "proj"]); ("3.9", ["3.9"; "proj"])]
                (ex_world [CtrlC]) false false false eq_refl eq_refl) as (H & _).
    destruct (H [] eq_refl) as (wd & wa & _ & _ & _ & _ & _ & Hm). exact Hm.
  - destruct (menu_without_answer Py.decimal_int Py.strip_ascii ex_path_str
                (ex_env true) "proj" None
                [("3.10", ["3.10"; "proj"]); ("3.9", ["3.9"; "proj"])]
                (ex_world []) false false false eq_refl eq_refl) as (_ & H).
    destruct (H eq_refl) as (wd & wa & _ & _ & _ & _ & Hm). exact Hm.
Defined.

Lemma confirmation_without_answer_witness :
  (exists w',
      cmd_delete Py.decimal_int ex_path_str (ex_env false)
        (mkDelete "alpha" None false) (ex_world [CtrlC])
      = (Raise KeyboardInterrupt, w')
      /\ w_fs w' = ex_fs)
  /\ fst (main Py.decimal_int Py.strip_ascii ex_path_str (ex_env false)
            (Delete (mkDelete "alpha" None false)) (ex_world [])) = 1%Z.
Proof.
  split.
  - destruct (confirmation_without_answer Py.decimal_int Py.strip_ascii ex_path_str
                (ex_env false) (mkDelete "alpha" None false) (ex_world [CtrlC])
                (emit [Print "Using Python 3.9 environment."] (ex_world [CtrlC]))
                ["3.9"; "alpha"] eq_refl eq_refl) as (H & _).
    destruct (H [] eq_refl) as (w' & Hc & Hfs & _).
    exists w'. split; [exact Hc|exact Hfs].
  - destruct (confirmation_without_answer Py.decimal_int Py.strip_ascii ex_path_str
                (ex_env false) (mkDelete "alpha" None false) (ex_world [])
                (emit [Print "Using Python 3.9 environment."] (ex_world []))
                ["3.9"; "alpha"] eq_refl eq_refl) as (_ & H).
    destruct (H eq_refl) as (w' & _ & _ & Hm). exact Hm.
Defined.


Lemma marker_decides_existence_witness :
  (reported (listing Py.decimal_int ex_fs) "3.11" "proj"
   <-> environmentExists ex_fs "3.11" "proj" = true)
  /\ is_dir ex_fs ["3.11"; "proj"] = true
  /\ environmentExists ex_fs "3.11" "proj" = false
  /\ env_path ex_fs "proj" (Some "3.11") = None
  /\ env_path ex_fs "proj" (Some "3.9") = Some ["3.9"; "proj"].
Proof.
  destruct (marker_decides_existence Py.decimal_int ex_fs "3.11" "proj"
              eq_refl eq_refl) as (_ & H1 & _ & H3 & _).
  destruct (marker_decides_existence Py.decimal_int ex_fs "3.9" "proj"
              eq_refl eq_refl) as (_ & _ & _ & H4 & _).
  split; [exact H1|]. split; [reflexivity|]. split; [reflexivity|].
  split; [exact H3|exact H4].
Defined.

Lemma find_envs_by_name_distinct_witness :
  NoDup (map fst (find_envs_by_name ex_fs "proj" true))
  /\ (List.length (find_envs_by_name ex_fs "proj" false) <= 2)%nat.
Proof.
  destruct (find_envs_by_name_distinct ex_fs "proj" eq_refl) as (H1 & _ & H3).
  split; assumption.
Defined.

Lemma envs_by_version_keys_values_witness :
  map fst (envs_by_version ex_fs) = ["3.10"; "3.9"; "3.11"]
  /\ dict_get "3.11" (envs_by_version ex_fs) = Some []
  /\ dict_get "notes.txt" (envs_by_version ex_fs) = None.
Proof.
  destruct (envs_by_version_keys_values ex_fs eq_refl) as (H1 & H2 & _).
  split; [exact H1|]. split; [exact (H2 "3.11")|exact (H2 "notes.txt")].
Defined.

Lemma list_order_stable_witness :
  filter (tied (version_ltb Py.decimal_int) "3.x")
    (list_order Py.decimal_int
       [("3.b", Dir []); ("2.7", Dir []); ("3.a", Dir []); ("3.10", Dir [])])
  = ["3.b"; "3.a"].
Proof.
  exact (list_order_stable Py.decimal_int
           [("3.b", Dir []); ("2.7", Dir []); ("3.a", Dir []); ("3.10", Dir [])]
           "3.x" eq_refl).
Defined.

Lemma listing_sections_sorted_witness :
  StronglySorted (fun a b => String.leb a b = true) ["alpha"; "proj"].
Proof.
  destruct (listing_sections_sorted Py.decimal_int ex_fs "3.9" ["alpha"; "proj"])
    as (_ & H & _).
  - left. reflexivity.
  - exact H.
Defined.

Lemma create_twice_fails_witness :
  cmd_create Py.strip_ascii ex_path_str (ex_env_run false ex_run_ok)
    (mkCreate (Some "3.11") "beta")
    (snd (cmd_create Py.strip_ascii ex_path_str (ex_env_run false ex_run_ok)
            (mkCreate (Some "3.11") "beta") (ex_world [])))
  = (Raise (SystemExit "[!] Environment beta already exists."),
     snd (cmd_create Py.strip_ascii ex_path_str (ex_env_run false ex_run_ok)
            (mkCreate (Some "3.11") "beta") (ex_world []))).
Proof.
  apply (create_twice_fails Py.decimal_int Py.strip_ascii ex_path_str
           (ex_env_run false ex_run_ok) (mkCreate (Some "3.11") "beta")
           (ex_world []) _ "3.11").
  - left. reflexivity.
  - reflexivity.
  - reflexivity.
Defined.
